(** * Construction inventory extractor: the field-mapping pipeline of server.js

    A shallow embedding of the decision logic of [server.js]
    ([detectFieldMappings], [categorizeItem], [formatPurchaseDate],
    [buildDescription], [getFieldValue], [processAzureTable],
    [calculateItemConfidence], [validateItem] and the row loop of the
    [/extract-inventory] handler), and the properties its specification
    states about them. *)

From Stdlib Require Import ZArith NArith Ascii String List Lia.
From Stdlib Require Import DecimalString DecimalNat DecimalFacts.
From stdpp Require Import base option list gmap strings.

Local Open Scope N_scope.

(** ** JavaScript strings

    A JavaScript string is a sequence of UTF-16 code units.  Literals of
    the source are written [js "..."]; the two keywords with an n-tilde
    spell that code unit out. *)

Abbreviation codeunit := N (only parsing).
Abbreviation jsstring := (list N) (only parsing).

Definition js (s : string) : jsstring :=
  map N_of_ascii (list_ascii_of_string s).

Definition ntilde : codeunit := 241.

(** [\d] *)
Definition is_digit (c : codeunit) : bool := (48 <=? c) && (c <=? 57).

(** [[a-z0-9]] *)
Definition is_lower_alnum (c : codeunit) : bool :=
  ((97 <=? c) && (c <=? 122)) || is_digit c.

(** White space and line terminators: what [trim] strips and [\s] matches. *)
Definition is_space (c : codeunit) : bool :=
  ((9 <=? c) && (c <=? 13)) || (c =? 32) || (c =? 160) || (c =? 5760)
  || ((8192 <=? c) && (c <=? 8202)) || (c =? 8232) || (c =? 8233)
  || (c =? 8239) || (c =? 8287) || (c =? 12288) || (c =? 65279).

(** [String.prototype.toLowerCase], one code unit at a time: Basic Latin,
    Latin-1, and the two code units outside them whose lower-case form has
    a Basic Latin letter (U+0130 gives [i] and a combining dot, U+212A the
    Kelvin sign gives [k]).  Any other code unit is kept: its lower-case
    form has no code unit of [[a-z0-9]] nor U+00F1, and the tables of this
    file are written with those alone. *)
Definition lower_unit (c : codeunit) : jsstring :=
  if (65 <=? c) && (c <=? 90) then [c + 32]
  else if (192 <=? c) && (c <=? 222) && negb (c =? 215) then [c + 32]
  else if c =? 304 then [105; 775]
  else if c =? 8490 then [107]
  else [c].

Definition toLowerCase (s : jsstring) : jsstring := flat_map lower_unit s.

Fixpoint dropWhile (p : codeunit -> bool) (s : jsstring) : jsstring :=
  match s with
  | [] => []
  | c :: s' => if p c then dropWhile p s' else s
  end.

Fixpoint takeWhile (p : codeunit -> bool) (s : jsstring) : jsstring :=
  match s with
  | [] => []
  | c :: s' => if p c then c :: takeWhile p s' else []
  end.

(** [String.prototype.trim] *)
Definition trimStart (s : jsstring) : jsstring := dropWhile is_space s.

Definition trim (s : jsstring) : jsstring :=
  reverse (trimStart (reverse (trimStart s))).

(** Truthiness of a string: only the empty string is falsy. *)
Definition truthy (s : jsstring) : bool :=
  match s with [] => false | _ :: _ => true end.

(** [a || b] on strings. *)
Definition or_else (a b : jsstring) : jsstring :=
  if truthy a then a else b.

Fixpoint startsWith (s sub : jsstring) : bool :=
  match sub, s with
  | [], _ => true
  | _ :: _, [] => false
  | y :: sub', x :: s' => (x =? y) && startsWith s' sub'
  end.

(** [s.includes(sub)] *)
Fixpoint includes (s sub : jsstring) : bool :=
  startsWith s sub
  || match s with
     | [] => false
     | _ :: s' => includes s' sub
     end.

(** [s.padStart(n, '0')] *)
Definition padStart0 (n : nat) (s : jsstring) : jsstring :=
  replicate (n - length s) 48 ++ s.

(** [parts.join(sep)] *)
Fixpoint join (sep : jsstring) (parts : list jsstring) : jsstring :=
  match parts with
  | [] => []
  | [p] => p
  | p :: rest => p ++ sep ++ join sep rest
  end.

(** A non-negative integer printed by a template literal. *)
Definition decimal (n : nat) : jsstring :=
  js (NilEmpty.string_of_uint (Nat.to_uint n)).

(** [parseInt] of a string that starts with a run of decimal digits (the
    only strings it is given here come out of a [\d{4}] group); [None]
    stands for [NaN]. *)
Definition parseInt (s : jsstring) : option Z :=
  match takeWhile is_digit s with
  | [] => None
  | ds => Some (fold_left (fun acc c => (10 * acc + Z.of_N (c - 48))%Z) ds 0%Z)
  end.

(** ** The regular expressions of [formatPurchaseDate]

    Each is a sequence of groups [(\d{lo,hi})] and literal characters,
    searched for anywhere in the subject ([String.prototype.match]
    without the [g] flag: leftmost start, greedy counts with
    backtracking).  A match is the list of its groups, [m[1]] first. *)

Inductive ritem : Type :=
| RDigits (lo hi : nat)
| RChar (c : codeunit).

Definition first_some {A B : Type} (f : A -> option B) (l : list A) : option B :=
  fold_right (fun a rest => match f a with Some b => Some b | None => rest end)
             None l.

Definition digit_run (k : nat) (s : jsstring) : bool :=
  (length (take k s) =? k)%nat && forallb is_digit (take k s).

Fixpoint match_here (re : list ritem) (s : jsstring) : option (list jsstring) :=
  match re with
  | [] => Some []
  | RChar c :: re' =>
      match s with
      | x :: s' => if x =? c then match_here re' s' else None
      | [] => None
      end
  | RDigits lo hi :: re' =>
      first_some
        (fun k =>
           if digit_run k s
           then option_map (cons (take k s)) (match_here re' (drop k s))
           else None)
        (reverse (seq lo (S hi - lo)))
  end.

Fixpoint regex_match (re : list ritem) (s : jsstring) : option (list jsstring) :=
  match match_here re s with
  | Some m => Some m
  | None =>
      match s with
      | [] => None
      | _ :: s' => regex_match re s'
      end
  end.

(** [m[i]] for [i >= 1] *)
Definition group (i : nat) (m : list jsstring) : jsstring := nth (i - 1) m [].

Definition slash : codeunit := 47.
Definition dash : codeunit := 45.

(** ** [formatPurchaseDate] *)

Definition datePatterns : list (list ritem) :=
  [ [RDigits 1 2; RChar slash; RDigits 1 2; RChar slash; RDigits 4 4];
    [RDigits 1 2; RChar dash; RDigits 1 2; RChar dash; RDigits 4 4];
    [RDigits 4 4; RChar dash; RDigits 1 2; RChar dash; RDigits 1 2];
    [RDigits 4 4; RChar slash; RDigits 1 2; RChar slash; RDigits 1 2];
    [RDigits 4 4] ].

(** [year > 1900 && year <= new Date().getFullYear() + 5] *)
Definition yearAccepted (currentYear year : Z) : bool :=
  ((1900 <? year) && (year <=? currentYear + 5))%Z.

(** The [for ... of patterns] loop; [currentYear] is
    [new Date().getFullYear()]. *)
Fixpoint tryPatterns (currentYear : Z) (dateStr : jsstring)
    (ps : list (nat * list ritem)) : option jsstring :=
  match ps with
  | [] => None
  | (i, pattern) :: rest =>
      match regex_match pattern dateStr with
      | Some m =>
          if (i =? 4)%nat then
            match parseInt (group 1 m) with
            | Some year =>
                if yearAccepted currentYear year
                then Some (decimal (Z.to_nat year) ++ js "-01-01")
                else tryPatterns currentYear dateStr rest
            | None => tryPatterns currentYear dateStr rest
            end
          else if ((i =? 2) || (i =? 3))%nat then Some dateStr
          else
            let month := padStart0 2 (group 1 m) in
            let day := padStart0 2 (group 2 m) in
            let year := group 3 m in
            Some (year ++ js "-" ++ month ++ js "-" ++ day)
      | None => tryPatterns currentYear dateStr rest
      end
  end.

(** [None] is [null]; an absent argument is [None] too. *)
Definition formatPurchaseDate (currentYear : Z) (dateValue : option jsstring)
  : option jsstring :=
  match dateValue with
  | None => None
  | Some v =>
      if truthy v
      then tryPatterns currentYear (trim v) (imap pair datePatterns)
      else None
  end.

(** ** [categorizeItem] *)

Definition categories : list (jsstring * list jsstring) :=
  [ (js "Power Tools",
     [js "taladro"; js "martillo"; js "radial"; js "amoladora"; js "batidora";
      js "sierra"; js "drill"; js "hammer"; js "grinder"; js "mixer";
      js "saw"; js "cutter"]);
    (js "Safety Equipment",
     [js "arnes"; js "casco"; js "safety"; js "protective"; js "proteccion";
      js "se" ++ ntilde :: js "al"; js "helmet"; js "harness"; js "signal";
      js "warning"; js "guard"]);
    (js "Hand Tools",
     [js "llave"; js "destornillador"; js "pala"; js "martillo"; js "cincel";
      js "wrench"; js "screwdriver"; js "shovel"; js "chisel"; js "pliers"]);
    (js "Measuring Tools",
     [js "metro"; js "nivel"; js "regla"; js "medidor";
      js "measure"; js "level"; js "ruler"; js "gauge"]);
    (js "Power Equipment",
     [js "grupo"; js "generador"; js "compresor"; js "motor";
      js "generator"; js "compressor"; js "engine"; js "power"]);
    (js "Construction Materials",
     [js "cable"; js "tubo"; js "material"; js "alambre";
      js "pipe"; js "wire"; js "beam"; js "rod"]) ].

Fixpoint firstCategory (name : jsstring)
    (cats : list (jsstring * list jsstring)) : jsstring :=
  match cats with
  | [] => js "General Equipment"
  | (category, keywords) :: rest =>
      if existsb (fun keyword => includes name keyword) keywords
      then category
      else firstCategory name rest
  end.

(** [None] is a [null] or absent name. *)
Definition categorizeItem (itemName : option jsstring) : jsstring :=
  let name := toLowerCase (or_else (default [] itemName) []) in
  firstCategory name categories.

(** ** [detectFieldMappings] *)

(** [h.toLowerCase().replace(/[^a-z0-9]/g, '').replace(/\s+/g, '')] *)
Definition normalizeHeader (h : jsstring) : jsstring :=
  filter (fun c => Is_true (negb (is_space c)))
         (filter (fun c => Is_true (is_lower_alnum c)) (toLowerCase h)).

(** The entries of [fieldPatterns], in the order [Object.entries] lists
    them. *)
Definition fieldPatterns : list (string * list jsstring) :=
  [ ("itemName"%string,
     [js "nombre"; js "item"; js "descripcion"; js "description";
      js "herramienta"; js "tool"; js "equipment"; js "producto";
      js "product"; js "material"; js "articulo"; js "name"]);
    ("purchaseDate"%string,
     [js "fecha"; js "date"; js "compra"; js "purchase";
      js "a" ++ ntilde :: js "o"; js "year"; js "adquisicion";
      js "fechacompra"; js "purchasedate"; js "bought"; js "acquired"]);
    ("condition"%string,
     [js "condicion"; js "condition"; js "estado"; js "state"; js "status";
      js "situacion"]);
    ("brand"%string,
     [js "marca"; js "brand"; js "fabricante"; js "manufacturer"]);
    ("model"%string, [js "modelo"; js "model"; js "tipo"; js "type"]);
    ("serialNumber"%string,
     [js "serie"; js "serial"; js "numero"; js "nserie"; js "serialnumber"]);
    ("specifications"%string,
     [js "caracteristicas"; js "specs"; js "specifications"; js "features";
      js "detalles"]);
    ("supplier"%string, [js "proveedor"; js "supplier"; js "vendor"]);
    ("quantity"%string,
     [js "cant"; js "cantidad"; js "qty"; js "quantity"; js "unidades";
      js "units"]) ].

(** [patterns.some(pattern => header.includes(pattern) ||
    pattern.includes(header))] *)
Definition headerMatches (patterns : list jsstring) (header : jsstring) : bool :=
  existsb (fun pattern => includes header pattern || includes pattern header)
          patterns.

(** [!mappings[field]]: true when the field has no entry, and also when
    its entry is the index 0. *)
Definition not_index (o : option nat) : bool :=
  match o with
  | None => true
  | Some O => true
  | Some (S _) => false
  end.

(** The body of the inner [forEach], at one header. *)
Definition mapHeader (field : string) (patterns : list jsstring)
    (mappings : gmap string nat) (ih : nat * jsstring) : gmap string nat :=
  if headerMatches patterns ih.2
  then if not_index (mappings !! field)
       then <[field := ih.1]> mappings
       else mappings
  else mappings.

(** The body of the outer [forEach], at one field. *)
Definition mapField (normalizedHeaders : list jsstring)
    (mappings : gmap string nat) (fp : string * list jsstring)
  : gmap string nat :=
  fold_left (mapHeader fp.1 fp.2) (imap pair normalizedHeaders) mappings.

Definition detectFieldMappings (headers : list jsstring) : gmap string nat :=
  let normalizedHeaders := map normalizeHeader headers in
  fold_left (mapField normalizedHeaders) fieldPatterns ∅.

(** ** Outcome of a call

    A call returns a value or throws.  [EmptyTableError] is the exception
    the specification names for the Table Normalizer; [RangeError] is what
    the engine throws when a call is given more arguments than it can
    hold. *)

Inductive exn : Type :=
| EmptyTableError
| RangeError.

Inductive completion (A : Type) : Type :=
| Returned (v : A)
| Thrown (e : exn).
Arguments Returned {A} v.
Arguments Thrown {A} e.

Definition bind {A B : Type} (c : completion A) (k : A -> completion B)
  : completion B :=
  match c with
  | Returned v => k v
  | Thrown e => Thrown e
  end.

(** ** [processAzureTable] *)

Record AzureCell : Type := {
  rowIndex : nat;
  columnIndex : nat;
  content : option jsstring   (* [None]: the cell has no [content] *)
}.

Record AzureTable : Type := { cells : list AzureCell }.

Record RawTable : Type := {
  headers : list jsstring;
  rows : list (list jsstring)
}.

(** The key [`${row}-${col}`] of [cellMap]. *)
Definition cellKey (row col : nat) : jsstring :=
  decimal row ++ dash :: decimal col.

(** [cellMap[key] = cell.content || ''] *)
Definition storeCell (cellMap : gmap (list N) (list N)) (cell : AzureCell)
  : gmap (list N) (list N) :=
  <[cellKey (rowIndex cell) (columnIndex cell) :=
      or_else (default [] (content cell)) []]> cellMap.

(** [cellMap[key] || ''] *)
Definition readCell (cellMap : gmap (list N) (list N)) (row col : nat)
  : jsstring :=
  or_else (default [] (cellMap !! cellKey row col)) [].

(** The value of [Math.max] on the arguments [xs], which are indices:
    [-Infinity] when there is no argument. *)
Inductive maxIndex : Type :=
| NegInfinity
| Finite (n : nat).

Definition Math_max (xs : list nat) : maxIndex :=
  fold_left (fun acc x =>
               match acc with
               | NegInfinity => Finite x
               | Finite m => Finite (Nat.max m x)
               end) xs NegInfinity.

(** [f(...xs)]: a spread call passes one argument for each element of
    [xs].  The engine holds the arguments of a call on its stack and throws
    a [RangeError] when there are more than fit; how many fit is not fixed
    by the language, so the number is a parameter, [argumentLimit].  A call
    without arguments is always possible. *)
Definition spread {A B : Type} (argumentLimit : nat) (f : list A -> B)
    (xs : list A) : completion B :=
  if (length xs <=? argumentLimit)%nat then Returned (f xs)
  else Thrown RangeError.

(** The values [i] takes in [for (let i = from; i <= bound; i++)]. *)
Definition loopTo (from : nat) (bound : maxIndex) : list nat :=
  match bound with
  | NegInfinity => []
  | Finite n => seq from (S n - from)
  end.

(** The body has no [throw]; the two calls [Math.max(...)] spread one
    argument for each cell and are the only steps that can throw.  Indices
    are natural numbers and the memory the two loops fill is not bounded
    here. *)
Definition processAzureTable (argumentLimit : nat) (table : AzureTable)
  : completion RawTable :=
  let cellMap := fold_left storeCell (cells table) ∅ in
  bind (spread argumentLimit Math_max (map rowIndex (cells table)))
    (fun maxRow =>
  bind (spread argumentLimit Math_max (map columnIndex (cells table)))
    (fun maxCol =>
  let headers := map (fun col => readCell cellMap 0 col) (loopTo 0 maxCol) in
  let rows :=
    map (fun row => map (fun col => readCell cellMap row col) (loopTo 0 maxCol))
        (loopTo 1 maxRow) in
  Returned {| headers := headers; rows := rows |})).

(** ** [getFieldValue], [buildDescription], [calculateItemConfidence],
    [validateItem] *)

(** [index] is [None] when the mapping has no entry ([undefined]). *)
Definition getFieldValue (row : list jsstring) (index : option nat) : jsstring :=
  match index with
  | Some i => trim (or_else (default [] (row !! i)) [])
  | None => []
  end.

Definition descriptionFields : list string :=
  ["brand"; "model"; "serialNumber"; "specifications"; "supplier";
   "quantity"]%string.

(** The body of the [forEach] of [buildDescription], at one field. *)
Definition describeField (row : list jsstring) (mappings : gmap string nat)
    (headers : list jsstring) (parts : list jsstring) (field : string)
  : list jsstring :=
  let value := getFieldValue row (mappings !! field) in
  if truthy value && truthy (trim value) then
    let header :=
      match mappings !! field with
      | Some i => default [] (headers !! i)
      | None => []
      end in
    let fieldName := or_else header (js field) in
    parts ++ [fieldName ++ js ": " ++ value]
  else parts.

Definition buildDescription (row : list jsstring) (mappings : gmap string nat)
    (headers : list jsstring) : jsstring :=
  let parts := fold_left (describeField row mappings headers)
                         descriptionFields [] in
  or_else (join (js " | ") parts) (js "No additional details available").

Definition calculateItemConfidence (row : list jsstring)
    (mappings : gmap string nat) : Z :=
  let score := 0%Z in
  let score := if truthy (getFieldValue row (mappings !! "itemName"%string))
               then (score + 50)%Z else score in
  let score := if truthy (getFieldValue row (mappings !! "brand"%string))
               then (score + 15)%Z else score in
  let score := if truthy (getFieldValue row (mappings !! "model"%string))
               then (score + 15)%Z else score in
  let score := if truthy (getFieldValue row (mappings !! "purchaseDate"%string))
               then (score + 10)%Z else score in
  let score := if truthy (getFieldValue row (mappings !! "specifications"%string))
               then (score + 10)%Z else score in
  Z.min score 100.

Record ValidationIssue : Type := {
  field : jsstring;
  message : jsstring;
  severity : jsstring
}.

Definition validateItem (row : list jsstring) (mappings : gmap string nat)
  : list ValidationIssue :=
  if negb (truthy (getFieldValue row (mappings !! "itemName"%string)))
  then [ {| field := js "itemName";
            message := js "Item name is required";
            severity := js "error" |} ]
  else [].

(** ** The [/extract-inventory] handler, from [result.tables] on *)

Record InventoryItem : Type := {
  id : jsstring;
  project : jsstring;
  itemName : jsstring;
  category : jsstring;
  condition : jsstring;
  purchaseDate : option jsstring;
  description : jsstring;
  confidence : Z;
  validationIssues : list ValidationIssue;
  source : jsstring
}.

Record ProcessingInfo : Type := {
  service : jsstring;
  tablesDetected : nat;
  confidenceScore : Z;
  targetFields : list string;
  fieldMappingSuccess : bool
}.

Record ExtractionResult : Type := {
  success : bool;
  extractedItems : list InventoryItem;
  totalItems : nat;
  projectName : jsstring;
  processingInfo : ProcessingInfo
}.

(** [Object.keys(TARGET_FIELDS)] *)
Definition TARGET_FIELDS_keys : list string :=
  ["project"; "itemName"; "category"; "condition"; "purchaseDate";
   "description"]%string.

(** [row.some(cell => cell.trim())] *)
Definition rowHasContent (row : list jsstring) : bool :=
  existsb (fun cell => truthy (trim cell)) row.

(** The object literal built for one row. *)
Definition makeItem (currentYear : Z) (project : jsstring)
    (headers : list jsstring) (fieldMappings : gmap string nat)
    (index : nat) (row : list jsstring) : InventoryItem :=
  let itemName :=
    or_else (getFieldValue row (fieldMappings !! "itemName"%string))
            (js "Item " ++ decimal (index + 1)) in
  let confidence := calculateItemConfidence row fieldMappings in
  {| id := js "azure_" ++ decimal index;
     project := project;
     itemName := trim itemName;
     category := categorizeItem (Some itemName);
     condition :=
       or_else (getFieldValue row (fieldMappings !! "condition"%string))
               (js "Good");
     purchaseDate :=
       formatPurchaseDate currentYear
         (Some (getFieldValue row (fieldMappings !! "purchaseDate"%string)));
     description := buildDescription row fieldMappings headers;
     confidence := confidence;
     validationIssues := validateItem row fieldMappings;
     source := js "azure_ai" |}.

(** The body of [tableData.rows.forEach((row, index) => ...)] on the pair
    [(extractedItems, totalConfidence)]. *)
Definition processRow (currentYear : Z) (project : jsstring)
    (headers : list jsstring) (fieldMappings : gmap string nat)
    (st : list InventoryItem * Z) (ir : nat * list jsstring)
  : list InventoryItem * Z :=
  if rowHasContent ir.2 then
    let item := makeItem currentYear project headers fieldMappings ir.1 ir.2 in
    (st.1 ++ [item], (st.2 + confidence item)%Z)
  else st.

(** [Math.round(total / n)] for an integer [total >= 0] and [n > 0]: the
    quotient rounded to the nearest integer, halves upwards.  (Exact
    rational arithmetic; the double quotient of the source rounds the same
    way for every table of fewer than 2^45 rows.) *)
Definition roundDiv (total : Z) (n : nat) : Z :=
  ((2 * total + Z.of_nat n) / (2 * Z.of_nat n))%Z.

(** The guarded row loop: the final [(extractedItems, totalConfidence)]. *)
Definition processRows (currentYear : Z) (project : jsstring)
    (tableData : RawTable) : list InventoryItem * Z :=
  if (0 <? length (headers tableData))%nat
     && (0 <? length (rows tableData))%nat
  then
    let fieldMappings := detectFieldMappings (headers tableData) in
    fold_left
      (processRow currentYear project (headers tableData) fieldMappings)
      (imap pair (rows tableData)) ([], 0%Z)
  else ([], 0%Z).

(** [avgConfidence] *)
Definition averageConfidence (extractedItems : list InventoryItem)
    (totalConfidence : Z) : Z :=
  if (0 <? length extractedItems)%nat
  then roundDiv totalConfidence (length extractedItems)
  else 0%Z.

(** [result.tables] is [None] when the analysis result has no [tables]. *)
Definition extractInventory (argumentLimit : nat) (currentYear : Z)
    (project : jsstring) (result_tables : option (list AzureTable))
  : completion ExtractionResult :=
  let tables := default [] result_tables in
  bind
    (match tables with
     | mainTable :: _ =>
         bind (processAzureTable argumentLimit mainTable) (fun tableData =>
           Returned (processRows currentYear project tableData))
     | [] => Returned ([], 0%Z)
     end)
    (fun st =>
       let extractedItems := st.1 in
       let totalConfidence := st.2 in
       let avgConfidence := averageConfidence extractedItems totalConfidence in
       Returned
         {| success := true;
            extractedItems := extractedItems;
            totalItems := length extractedItems;
            projectName := project;
            processingInfo :=
              {| service := js "Azure Document Intelligence";
                 tablesDetected := length tables;
                 confidenceScore := avgConfidence;
                 targetFields := TARGET_FIELDS_keys;
                 fieldMappingSuccess := (0 <? length extractedItems)%nat |} |}).

(** ** What the properties are stated with *)

(** The table [processAzureTable] builds from the cells once both spread
    calls have returned. *)
Definition tableOfCells (cs : list AzureCell) : RawTable :=
  let cellMap := fold_left storeCell cs ∅ in
  let maxRow := Math_max (map rowIndex cs) in
  let maxCol := Math_max (map columnIndex cs) in
  {| headers := map (fun col => readCell cellMap 0 col) (loopTo 0 maxCol);
     rows :=
       map (fun row =>
              map (fun col => readCell cellMap row col) (loopTo 0 maxCol))
           (loopTo 1 maxRow) |}.

(** The target fields, in declaration order. *)
Definition targetFields_declared : list string := map fst fieldPatterns.

(** The columns whose normalized header passes the test for [patterns],
    in column order. *)
Definition matchingColumns (patterns : list jsstring)
    (normalizedHeaders : list jsstring) : list nat :=
  map fst (List.filter (fun ih => headerMatches patterns ih.2)
                       (imap pair normalizedHeaders)).

(** The column the loop ends with, given the matching columns: the first
    one, unless that is column 0 and another column matches too. *)
Definition keptColumn (matching : list nat) : option nat :=
  match matching with
  | [] => None
  | O :: j :: _ => Some j
  | i :: _ => Some i
  end.

(** The effect of one matching column on a field's entry. *)
Definition assignColumn (o : option nat) (i : nat) : option nat :=
  if not_index o then Some i else o.

Definition atCoordinate (r c : nat) (x : AzureCell) : bool :=
  ((rowIndex x =? r) && (columnIndex x =? c))%nat.

(** The content of the input at a coordinate: that of the last cell given
    for it, and the empty string when no cell is given for it or the cell
    has no content. *)
Definition contentAt (cs : list AzureCell) (r c : nat) : jsstring :=
  match last (List.filter (atCoordinate r c) cs) with
  | Some x => default [] (content x)
  | None => []
  end.

(** The weights of the specification. *)
Definition confidenceWeights : list (string * Z) :=
  [ ("itemName", 50); ("brand", 15); ("model", 15); ("purchaseDate", 10);
    ("specifications", 10) ]%string%Z.

(** A field is present in a row when it is mapped to a column and the
    row's cell in that column is non-empty after trimming. *)
Definition fieldPresent (row : list jsstring) (mappings : gmap string nat)
    (fld : string) : bool :=
  match mappings !! fld with
  | Some i =>
      match row !! i with
      | Some c => truthy (trim c)
      | None => false
      end
  | None => false
  end.

(** The sum of the weights of the present fields. *)
Definition weightedSum (row : list jsstring) (mappings : gmap string nat) : Z :=
  foldr (fun fw acc => if fieldPresent row mappings fw.1
                       then (fw.2 + acc)%Z else acc)
        0%Z confidenceWeights.

(** A row is blank when every cell is empty after trimming. *)
Definition blankRow (row : list jsstring) : Prop :=
  Forall (fun c => trim c = []) row.

(** The indexed rows that the loop turns into items. *)
Definition producedRows (rows : list (list jsstring))
  : list (nat * list jsstring) :=
  List.filter (fun ir => rowHasContent ir.2) (imap pair rows).

Definition sumZ (l : list Z) : Z := foldr Z.add 0%Z l.

(** ** Example inputs *)

(** A cell with text, for the examples. *)
Definition textCell (r c : nat) (s : string) : AzureCell :=
  {| rowIndex := r; columnIndex := c; content := Some (js s) |}.

Definition emptyRawTable : RawTable := {| headers := []; rows := [] |}.

Definition scenarioTable : AzureTable :=
  {| cells := [ textCell 0 0 "Nombre"; textCell 0 1 "Marca";
                textCell 0 2 "Fecha Compra";
                textCell 1 0 "Taladro Bosch"; textCell 1 1 "Bosch";
                textCell 1 2 "05/14/2023" ] |}.

Definition scenarioRawTable : RawTable :=
  {| headers := [js "Nombre"; js "Marca"; js "Fecha Compra"];
     rows := [[js "Taladro Bosch"; js "Bosch"; js "05/14/2023"]] |}.

Definition scenarioItem (project : jsstring) : InventoryItem :=
  {| id := js "azure_0";
     project := project;
     itemName := js "Taladro Bosch";
     category := js "Power Tools";
     condition := js "Good";
     purchaseDate := Some (js "2023-05-14");
     description := js "Marca: Bosch";
     confidence := 75;
     validationIssues := [];
     source := js "azure_ai" |}.

Definition headerOnlyTable : AzureTable :=
  {| cells := [textCell 0 0 "Nombre"; textCell 0 1 "Marca"] |}.

Definition blankRowTable : RawTable :=
  {| headers := [js "Nombre"; js "Marca"];
     rows := [ [js "Taladro"; js "Bosch"]; [js " "; []]; [js "Casco"; []] ] |}.

Definition sparseTable : AzureTable :=
  {| cells := [ textCell 0 0 "Nombre"; textCell 2 1 "Bosch";
                {| rowIndex := 1; columnIndex := 0; content := None |} ] |}.

(** * More of server.js *)

(** ** The [/extract-inventory] handler, up to [result.tables] *)

Definition dot : codeunit := 46.

(** A code unit and a lower-case letter of a pattern match under the [i]
    flag when the code unit is that letter in either case. *)
Definition lowerAscii (c : codeunit) : codeunit :=
  if (65 <=? c) && (c <=? 90) then c + 32 else c.

Fixpoint equalIgnoringCase (s ext : jsstring) : bool :=
  match s, ext with
  | [], [] => true
  | x :: s', p :: ext' => (lowerAscii x =? p) && equalIgnoringCase s' ext'
  | _, _ => false
  end.

(** [s] is, to its end, a dot and one of the extensions. *)
Definition isExtension (exts : list jsstring) (s : jsstring) : bool :=
  match s with
  | x :: rest => (x =? dot) && existsb (equalIgnoringCase rest) exts
  | [] => false
  end.

(** The match of [/\.(ext1|ext2|...)$/i] in [s]: what is before it, when
    there is one (the leftmost start from which the rest of [s] is a dot
    and an extension). *)
Fixpoint beforeExtension (exts : list jsstring) (s : jsstring)
  : option jsstring :=
  if isExtension exts s then Some []
  else match s with
       | [] => None
       | c :: s' => option_map (cons c) (beforeExtension exts s')
       end.

Definition excelExtensions : list jsstring := [js "xlsx"; js "xls"].

Definition knownExtensions : list jsstring :=
  [js "pdf"; js "csv"; js "png"; js "jpg"; js "jpeg"].

(** [originalname.match(/\.(xlsx|xls)$/i)] is not null *)
Definition isExcelName (name : jsstring) : bool :=
  match beforeExtension excelExtensions name with
  | Some _ => true
  | None => false
  end.

(** [.replace(/\.(pdf|csv|png|jpg|jpeg)$/i, '')] *)
Definition stripKnownExtension (name : jsstring) : jsstring :=
  default name (beforeExtension knownExtensions name).

(** [.replace(/[-_]/g, ' ')] *)
Definition dashesToSpaces (s : jsstring) : jsstring :=
  map (fun c => if (c =? 45) || (c =? 95) then 32 else c) s.

Record UploadedFile : Type := {
  originalname : jsstring;
  buffer : list N
}.

(** What awaiting the analysis of a document gives: the [tables] of the
    result ([None] when the result has none), or a thrown error with its
    message. *)
Inductive analysis : Type :=
| Analyzed (result_tables : option (list AzureTable))
| AnalysisFailed (errorMessage : jsstring).

(** [error.message] in the [catch] block. *)
Inductive errorDetails : Type :=
| MessageText (text : jsstring)
| MessageOf (e : exn).

Inductive responseBody : Type :=
| ErrorJson (error : jsstring) (details : option errorDetails)
            (solution : option jsstring)
| ResultJson (result : ExtractionResult).

Record HttpResponse : Type := {
  status : nat;
  body : responseBody
}.

Definition arrow : codeunit := 8594.

Section Handler.

(** [String.prototype.toUpperCase] and the analysis service, both outside
    this file, and the number of arguments the engine accepts in one
    call. *)
Variable toUpperCase : jsstring -> jsstring.
Variable analyze : list N -> analysis.
Variable argumentLimit : nat.

Definition deriveProjectName (originalname : jsstring) : jsstring :=
  toUpperCase (dashesToSpaces (stripKnownExtension originalname)).

(** [file] is [None] when the request has no file. *)
Definition handleExtractInventory (currentYear : Z)
    (file : option UploadedFile) : HttpResponse :=
  match file with
  | None =>
      {| status := 400; body := ErrorJson (js "No file uploaded") None None |}
  | Some f =>
      if isExcelName (originalname f) then
        {| status := 400;
           body := ErrorJson
                     (js "Excel format requires conversion")
                     (Some (MessageText
                              (js "Please convert Excel to PDF for best results")))
                     (Some (js "Open Excel " ++ arrow :: js " File "
                            ++ arrow :: js " Save As " ++ arrow :: js " PDF")) |}
      else
        let failed details :=
          {| status := 500;
             body := ErrorJson
                       (js "Processing failed") (Some details)
                       (Some (js "Try converting to PDF or check file format")) |} in
        match analyze (buffer f) with
        | AnalysisFailed message => failed (MessageText message)
        | Analyzed result_tables =>
            let projectName := deriveProjectName (originalname f) in
            match extractInventory argumentLimit currentYear projectName
                    result_tables with
            | Returned result => {| status := 200; body := ResultJson result |}
            | Thrown e => failed (MessageOf e)
            end
        end
  end.

End Handler.

(** The class the page gives a confidence: [>= 90] high, [>= 70] medium,
    low below. *)
Definition confidenceClass (confidence : Z) : jsstring :=
  if (90 <=? confidence)%Z then js "high"
  else if (70 <=? confidence)%Z then js "medium"
  else js "low".

(** * What the further properties are stated with *)

(** The response of the [catch] block to an error whose message is
    [details]. *)
Definition processingFailed (details : errorDetails) : HttpResponse :=
  {| status := 500;
     body := ErrorJson
               (js "Processing failed") (Some details)
               (Some (js "Try converting to PDF or check file format")) |}.

(** Whether the first table of the analysis result has more cells than the
    engine accepts as the arguments of one call. *)
Definition firstTableTooLarge (argumentLimit : nat)
    (result_tables : option (list AzureTable)) : bool :=
  match default [] result_tables with
  | mainTable :: _ => (argumentLimit <? length (cells mainTable))%nat
  | [] => false
  end.

(** The keyword list [categories] holds for a category; empty for a name
    that is not one of its keys. *)
Definition keywordsOf (category : jsstring) : list jsstring :=
  match List.find (fun ck => bool_decide (ck.1 = category)) categories with
  | Some ck => ck.2
  | None => []
  end.

Definition defaultCategory : jsstring := js "General Equipment".

(** A string that [trim] leaves as it is: it neither starts nor ends with
    white space. *)
Definition trimmed (s : jsstring) : Prop :=
  dropWhile is_space s = s /\ dropWhile is_space (reverse s) = reverse s.

(** A string of decimal digits. *)
Definition digits (s : jsstring) : Prop := Forall (fun c => is_digit c = true) s.

(** A renaming of code units by a table, the identity outside the table.
    It carries a match on one string over to every string of the same
    shape. *)
Definition renameUnits (tbl : list (N * N)) (x : N) : N :=
  match List.find (fun ka => x =? ka.1) tbl with
  | Some ka => ka.2
  | None => x
  end.

(** A table that renames digits to digits. *)
Definition digitTable (tbl : list (N * N)) : Prop :=
  Forall (fun ka => is_digit ka.1 = true /\ is_digit ka.2 = true) tbl.

(** The literal characters of a pattern are not digits. *)
Definition literalsNotDigits (re : list ritem) : Prop :=
  Forall (fun it => match it with
                    | RChar c => is_digit c = false
                    | RDigits _ _ => True
                    end) re.

(** The bounds of the groups of a pattern, in order. *)
Definition groupBounds (re : list ritem) : list (nat * nat) :=
  flat_map (fun it => match it with
                      | RDigits lo hi => [(lo, hi)]
                      | RChar _ => []
                      end) re.

(** The number a string of decimal digits denotes. *)
Definition digitsValue (ds : jsstring) : nat :=
  fold_left (fun acc c => (10 * acc + N.to_nat (c - 48))%nat) ds 0%nat.

(** The decimal numeral of the standard library with the digits [ds]. *)
Fixpoint uintOfDigits (ds : jsstring) : Decimal.uint :=
  match ds with
  | [] => Decimal.Nil
  | c :: ds' =>
      let u := uintOfDigits ds' in
      match N.to_nat (c - 48) with
      | 0 => Decimal.D0 u | 1 => Decimal.D1 u | 2 => Decimal.D2 u
      | 3 => Decimal.D3 u | 4 => Decimal.D4 u | 5 => Decimal.D5 u
      | 6 => Decimal.D6 u | 7 => Decimal.D7 u | 8 => Decimal.D8 u
      | _ => Decimal.D9 u
      end%nat
  end.

(** A date written [YYYY-MM-DD]: four digits, two digits and two digits
    between dashes. *)
Definition canonicalDate (s : jsstring) : Prop :=
  exists y m d,
    digits y /\ digits m /\ digits d
    /\ length y = 4%nat /\ length m = 2%nat /\ length d = 2%nat
    /\ s = y ++ dash :: m ++ dash :: d.

(** The label [buildDescription] puts before a field's value: the text of
    the header the field is mapped to, and the field's own name when that
    text is empty. *)
Definition descriptionLabel (mappings : gmap string nat)
    (headers : list jsstring) (fld : string) : jsstring :=
  or_else (match mappings !! fld with
           | Some i => default [] (headers !! i)
           | None => []
           end) (js fld).

(** The parts of a description: one for each secondary field present in
    the row, in the order of [descriptionFields]. *)
Definition descriptionParts (row : list jsstring) (mappings : gmap string nat)
    (headers : list jsstring) : list jsstring :=
  map (fun fld => descriptionLabel mappings headers fld ++ js ": "
                  ++ getFieldValue row (mappings !! fld))
      (List.filter (fieldPresent row mappings) descriptionFields).

(** The one issue [validateItem] can raise. *)
Definition missingNameIssue : ValidationIssue :=
  {| field := js "itemName";
     message := js "Item name is required";
     severity := js "error" |}.

(** The code units of a fallback item name in lower case: the letters of
    "item", the space and the digits. *)
Definition fallbackNameUnit (c : N) : bool :=
  (c =? 105) || (c =? 116) || (c =? 101) || (c =? 109) || (c =? 32)
  || is_digit c.

(** The seven values [categorizeItem] can return. *)
Definition categoryNames : list jsstring :=
  map fst categories ++ [defaultCategory].

(** The coordinate of a cell. *)
Definition coordinate (x : AzureCell) : nat * nat :=
  (rowIndex x, columnIndex x).

(** The text of a normalized table at a coordinate of the input: row 0 is
    the headers, row [r + 1] is [rows[r]]. *)
Definition entryAt (tableData : RawTable) (r c : nat) : option jsstring :=
  match r with
  | O => headers tableData !! c
  | S r' => rows tableData !! r' ≫= (fun row => row !! c)
  end.

(** ** More example inputs *)

(** The body of the refusal of an Excel file. *)
Definition excelRefusal : HttpResponse :=
  {| status := 400;
     body := ErrorJson
               (js "Excel format requires conversion")
               (Some (MessageText
                        (js "Please convert Excel to PDF for best results")))
               (Some (js "Open Excel " ++ arrow :: js " File "
                      ++ arrow :: js " Save As " ++ arrow :: js " PDF")) |}.

(** An analysis service that fails on every document. *)
Definition failingService (message : jsstring) (document : list N) : analysis :=
  AnalysisFailed message.

(** An analysis service that finds the same tables in every document. *)
Definition constantService (tables : list AzureTable) (document : list N)
  : analysis :=
  Analyzed (Some tables).

(** A row whose item-name cell is empty, and a mapping for it. *)
Definition namelessRow : list jsstring := [[]; js "Bosch"].

Definition nameAndBrand : gmap string nat :=
  {[ "itemName"%string := 0%nat; "brand"%string := 1%nat ]}.

(** * Properties *)

(** Closed statements are settled by running the definitions. *)
Ltac by_evaluation := vm_compute; reflexivity.

(** ** Category Classifier *)

(** C7: [categorizeItem] gives "Power Tools" for "Taladro Percutor",
    "Safety Equipment" for "Casco de Seguridad", the default
    "General Equipment" for "Widget XYZ", and the default again for a null
    or absent name and for the empty name. *)
Theorem categorizeItem_examples :
  categorizeItem (Some (js "Taladro Percutor")) = js "Power Tools"
  /\ categorizeItem (Some (js "Casco de Seguridad")) = js "Safety Equipment"
  /\ categorizeItem (Some (js "Widget XYZ")) = js "General Equipment"
  /\ categorizeItem None = js "General Equipment"
  /\ categorizeItem (Some []) = js "General Equipment".
Proof. repeat split; by_evaluation. Qed.

(** ** Date Normalizer *)

Section DateNormalizer.

(** The value of [new Date().getFullYear()] when the call is made. *)
Variable currentYear : Z.

Lemma formatPurchaseDate_total (v : option jsstring) :
  formatPurchaseDate currentYear v = None
  \/ exists s, formatPurchaseDate currentYear v = Some s.
Proof. destruct (formatPurchaseDate currentYear v) as [s|]; eauto. Qed.

Lemma bare_year_2023 :
  (2018 <= currentYear)%Z -> yearAccepted currentYear 2023 = true.
Proof. intros H. unfold yearAccepted. apply andb_true_intro. split; lia. Qed.

Lemma bare_year_1850 : yearAccepted currentYear 1850 = false.
Proof. reflexivity. Qed.

(** C4: with the clock at 2018 or later, [formatPurchaseDate] returns
    "2023-05-14" unchanged, turns "05/14/2023" into "2023-05-14" and
    "2023" into "2023-01-01", returns null for "1850", for the empty
    string and for null, and on every input returns a string or null. *)
Theorem formatPurchaseDate_table :
  (2018 <= currentYear)%Z ->
  formatPurchaseDate currentYear (Some (js "2023-05-14"))
    = Some (js "2023-05-14")
  /\ formatPurchaseDate currentYear (Some (js "05/14/2023"))
    = Some (js "2023-05-14")
  /\ formatPurchaseDate currentYear (Some (js "2023"))
    = Some (js "2023-01-01")
  /\ formatPurchaseDate currentYear (Some (js "1850")) = None
  /\ formatPurchaseDate currentYear (Some []) = None
  /\ formatPurchaseDate currentYear None = None
  /\ (forall v, formatPurchaseDate currentYear v = None
                \/ exists s, formatPurchaseDate currentYear v = Some s).
Proof.
  intros Hclock.
  split; [by_evaluation|].
  split; [by_evaluation|].
  split.
  { cbv -[yearAccepted]. rewrite (bare_year_2023 Hclock). reflexivity. }
  split.
  { cbv -[yearAccepted]. rewrite bare_year_1850. reflexivity. }
  split; [reflexivity|].
  split; [reflexivity|].
  exact formatPurchaseDate_total.
Qed.

End DateNormalizer.

Lemma formatPurchaseDate_table_witness :
  (2018 <= 2026)%Z
  /\ formatPurchaseDate 2026 (Some (js "2023-05-14")) = Some (js "2023-05-14")
  /\ formatPurchaseDate 2026 (Some (js "05/14/2023")) = Some (js "2023-05-14")
  /\ formatPurchaseDate 2026 (Some (js "2023")) = Some (js "2023-01-01")
  /\ formatPurchaseDate 2026 (Some (js "1850")) = None
  /\ formatPurchaseDate 2026 (Some []) = None
  /\ formatPurchaseDate 2026 None = None
  /\ (forall v, formatPurchaseDate 2026 v = None
                \/ exists s, formatPurchaseDate 2026 v = Some s).
Proof.
  split; [lia|]. apply (formatPurchaseDate_table 2026). lia.
Defined.

(** ** Field Mapper *)

Lemma startsWith_nil (s : jsstring) : startsWith s [] = true.
Proof. destruct s; reflexivity. Qed.

(** Every string includes the empty string. *)
Lemma includes_nil (s : jsstring) : includes s [] = true.
Proof. destruct s; reflexivity. Qed.

(** C10: a header whose normalization is the empty string passes the
    two-way substring test against every pattern of every target field,
    and a headers list made of that single header maps all nine target
    fields to column 0. *)
Theorem blank_header_claims_every_field (h : jsstring) :
  normalizeHeader h = [] ->
  (forall fld patterns pattern,
      In (fld, patterns) fieldPatterns -> In pattern patterns ->
      includes (normalizeHeader h) pattern
      || includes pattern (normalizeHeader h) = true)
  /\ length targetFields_declared = 9%nat
  /\ Forall (fun fld => detectFieldMappings [h] !! fld = Some 0%nat)
            targetFields_declared.
Proof.
  intros Hblank. split; [|split].
  - intros fld patterns pattern _ _. rewrite Hblank, includes_nil.
    apply orb_true_r.
  - reflexivity.
  - unfold detectFieldMappings. cbn [map]. rewrite Hblank.
    repeat constructor; by_evaluation.
Qed.

Lemma blank_header_claims_every_field_witness :
  normalizeHeader (js " - ") = []
  /\ (forall fld patterns pattern,
        In (fld, patterns) fieldPatterns -> In pattern patterns ->
        includes (normalizeHeader (js " - ")) pattern
        || includes pattern (normalizeHeader (js " - ")) = true)
  /\ length targetFields_declared = 9%nat
  /\ Forall (fun fld => detectFieldMappings [js " - "] !! fld = Some 0%nat)
            targetFields_declared.
Proof.
  split; [reflexivity|].
  apply (blank_header_claims_every_field (js " - ")). reflexivity.
Defined.

(** C1, at the headers ["Nombre", "Item"]: the columns that pass the test
    for itemName are 0 and 1, so the first matching column is column 0,
    and the mapping ends with itemName at column 1. *)
Theorem itemName_first_match_at_column_0_is_replaced :
  (exists patterns,
      In ("itemName"%string, patterns) fieldPatterns
      /\ matchingColumns patterns
           (map normalizeHeader [js "Nombre"; js "Item"]) = [0; 1]%nat)
  /\ detectFieldMappings [js "Nombre"; js "Item"] !! "itemName"%string
     = Some 1%nat.
Proof.
  split.
  - eexists. split; [left; reflexivity | by_evaluation].
  - by_evaluation.
Qed.

(** ** Field Mapper: which column a field keeps *)

Section InnerLoop.

Variables (fld : string) (patterns : list jsstring).

Lemma mapHeader_lookup (m : gmap string nat) (ih : nat * jsstring) :
  mapHeader fld patterns m ih !! fld
  = if headerMatches patterns ih.2 then assignColumn (m !! fld) ih.1
    else m !! fld.
Proof.
  unfold mapHeader, assignColumn. destruct (headerMatches patterns ih.2);
    [|reflexivity].
  destruct (not_index (m !! fld)); [apply lookup_insert_eq | reflexivity].
Qed.

Lemma mapHeader_lookup_ne (other : string) (m : gmap string nat)
    (ih : nat * jsstring) :
  other <> fld -> mapHeader fld patterns m ih !! other = m !! other.
Proof.
  intros Hne. unfold mapHeader. destruct (headerMatches patterns ih.2);
    [|reflexivity].
  destruct (not_index (m !! fld)); [|reflexivity].
  apply lookup_insert_ne. congruence.
Qed.

Lemma fold_mapHeader_lookup (ihs : list (nat * jsstring))
    (m : gmap string nat) :
  fold_left (mapHeader fld patterns) ihs m !! fld
  = fold_left assignColumn
      (map fst (List.filter (fun ih => headerMatches patterns ih.2) ihs))
      (m !! fld).
Proof.
  revert m. induction ihs as [|ih ihs IH]; intros m; [reflexivity|].
  cbn [fold_left List.filter]. rewrite IH, mapHeader_lookup.
  destruct (headerMatches patterns ih.2); reflexivity.
Qed.

Lemma fold_mapHeader_lookup_ne (other : string)
    (ihs : list (nat * jsstring)) (m : gmap string nat) :
  other <> fld ->
  fold_left (mapHeader fld patterns) ihs m !! other = m !! other.
Proof.
  intros Hne. revert m. induction ihs as [|ih ihs IH]; intros m;
    [reflexivity|].
  cbn [fold_left]. rewrite IH. apply mapHeader_lookup_ne. assumption.
Qed.

End InnerLoop.

(** An entry at a column other than 0 is final. *)
Lemma assignColumn_final (l : list nat) (k : nat) :
  fold_left assignColumn l (Some (S k)) = Some (S k).
Proof. induction l as [|i l IH]; [reflexivity | exact IH]. Qed.

Lemma matching_from (patterns : list jsstring) (hs : list jsstring)
    (g : nat -> nat) (k : nat) :
  (forall i, (k <= g i)%nat) ->
  Forall (fun i => (k <= i)%nat)
    (map fst (List.filter (fun ih => headerMatches patterns ih.2)
                          (imap (fun i h => (g i, h)) hs))).
Proof.
  revert g. induction hs as [|h hs IH]; intros g Hg; [constructor|].
  cbn [imap List.filter snd].
  destruct (headerMatches patterns h).
  - cbn [map fst]. constructor; [apply Hg|].
    apply (IH (g ∘ S)). intros i. apply Hg.
  - apply (IH (g ∘ S)). intros i. apply Hg.
Qed.

(** Column 0 can only be the first of the matching columns. *)
Lemma matchingColumns_tail_positive (patterns : list jsstring)
    (hs : list jsstring) (i : nat) (rest : list nat) :
  matchingColumns patterns hs = i :: rest ->
  Forall (fun j => (1 <= j)%nat) rest.
Proof.
  unfold matchingColumns. destruct hs as [|h hs]; [discriminate|].
  cbn [imap List.filter snd].
  pose proof (matching_from patterns hs (fun i => S i) 1
                (fun i => le_n_S _ _ (Nat.le_0_l i))) as Htail.
  cbv beta in Htail.
  change (imap (pair ∘ S) hs) with (imap (fun i x => (S i, x)) hs).
  destruct (headerMatches patterns h); cbn [map fst].
  - intros H. inversion H; subst. exact Htail.
  - intros H. rewrite H in Htail. inversion Htail; assumption.
Qed.

Lemma assignColumn_keptColumn (patterns : list jsstring) (hs : list jsstring) :
  fold_left assignColumn (matchingColumns patterns hs) None
  = keptColumn (matchingColumns patterns hs).
Proof.
  destruct (matchingColumns patterns hs) as [|i rest] eqn:Hm; [reflexivity|].
  apply matchingColumns_tail_positive in Hm.
  cbn [fold_left]. change (assignColumn None i) with (Some i).
  destruct i as [|i]; [|apply assignColumn_final].
  destruct rest as [|j rest]; [reflexivity|].
  inversion Hm as [|? ? Hj _]; subst. destruct j as [|j]; [lia|].
  cbn [fold_left]. change (assignColumn (Some 0%nat) (S j)) with (Some (S j)).
  apply assignColumn_final.
Qed.

Lemma fold_mapField_lookup_ne (nh : list jsstring) (fld : string)
    (fps : list (string * list jsstring)) (m : gmap string nat) :
  ~ In fld (map fst fps) ->
  fold_left (mapField nh) fps m !! fld = m !! fld.
Proof.
  revert m. induction fps as [|fp fps IH]; intros m Hnot; [reflexivity|].
  cbn [fold_left]. rewrite IH.
  - unfold mapField. apply fold_mapHeader_lookup_ne.
    intros ->. apply Hnot. left. reflexivity.
  - intros Hin. apply Hnot. right. assumption.
Qed.

Lemma fold_mapField_lookup (nh : list jsstring) (fld : string)
    (patterns : list jsstring) (fps : list (string * list jsstring))
    (m : gmap string nat) :
  List.NoDup (map fst fps) -> In (fld, patterns) fps ->
  fold_left (mapField nh) fps m !! fld
  = fold_left assignColumn (matchingColumns patterns nh) (m !! fld).
Proof.
  revert m. induction fps as [|fp fps IH]; intros m Hnd Hin; [destruct Hin|].
  cbn [map] in Hnd. inversion Hnd as [|? ? Hfresh Hnd']; subst.
  cbn [fold_left]. destruct Hin as [-> | Hin].
  - rewrite fold_mapField_lookup_ne by exact Hfresh.
    unfold mapField. cbn [fst snd]. apply fold_mapHeader_lookup.
  - rewrite IH by assumption. f_equal.
    unfold mapField. apply fold_mapHeader_lookup_ne.
    intros ->. apply Hfresh. apply (in_map fst) in Hin. exact Hin.
Qed.

Lemma fieldPatterns_NoDup : List.NoDup (map fst fieldPatterns).
Proof.
  cbn. repeat (constructor; [cbn; intuition discriminate|]). constructor.
Qed.

(** What [detectFieldMappings] gives for each target field, on every
    headers list. *)
Lemma detectFieldMappings_lookup (headers : list jsstring) (fld : string)
    (patterns : list jsstring) :
  In (fld, patterns) fieldPatterns ->
  detectFieldMappings headers !! fld
  = keptColumn (matchingColumns patterns (map normalizeHeader headers)).
Proof.
  intros Hin. unfold detectFieldMappings.
  rewrite (fold_mapField_lookup _ fld patterns) by
    (exact fieldPatterns_NoDup || exact Hin).
  rewrite lookup_empty. apply assignColumn_keptColumn.
Qed.

(** First match wins whenever the first matching column is not column 0,
    and when column 0 is the only matching column. *)
Lemma first_match_wins_past_column_0 (headers : list jsstring) (fld : string)
    (patterns : list jsstring) :
  In (fld, patterns) fieldPatterns ->
  match matchingColumns patterns (map normalizeHeader headers) with
  | O :: _ :: _ => True
  | matching => detectFieldMappings headers !! fld = head matching
  end.
Proof.
  intros Hin. rewrite (detectFieldMappings_lookup _ _ _ Hin).
  destruct (matchingColumns _ _) as [|[|i] [|j rest]]; auto.
Qed.

(** X5: when column 0 and a later column both match a field, the field
    is mapped to the first later one. *)
Lemma column_0_is_not_kept (headers : list jsstring) (fld : string)
    (patterns : list jsstring) (j : nat) (rest : list nat) :
  In (fld, patterns) fieldPatterns ->
  matchingColumns patterns (map normalizeHeader headers) = O :: j :: rest ->
  detectFieldMappings headers !! fld = Some j /\ (1 <= j)%nat.
Proof.
  intros Hin Hm. rewrite (detectFieldMappings_lookup _ _ _ Hin), Hm.
  split; [reflexivity|].
  apply matchingColumns_tail_positive in Hm. inversion Hm; assumption.
Qed.

(** ** Confidence Scorer *)

Lemma or_else_nil (s : jsstring) : or_else s [] = s.
Proof. destruct s; reflexivity. Qed.

Lemma getFieldValue_truthy (row : list jsstring) (mappings : gmap string nat)
    (fld : string) :
  truthy (getFieldValue row (mappings !! fld)) = fieldPresent row mappings fld.
Proof.
  unfold getFieldValue, fieldPresent.
  destruct (mappings !! fld) as [i|]; [|reflexivity].
  rewrite or_else_nil. destruct (row !! i) as [c|]; reflexivity.
Qed.

(** C5: the confidence of a row is the sum of the weights (itemName 50,
    brand 15, model 15, purchaseDate 10, specifications 10) of the mapped
    fields whose cell is non-empty after trimming, capped at 100, and it
    lies between 0 and 100. *)
Theorem confidence_is_capped_weighted_sum (row : list jsstring)
    (mappings : gmap string nat) :
  calculateItemConfidence row mappings = Z.min (weightedSum row mappings) 100
  /\ (0 <= calculateItemConfidence row mappings <= 100)%Z.
Proof.
  unfold calculateItemConfidence, weightedSum, confidenceWeights.
  rewrite !getFieldValue_truthy. cbn [foldr fst snd].
  destruct (fieldPresent row mappings "itemName"),
           (fieldPresent row mappings "brand"),
           (fieldPresent row mappings "model"),
           (fieldPresent row mappings "purchaseDate"),
           (fieldPresent row mappings "specifications");
    split; vm_compute; try reflexivity; split; discriminate.
Qed.

(** ** Table Normalizer: the two spread calls *)

Lemma Returned_inj {A : Type} (a b : A) : Returned a = Returned b -> a = b.
Proof. congruence. Qed.

(** Both calls [Math.max(...)] are given one argument for each cell: they
    return together or the first one throws. *)
Lemma processAzureTable_by_limit (argumentLimit : nat) (table : AzureTable) :
  processAzureTable argumentLimit table
  = if (length (cells table) <=? argumentLimit)%nat
    then Returned (tableOfCells (cells table))
    else Thrown RangeError.
Proof.
  unfold processAzureTable, spread. rewrite !length_map.
  destruct (length (cells table) <=? argumentLimit)%nat; reflexivity.
Qed.

Lemma processAzureTable_within_limit (argumentLimit : nat)
    (table : AzureTable) :
  (length (cells table) <= argumentLimit)%nat ->
  processAzureTable argumentLimit table
  = Returned (tableOfCells (cells table)).
Proof.
  intros Hlen. rewrite processAzureTable_by_limit.
  apply Nat.leb_le in Hlen. rewrite Hlen. reflexivity.
Qed.

Lemma processAzureTable_over_limit (argumentLimit : nat)
    (table : AzureTable) :
  (argumentLimit < length (cells table))%nat ->
  processAzureTable argumentLimit table = Thrown RangeError.
Proof.
  intros Hlen. rewrite processAzureTable_by_limit.
  apply Nat.leb_gt in Hlen. rewrite Hlen. reflexivity.
Qed.

Lemma processAzureTable_Returned (argumentLimit : nat) (table : AzureTable)
    (tableData : RawTable) :
  processAzureTable argumentLimit table = Returned tableData ->
  (length (cells table) <= argumentLimit)%nat
  /\ tableData = tableOfCells (cells table).
Proof.
  rewrite processAzureTable_by_limit.
  destruct (Nat.leb_spec (length (cells table)) argumentLimit) as [Hlen|Hlen];
    [|discriminate].
  intros H. apply Returned_inj in H. auto.
Qed.

(** ** Table Normalizer: the empty cell collection *)

(** C2, as stated, fails at the empty cell collection: whatever number of
    arguments the engine accepts, the call returns a table value and does
    not throw [EmptyTableError]. *)
Lemma processAzureTable_empty_does_not_throw :
  (forall argumentLimit : nat,
     processAzureTable argumentLimit {| cells := [] |}
     = Returned emptyRawTable)
  /\ (forall argumentLimit : nat,
        processAzureTable argumentLimit {| cells := [] |}
        <> Thrown EmptyTableError).
Proof. split; intros argumentLimit; [reflexivity | discriminate]. Qed.

(** C2, amended: on the empty cell collection [processAzureTable] returns
    the table with no headers and no rows; it returns exactly when the
    cells are no more than the arguments the engine accepts in one call,
    and throws otherwise, the thrown error being the [RangeError] of the
    spread call [Math.max(...)]; it never throws [EmptyTableError]. *)
Theorem processAzureTable_throws_only_above_limit (argumentLimit : nat)
    (table : AzureTable) :
  (cells table = [] ->
   processAzureTable argumentLimit table = Returned emptyRawTable)
  /\ ((exists tableData,
         processAzureTable argumentLimit table = Returned tableData)
      <-> (length (cells table) <= argumentLimit)%nat)
  /\ (forall e, processAzureTable argumentLimit table = Thrown e
                <-> (argumentLimit < length (cells table))%nat
                    /\ e = RangeError)
  /\ processAzureTable argumentLimit table <> Thrown EmptyTableError.
Proof.
  rewrite processAzureTable_by_limit.
  split; [|split; [|split]].
  - intros E. rewrite E. reflexivity.
  - destruct (Nat.leb_spec (length (cells table)) argumentLimit) as [H|H].
    + split; [intros _; exact H | intros _; eexists; reflexivity].
    + split; [intros [tableData E]; discriminate E | lia].
  - intros e.
    destruct (Nat.leb_spec (length (cells table)) argumentLimit) as [H|H].
    + split; [discriminate | lia].
    + split.
      * intros E. inversion E. auto.
      * intros [_ ->]. reflexivity.
  - destruct (length (cells table) <=? argumentLimit)%nat; discriminate.
Qed.

Lemma processAzureTable_throws_only_above_limit_witness :
  processAzureTable 1000 sparseTable
  = Returned {| headers := [js "Nombre"; []];
                rows := [ [[]; []]; [[]; js "Bosch"] ] |}
  /\ (length (cells sparseTable) <= 1000)%nat
  /\ processAzureTable 2 sparseTable = Thrown RangeError
  /\ (2 < length (cells sparseTable))%nat.
Proof.
  assert (H1 : processAzureTable 1000 sparseTable
               = Returned {| headers := [js "Nombre"; []];
                             rows := [ [[]; []]; [[]; js "Bosch"] ] |})
    by (vm_compute; reflexivity).
  assert (H2 : processAzureTable 2 sparseTable = Thrown RangeError)
    by (vm_compute; reflexivity).
  split; [exact H1|]. split.
  - apply (proj1 (proj1 (proj2 (processAzureTable_throws_only_above_limit
                                  1000 sparseTable)))).
    eexists. exact H1.
  - split; [exact H2|].
    exact (proj1 (proj1 (proj1 (proj2 (proj2
             (processAzureTable_throws_only_above_limit 2 sparseTable)))
             RangeError) H2)).
Defined.

(** ** Table Normalizer: the keys of [cellMap] *)

Lemma js_inj (s1 s2 : string) : js s1 = js s2 -> s1 = s2.
Proof.
  unfold js. intros H.
  rewrite <- (string_of_list_ascii_of_string s1),
          <- (string_of_list_ascii_of_string s2).
  f_equal. revert H.
  generalize (list_ascii_of_string s1), (list_ascii_of_string s2).
  intros l1. induction l1 as [|a l1 IH]; intros [|b l2] H;
    try discriminate; [reflexivity|].
  cbn [map] in H. inversion H as [[Hab Hl]]. f_equal.
  - rewrite <- (ascii_N_embedding a), <- (ascii_N_embedding b), Hab.
    reflexivity.
  - apply IH. assumption.
Qed.

Lemma decimal_inj (n1 n2 : nat) : decimal n1 = decimal n2 -> n1 = n2.
Proof.
  unfold decimal. intros H. apply js_inj in H.
  apply Unsigned.to_uint_inj.
  pose proof (NilEmpty.usu (Nat.to_uint n1)) as H1.
  pose proof (NilEmpty.usu (Nat.to_uint n2)) as H2.
  rewrite H in H1. congruence.
Qed.

Lemma string_of_uint_digits (d : Decimal.uint) :
  Forall (fun c => is_digit c = true) (js (NilEmpty.string_of_uint d)).
Proof.
  induction d; cbn [NilEmpty.string_of_uint]; constructor;
    solve [reflexivity | assumption].
Qed.

Lemma decimal_no_dash (n : nat) : ~ In dash (decimal n).
Proof.
  unfold decimal. intros Hin.
  pose proof (string_of_uint_digits (Nat.to_uint n)) as Hd.
  rewrite List.Forall_forall in Hd. apply Hd in Hin. discriminate.
Qed.

Lemma split_at_dash (a a' b b' : jsstring) :
  ~ In dash a -> ~ In dash a' ->
  a ++ dash :: b = a' ++ dash :: b' -> a = a' /\ b = b'.
Proof.
  revert a'. induction a as [|x a IH]; intros [|y a'] Ha Ha' H;
    cbn [app] in H.
  - inversion H. auto.
  - inversion H; subst. exfalso. apply Ha'. left. reflexivity.
  - inversion H; subst. exfalso. apply Ha. left. reflexivity.
  - inversion H; subst. destruct (IH a') as [-> ->]; auto.
    + intros Hin. apply Ha. right. assumption.
    + intros Hin. apply Ha'. right. assumption.
Qed.

(** Distinct coordinates have distinct keys. *)
Lemma cellKey_inj (r c r' c' : nat) :
  cellKey r c = cellKey r' c' -> r = r' /\ c = c'.
Proof.
  unfold cellKey. intros H.
  apply split_at_dash in H; auto using decimal_no_dash.
  destruct H as [Hr Hc]. split; apply decimal_inj; assumption.
Qed.

(** ** Table Normalizer: rectangularity *)

Lemma atCoordinate_true (r c : nat) (x : AzureCell) :
  atCoordinate r c x = true <-> rowIndex x = r /\ columnIndex x = c.
Proof.
  unfold atCoordinate. rewrite andb_true_iff, !Nat.eqb_eq. reflexivity.
Qed.

Lemma cellMap_lookup (r c : nat) (cs : list AzureCell)
    (m : gmap (list N) (list N)) :
  fold_left storeCell cs m !! cellKey r c
  = match last (List.filter (atCoordinate r c) cs) with
    | Some x => Some (default [] (content x))
    | None => m !! cellKey r c
    end.
Proof.
  revert m. induction cs as [|a cs IH]; intros m; [reflexivity|].
  cbn [fold_left List.filter]. rewrite IH. unfold storeCell at 1.
  rewrite or_else_nil.
  destruct (atCoordinate r c a) eqn:Ha.
  - apply atCoordinate_true in Ha as [<- <-].
    destruct (List.filter _ cs) as [|y l] eqn:Hf.
    + cbn. apply lookup_insert_eq.
    + rewrite last_cons_cons. destruct (last (y :: l)) eqn:Hl; [reflexivity|].
      apply last_None in Hl. discriminate.
  - destruct (last _); [reflexivity|].
    apply lookup_insert_ne. intros Hk. apply cellKey_inj in Hk.
    apply atCoordinate_true in Hk. congruence.
Qed.

Lemma readCell_contentAt (cs : list AzureCell) (r c : nat) :
  readCell (fold_left storeCell cs ∅) r c = contentAt cs r c.
Proof.
  unfold readCell, contentAt. rewrite cellMap_lookup, lookup_empty.
  destruct (last _); cbn; [apply or_else_nil | reflexivity].
Qed.

(** A coordinate for which no cell is given reads as the empty string. *)
Lemma contentAt_missing (cs : list AzureCell) (r c : nat) :
  (forall x, In x cs -> ~ (rowIndex x = r /\ columnIndex x = c)) ->
  contentAt cs r c = [].
Proof.
  intros Hnone. unfold contentAt.
  assert (List.filter (atCoordinate r c) cs = []) as ->; [|reflexivity].
  induction cs as [|a cs IH]; [reflexivity|]. cbn [List.filter].
  destruct (atCoordinate r c a) eqn:Ha.
  - apply atCoordinate_true in Ha. exfalso. apply (Hnone a); [left|]; auto.
  - apply IH. intros x Hx. apply Hnone. right. assumption.
Qed.

(** A coordinate given by one cell alone reads as that cell's content. *)
Lemma contentAt_unique (before after : list AzureCell) (x : AzureCell) :
  (forall y, In y (before ++ after) ->
             atCoordinate (rowIndex x) (columnIndex x) y = false) ->
  contentAt (before ++ x :: after) (rowIndex x) (columnIndex x)
  = default [] (content x).
Proof.
  intros Hothers. unfold contentAt.
  assert (forall l, (forall y, In y l ->
                       atCoordinate (rowIndex x) (columnIndex x) y = false) ->
                    List.filter (atCoordinate (rowIndex x) (columnIndex x)) l
                    = []) as Hnil.
  { induction l as [|a l IH]; intros Hl; [reflexivity|]. cbn [List.filter].
    rewrite (Hl a) by (left; reflexivity). apply IH.
    intros y Hy. apply Hl. right. assumption. }
  rewrite List.filter_app. cbn [List.filter].
  rewrite (Hnil before), (Hnil after).
  - assert (atCoordinate (rowIndex x) (columnIndex x) x = true) as ->
      by (apply atCoordinate_true; auto).
    reflexivity.
  - intros y Hy. apply Hothers, in_or_app. right. assumption.
  - intros y Hy. apply Hothers, in_or_app. left. assumption.
Qed.

Lemma Math_max_from (xs : list nat) (m0 : nat) :
  exists m,
    fold_left (fun acc x =>
                 match acc with
                 | NegInfinity => Finite x
                 | Finite k => Finite (Nat.max k x)
                 end) xs (Finite m0) = Finite m
    /\ (m = m0 \/ In m xs) /\ (m0 <= m)%nat
    /\ Forall (fun x => (x <= m)%nat) xs.
Proof.
  revert m0. induction xs as [|x xs IH]; intros m0; cbn [fold_left].
  - exists m0. repeat split; auto.
  - destruct (IH (Nat.max m0 x)) as (m & Hm & Hin & Hle & Hall).
    exists m. split; [exact Hm|]. split; [|split].
    + destruct Hin as [-> | Hin]; [|right; right; assumption].
      destruct (Nat.max_spec m0 x) as [[_ ->] | [_ ->]];
        [right; left; reflexivity | left; reflexivity].
    + lia.
    + constructor; [lia | assumption].
Qed.

(** On a non-empty list [Math.max] is the greatest element. *)
Lemma Math_max_spec (xs : list nat) :
  xs <> [] ->
  exists m, Math_max xs = Finite m /\ In m xs
            /\ Forall (fun x => (x <= m)%nat) xs.
Proof.
  destruct xs as [|x xs]; [congruence|]. intros _.
  unfold Math_max. cbn [fold_left].
  destruct (Math_max_from xs x) as (m & Hm & Hin & Hle & Hall).
  exists m. split; [exact Hm|]. split.
  - destruct Hin as [-> | Hin]; [left; reflexivity | right; assumption].
  - constructor; assumption.
Qed.

Lemma lookup_map {A B : Type} (f : A -> B) (l : list A) (i : nat) :
  map f l !! i = f <$> (l !! i).
Proof. revert i. induction l as [|a l IH]; intros [|i]; cbn; auto. Qed.

(** C6: on a non-empty cell collection [processAzureTable] returns a
    table when the cells are no more than the arguments the engine accepts
    in one call, and every table it returns is as follows, with [maxRow]
    and [maxCol] the greatest row and column index of the cells: it has
    [maxCol + 1] headers and [maxRow] rows, every row exactly as long as
    the headers; header [col] is the content of the input at [(0, col)]
    and cell [col] of row [r - 1] is the content of the input at
    [(r, col)], the empty string where the input has no cell. *)
Theorem processAzureTable_rectangular (argumentLimit : nat)
    (table : AzureTable) :
  cells table <> [] ->
  ((length (cells table) <= argumentLimit)%nat ->
   exists tableData,
     processAzureTable argumentLimit table = Returned tableData)
  /\ forall tableData,
  processAzureTable argumentLimit table = Returned tableData ->
  exists maxRow maxCol,
    (In maxRow (map rowIndex (cells table))
        /\ Forall (fun x => (rowIndex x <= maxRow)%nat) (cells table))
    /\ (In maxCol (map columnIndex (cells table))
        /\ Forall (fun x => (columnIndex x <= maxCol)%nat) (cells table))
    /\ length (headers tableData) = S maxCol
    /\ length (rows tableData) = maxRow
    /\ Forall (fun row => length row = length (headers tableData))
              (rows tableData)
    /\ (forall col, (col <= maxCol)%nat ->
          headers tableData !! col = Some (contentAt (cells table) 0 col))
    /\ (forall r col, (1 <= r <= maxRow)%nat -> (col <= maxCol)%nat ->
          exists row, rows tableData !! (r - 1)%nat = Some row
                      /\ row !! col = Some (contentAt (cells table) r col))
    /\ (forall r col,
          (forall x, In x (cells table) ->
                     ~ (rowIndex x = r /\ columnIndex x = col)) ->
          contentAt (cells table) r col = []).
Proof.
  intros Hne. split.
  { intros Hlen. eexists. apply processAzureTable_within_limit, Hlen. }
  intros tableData Htd.
  apply processAzureTable_Returned in Htd as [_ ->].
  destruct (Math_max_spec (map rowIndex (cells table)))
    as (maxRow & HmaxRow & HinRow & HallRow).
  { destruct (cells table); [congruence | discriminate]. }
  destruct (Math_max_spec (map columnIndex (cells table)))
    as (maxCol & HmaxCol & HinCol & HallCol).
  { destruct (cells table); [congruence | discriminate]. }
  exists maxRow, maxCol. unfold tableOfCells.
  rewrite HmaxRow, HmaxCol. cbn [loopTo]. cbn [headers rows].
  rewrite !Nat.sub_0_r.
  replace (S maxRow - 1)%nat with maxRow by lia.
  split; [split; [assumption | rewrite List.Forall_map in HallRow; exact HallRow]|].
  split; [split; [assumption | rewrite List.Forall_map in HallCol; exact HallCol]|].
  split; [rewrite length_map, length_seq; reflexivity|].
  split; [rewrite length_map, length_seq; reflexivity|].
  split.
  { rewrite List.Forall_map. apply List.Forall_forall. intros r _.
    rewrite !length_map. reflexivity. }
  split.
  { intros col Hcol. rewrite lookup_map, lookup_seq_lt by lia.
    cbn. rewrite readCell_contentAt. reflexivity. }
  split.
  { intros r col Hr Hcol.
    exists (map (fun c => readCell (fold_left storeCell (cells table) ∅) r c)
                (seq 0 (S maxCol))).
    split.
    - rewrite lookup_map, lookup_seq_lt by lia.
      replace (1 + (r - 1))%nat with r by lia. reflexivity.
    - rewrite lookup_map, lookup_seq_lt by lia. cbn.
      rewrite readCell_contentAt. reflexivity. }
  intros r col. apply contentAt_missing.
Qed.

Lemma processAzureTable_rectangular_witness :
  cells sparseTable <> []
  /\ (length (cells sparseTable) <= 1000)%nat
  /\ processAzureTable 1000 sparseTable
     = Returned {| headers := [js "Nombre"; []];
                   rows := [ [[]; []]; [[]; js "Bosch"] ] |}
  /\ let tableData := {| headers := [js "Nombre"; []];
                         rows := [ [[]; []]; [[]; js "Bosch"] ] |} in
     exists maxRow maxCol,
       (In maxRow (map rowIndex (cells sparseTable))
           /\ Forall (fun x => (rowIndex x <= maxRow)%nat) (cells sparseTable))
       /\ (In maxCol (map columnIndex (cells sparseTable))
           /\ Forall (fun x => (columnIndex x <= maxCol)%nat)
                     (cells sparseTable))
       /\ length (headers tableData) = S maxCol
       /\ length (rows tableData) = maxRow
       /\ Forall (fun row => length row = length (headers tableData))
                 (rows tableData)
       /\ (forall col, (col <= maxCol)%nat ->
             headers tableData !! col
             = Some (contentAt (cells sparseTable) 0 col))
       /\ (forall r col, (1 <= r <= maxRow)%nat -> (col <= maxCol)%nat ->
             exists row, rows tableData !! (r - 1)%nat = Some row
                         /\ row !! col
                            = Some (contentAt (cells sparseTable) r col))
       /\ (forall r col,
             (forall x, In x (cells sparseTable) ->
                        ~ (rowIndex x = r /\ columnIndex x = col)) ->
             contentAt (cells sparseTable) r col = []).
Proof.
  assert (Hne : cells sparseTable <> []) by discriminate.
  assert (Htd : processAzureTable 1000 sparseTable
                = Returned {| headers := [js "Nombre"; []];
                              rows := [ [[]; []]; [[]; js "Bosch"] ] |})
    by (vm_compute; reflexivity).
  split; [exact Hne|]. split; [cbn; lia|]. split; [exact Htd|].
  exact (proj2 (processAzureTable_rectangular 1000 sparseTable Hne) _ Htd).
Defined.

Example sparseTable_run :
  processAzureTable 1000 sparseTable
  = Returned {| headers := [js "Nombre"; []];
                rows := [ [[]; []]; [[]; js "Bosch"] ] |}.
Proof. by_evaluation. Qed.

(** ** Orchestrator *)

(** C3: when the first table of the document normalizes to the headers
    ["Nombre", "Marca", "Fecha Compra"] and the single row
    ["Taladro Bosch", "Bosch", "05/14/2023"], the mapping is itemName at
    column 0, brand at column 1, purchaseDate at column 2 (and nothing
    else), and the handler produces exactly one item, with category
    "Power Tools", purchaseDate "2023-05-14", confidence 75 and
    description "Marca: Bosch". *)
Theorem end_to_end_scenario (argumentLimit : nat) (currentYear : Z)
    (project : jsstring) (table : AzureTable) (others : list AzureTable) :
  processAzureTable argumentLimit table = Returned scenarioRawTable ->
  detectFieldMappings (headers scenarioRawTable)
    = {[ "itemName"%string := 0%nat; "brand"%string := 1%nat;
         "purchaseDate"%string := 2%nat ]}
  /\ extractInventory argumentLimit currentYear project
       (Some (table :: others))
     = Returned
         {| success := true;
            extractedItems := [scenarioItem project];
            totalItems := 1;
            projectName := project;
            processingInfo :=
              {| service := js "Azure Document Intelligence";
                 tablesDetected := S (length others);
                 confidenceScore := 75;
                 targetFields := TARGET_FIELDS_keys;
                 fieldMappingSuccess := true |} |}.
Proof.
  intros Htable. split.
  - by_evaluation.
  - unfold extractInventory. cbn [default from_option Datatypes.id].
    rewrite Htable.
    by_evaluation.
Qed.

Lemma end_to_end_scenario_witness :
  processAzureTable 1000 scenarioTable = Returned scenarioRawTable
  /\ detectFieldMappings (headers scenarioRawTable)
     = {[ "itemName"%string := 0%nat; "brand"%string := 1%nat;
          "purchaseDate"%string := 2%nat ]}
  /\ extractInventory 1000 2026 (js "OBRA NORTE") (Some [scenarioTable])
     = Returned
         {| success := true;
            extractedItems := [scenarioItem (js "OBRA NORTE")];
            totalItems := 1;
            projectName := js "OBRA NORTE";
            processingInfo :=
              {| service := js "Azure Document Intelligence";
                 tablesDetected := 1;
                 confidenceScore := 75;
                 targetFields := TARGET_FIELDS_keys;
                 fieldMappingSuccess := true |} |}.
Proof.
  split; [vm_compute; reflexivity|].
  apply (end_to_end_scenario 1000 2026 (js "OBRA NORTE") scenarioTable []).
  vm_compute; reflexivity.
Defined.

(** C8: when the analysis has no tables, or its first table normalizes to
    no headers or no rows, the handler returns (throws nothing) a success
    result with no items, [totalItems] 0, [confidenceScore] 0 and
    [fieldMappingSuccess] false. *)
Theorem no_table_gives_empty_result (argumentLimit : nat) (currentYear : Z)
    (project : jsstring) (result_tables : option (list AzureTable)) :
  (result_tables = None
   \/ result_tables = Some []
   \/ exists table others tableData,
        result_tables = Some (table :: others)
        /\ processAzureTable argumentLimit table = Returned tableData
        /\ (headers tableData = [] \/ rows tableData = [])) ->
  exists result,
    extractInventory argumentLimit currentYear project result_tables
    = Returned result
    /\ success result = true
    /\ extractedItems result = []
    /\ totalItems result = 0%nat
    /\ confidenceScore (processingInfo result) = 0%Z
    /\ fieldMappingSuccess (processingInfo result) = false.
Proof.
  intros [-> | [-> | (table & others & tableData & -> & Htable & Hempty)]].
  - eexists. split; [reflexivity|]. repeat split.
  - eexists. split; [reflexivity|]. repeat split.
  - unfold extractInventory. cbn [default from_option Datatypes.id].
    rewrite Htable. cbn [bind].
    assert (processRows currentYear project tableData = ([], 0%Z)) as ->.
    { unfold processRows. destruct Hempty as [-> | ->]; cbn [length].
      - reflexivity.
      - rewrite andb_false_r. reflexivity. }
    eexists. split; [reflexivity|]. repeat split.
Qed.

Lemma no_table_gives_empty_result_witness :
  (processAzureTable 1000 headerOnlyTable
     = Returned {| headers := [js "Nombre"; js "Marca"]; rows := [] |})
  /\ exists result,
       extractInventory 1000 2026 (js "OBRA NORTE") (Some [headerOnlyTable])
         = Returned result
       /\ success result = true
       /\ extractedItems result = []
       /\ totalItems result = 0%nat
       /\ confidenceScore (processingInfo result) = 0%Z
       /\ fieldMappingSuccess (processingInfo result) = false.
Proof.
  split; [vm_compute; reflexivity|].
  apply (no_table_gives_empty_result 1000 2026 (js "OBRA NORTE")
           (Some [headerOnlyTable])).
  right. right.
  exists headerOnlyTable, [],
    {| headers := [js "Nombre"; js "Marca"]; rows := [] |}.
  split; [reflexivity|]. split; [vm_compute; reflexivity|].
  right. reflexivity.
Defined.

(** ** Orchestrator: blank rows *)

Lemma rowHasContent_false_iff (row : list jsstring) :
  rowHasContent row = false <-> blankRow row.
Proof.
  unfold rowHasContent, blankRow. induction row as [|c row IH]; cbn [existsb].
  - split; [constructor | reflexivity].
  - rewrite orb_false_iff, IH. split.
    + intros [Hc Hrow]. constructor; [|assumption].
      destruct (trim c); [reflexivity | discriminate].
    + intros H. inversion H as [|? ? Hc Hrow]; subst. rewrite Hc.
      split; [reflexivity | assumption].
Qed.

Section RowLoop.

Variables (currentYear : Z) (project : jsstring).
Variables (hs : list jsstring) (mappings : gmap string nat).

Lemma processRow_blank (st : list InventoryItem * Z) (index : nat)
    (row : list jsstring) :
  blankRow row ->
  processRow currentYear project hs mappings st (index, row) = st.
Proof.
  intros Hblank. apply rowHasContent_false_iff in Hblank.
  unfold processRow. cbn [snd]. rewrite Hblank. reflexivity.
Qed.

Lemma fold_processRow (irs : list (nat * list jsstring))
    (st : list InventoryItem * Z) :
  fold_left (processRow currentYear project hs mappings) irs st
  = (st.1 ++ map (fun ir => makeItem currentYear project hs mappings ir.1 ir.2)
                 (List.filter (fun ir => rowHasContent ir.2) irs),
     (st.2 + sumZ (map (fun ir => calculateItemConfidence ir.2 mappings)
                       (List.filter (fun ir => rowHasContent ir.2) irs)))%Z).
Proof.
  revert st. induction irs as [|ir irs IH]; intros st; cbn [fold_left List.filter].
  - cbn. rewrite app_nil_r, Z.add_0_r. destruct st; reflexivity.
  - rewrite IH. unfold processRow.
    destruct (rowHasContent ir.2); [|reflexivity].
    cbn [fst snd map sumZ foldr makeItem confidence].
    rewrite <- app_assoc. f_equal. unfold sumZ. lia.
Qed.

End RowLoop.

Lemma roundDiv_nearest (total : Z) (n : nat) :
  (0 < n)%nat ->
  ((2 * roundDiv total n - 1) * Z.of_nat n <= 2 * total
   < (2 * roundDiv total n + 1) * Z.of_nat n)%Z.
Proof.
  intros Hn. unfold roundDiv.
  assert (0 < 2 * Z.of_nat n)%Z as Hd by lia.
  pose proof (Z.mul_div_le (2 * total + Z.of_nat n) _ Hd).
  pose proof (Z.mul_succ_div_gt (2 * total + Z.of_nat n) _ Hd).
  lia.
Qed.

Lemma producedRows_no_content (rows : list (list jsstring)) :
  Forall (fun row => row = []) rows -> producedRows rows = [].
Proof.
  unfold producedRows.
  change (@pair nat (list jsstring))
    with (fun i x => ((fun j : nat => j) i, x : list jsstring)).
  generalize (fun j : nat => j).
  induction rows as [|row rows IH]; intros g Hall; [reflexivity|].
  inversion Hall as [|? ? Hrow Hrows]; subst. cbn.
  apply (IH (g ∘ S)). assumption.
Qed.

(** C9: on a normalized table (every row as long as the headers), a blank
    row leaves the item list and the confidence sum as they are; the
    items are those of the rows that are not blank, in order, the sum is
    the sum of their confidences, and the average is 0 when there is no
    item and otherwise the sum divided by the number of items, rounded to
    the nearest integer. *)
Theorem blank_rows_are_skipped (currentYear : Z) (project : jsstring)
    (tableData : RawTable) :
  Forall (fun row => length row = length (headers tableData))
         (rows tableData) ->
  let mappings := detectFieldMappings (headers tableData) in
  let produced := producedRows (rows tableData) in
  let st := processRows currentYear project tableData in
  let avg := averageConfidence st.1 st.2 in
  (forall st0 index row,
      blankRow row ->
      processRow currentYear project (headers tableData) mappings st0
                 (index, row) = st0)
  /\ (forall index row,
        In (index, row) produced
        <-> rows tableData !! index = Some row /\ ~ blankRow row)
  /\ st.1 = map (fun ir => makeItem currentYear project (headers tableData)
                                    mappings ir.1 ir.2) produced
  /\ st.2 = sumZ (map (fun ir => calculateItemConfidence ir.2 mappings)
                      produced)
  /\ (produced = [] -> avg = 0%Z)
  /\ (produced <> [] ->
      avg = roundDiv st.2 (length produced)
      /\ ((2 * avg - 1) * Z.of_nat (length produced) <= 2 * st.2
          < (2 * avg + 1) * Z.of_nat (length produced))%Z).
Proof.
  intros Hrect mappings produced st avg.
  assert (Hst : st = (map (fun ir => makeItem currentYear project
                                       (headers tableData) mappings ir.1 ir.2)
                          produced,
                      sumZ (map (fun ir => calculateItemConfidence ir.2 mappings)
                                produced))).
  { subst st. unfold processRows.
    destruct (headers tableData) as [|h hs'] eqn:Hh.
    - cbn [length Nat.ltb Nat.leb andb].
      subst produced. rewrite producedRows_no_content; [reflexivity|].
      eapply Forall_impl; [exact Hrect|]. cbn.
      intros row Hlen. destruct row; [reflexivity | discriminate].
    - destruct (rows tableData) as [|r rs] eqn:Hr.
      + reflexivity.
      + cbn [length Nat.ltb Nat.leb andb]. rewrite fold_processRow.
        cbn [fst snd app]. subst produced mappings.
        rewrite Z.add_0_l. reflexivity. }
  split; [intros; apply processRow_blank; assumption|].
  split.
  { intros index row. subst produced. unfold producedRows.
    rewrite filter_In. cbn [snd].
    rewrite <- rowHasContent_false_iff, not_false_iff_true.
    rewrite <- list_elem_of_In, elem_of_lookup_imap.
    split.
    - intros [(i & x & Heq & Hx) Hc]. inversion Heq; subst. auto.
    - intros [Hx Hc]. split; [|assumption]. exists index, row. auto. }
  rewrite Hst. cbn [fst snd]. split; [reflexivity|]. split; [reflexivity|].
  subst avg. rewrite Hst. cbn [fst snd]. unfold averageConfidence.
  rewrite length_map. split.
  - intros ->. reflexivity.
  - intros Hne. destruct produced as [|p ps] eqn:Hp; [congruence|].
    cbn [length Nat.ltb Nat.leb]. split; [reflexivity|].
    apply roundDiv_nearest. lia.
Qed.

Lemma blank_rows_are_skipped_witness :
  Forall (fun row => length row = length (headers blankRowTable))
         (rows blankRowTable)
  /\ (let mappings := detectFieldMappings (headers blankRowTable) in
      let produced := producedRows (rows blankRowTable) in
      let st := processRows 2026 (js "OBRA NORTE") blankRowTable in
      let avg := averageConfidence st.1 st.2 in
      (forall st0 index row,
          blankRow row ->
          processRow 2026 (js "OBRA NORTE") (headers blankRowTable) mappings
                     st0 (index, row) = st0)
      /\ (forall index row,
            In (index, row) produced
            <-> rows blankRowTable !! index = Some row /\ ~ blankRow row)
      /\ st.1 = map (fun ir => makeItem 2026 (js "OBRA NORTE")
                                 (headers blankRowTable) mappings ir.1 ir.2)
                    produced
      /\ st.2 = sumZ (map (fun ir => calculateItemConfidence ir.2 mappings)
                          produced)
      /\ (produced = [] -> avg = 0%Z)
      /\ (produced <> [] ->
          avg = roundDiv st.2 (length produced)
          /\ ((2 * avg - 1) * Z.of_nat (length produced) <= 2 * st.2
              < (2 * avg + 1) * Z.of_nat (length produced))%Z)).
Proof.
  assert (H : Forall (fun row => length row = length (headers blankRowTable))
                     (rows blankRowTable))
    by (repeat constructor).
  split; [exact H|].
  exact (blank_rows_are_skipped 2026 (js "OBRA NORTE") blankRowTable H).
Defined.

Example blankRowTable_run :
  producedRows (rows blankRowTable)
    = [ (0%nat, [js "Taladro"; js "Bosch"]); (2%nat, [js "Casco"; []]) ]
  /\ map confidence (processRows 2026 [] blankRowTable).1 = [65; 50]%Z
  /\ map id (processRows 2026 [] blankRowTable).1
     = [js "azure_0"; js "azure_2"]
  /\ averageConfidence (processRows 2026 [] blankRowTable).1
                       (processRows 2026 [] blankRowTable).2 = 58%Z.
Proof. repeat split; by_evaluation. Qed.

(** * Further properties *)

Lemma column_0_is_not_kept_witness :
  In ("itemName"%string,
      [js "nombre"; js "item"; js "descripcion"; js "description";
       js "herramienta"; js "tool"; js "equipment"; js "producto";
       js "product"; js "material"; js "articulo"; js "name"])
     fieldPatterns
  /\ matchingColumns
       [js "nombre"; js "item"; js "descripcion"; js "description";
        js "herramienta"; js "tool"; js "equipment"; js "producto";
        js "product"; js "material"; js "articulo"; js "name"]
       (map normalizeHeader [js "Nombre"; js "Marca"; js "Descripcion"])
     = [0; 2]%nat
  /\ detectFieldMappings [js "Nombre"; js "Marca"; js "Descripcion"]
       !! "itemName"%string = Some 2%nat
  /\ (1 <= 2)%nat.
Proof.
  assert (Hin : In ("itemName"%string,
                    [js "nombre"; js "item"; js "descripcion";
                     js "description"; js "herramienta"; js "tool";
                     js "equipment"; js "producto"; js "product";
                     js "material"; js "articulo"; js "name"]) fieldPatterns)
    by (left; reflexivity).
  assert (Hm : matchingColumns
                 [js "nombre"; js "item"; js "descripcion"; js "description";
                  js "herramienta"; js "tool"; js "equipment"; js "producto";
                  js "product"; js "material"; js "articulo"; js "name"]
                 (map normalizeHeader
                      [js "Nombre"; js "Marca"; js "Descripcion"])
               = [0; 2]%nat) by (vm_compute; reflexivity).
  split; [exact Hin|]. split; [exact Hm|].
  exact (column_0_is_not_kept _ _ _ _ _ Hin Hm).
Defined.

(** ** Field Mapper: the columns a mapping can hold *)

Lemma keptColumn_In (matching : list nat) (i : nat) :
  keptColumn matching = Some i -> In i matching.
Proof.
  destruct matching as [|[|a] [|b rest]]; cbn; intros H; inversion H; subst;
    auto.
Qed.

Lemma keptColumn_None (matching : list nat) :
  keptColumn matching = None <-> matching = [].
Proof.
  destruct matching as [|[|a] [|b rest]]; cbn; split; intros H;
    solve [reflexivity | discriminate].
Qed.

Lemma In_matchingColumns (patterns : list jsstring) (nh : list jsstring)
    (i : nat) :
  In i (matchingColumns patterns nh)
  <-> exists h, nh !! i = Some h /\ headerMatches patterns h = true.
Proof.
  unfold matchingColumns. rewrite in_map_iff. split.
  - intros ([j h] & Hfst & Hin). cbn in Hfst. subst j.
    apply filter_In in Hin as [Hin Hm]. cbn in Hm.
    apply list_elem_of_In, elem_of_lookup_imap in Hin
      as (k & x & Heq & Hx). inversion Heq; subst. eauto.
  - intros (h & Hh & Hm). exists (i, h). split; [reflexivity|].
    apply filter_In. split; [|exact Hm].
    apply list_elem_of_In, elem_of_lookup_imap. eauto.
Qed.

(** X1: a column a target field is mapped to is a column of the headers list,
    and its normalized header passes the two-way substring test against
    the field's patterns. *)
Theorem mapped_column_exists_and_matches (headers : list jsstring)
    (fld : string) (patterns : list jsstring) (i : nat) :
  In (fld, patterns) fieldPatterns ->
  detectFieldMappings headers !! fld = Some i ->
  exists h, headers !! i = Some h
            /\ (i < length headers)%nat
            /\ headerMatches patterns (normalizeHeader h) = true.
Proof.
  intros Hin Hi. rewrite (detectFieldMappings_lookup _ _ _ Hin) in Hi.
  apply keptColumn_In, In_matchingColumns in Hi as (nh & Hnh & Hm).
  rewrite lookup_map in Hnh.
  destruct (headers !! i) as [h|] eqn:Hh; [|discriminate].
  cbn in Hnh. inversion Hnh; subst.
  exists h. split; [reflexivity|]. split; [|exact Hm].
  apply lookup_lt_Some in Hh. exact Hh.
Qed.

Lemma mapped_column_exists_and_matches_witness :
  In ("brand"%string,
      [js "marca"; js "brand"; js "fabricante"; js "manufacturer"])
     fieldPatterns
  /\ detectFieldMappings [js "Nombre"; js "Marca"] !! "brand"%string
     = Some 1%nat
  /\ exists h, [js "Nombre"; js "Marca"] !! 1%nat = Some h
               /\ (1 < length [js "Nombre"; js "Marca"])%nat
               /\ headerMatches
                    [js "marca"; js "brand"; js "fabricante";
                     js "manufacturer"]
                    (normalizeHeader h) = true.
Proof.
  assert (Hin : In ("brand"%string,
                    [js "marca"; js "brand"; js "fabricante";
                     js "manufacturer"]) fieldPatterns)
    by (cbn; auto 10).
  assert (Hi : detectFieldMappings [js "Nombre"; js "Marca"] !! "brand"%string
               = Some 1%nat) by (vm_compute; reflexivity).
  split; [exact Hin|]. split; [exact Hi|].
  exact (mapped_column_exists_and_matches _ _ _ _ Hin Hi).
Defined.

(** X2: a target field has an entry in the mapping exactly when some
    header passes the test against the field's patterns. *)
Theorem field_mapped_iff_some_header_matches (headers : list jsstring)
    (fld : string) (patterns : list jsstring) :
  In (fld, patterns) fieldPatterns ->
  (is_Some (detectFieldMappings headers !! fld)
   <-> exists i h, headers !! i = Some h
                   /\ headerMatches patterns (normalizeHeader h) = true).
Proof.
  intros Hin. rewrite (detectFieldMappings_lookup _ _ _ Hin). split.
  - intros [i Hi].
    apply keptColumn_In, In_matchingColumns in Hi as (nh & Hnh & Hm).
    rewrite lookup_map in Hnh.
    destruct (headers !! i) as [h|] eqn:Hh; [|discriminate].
    cbn in Hnh. inversion Hnh; subst. eauto.
  - intros (i & h & Hh & Hm).
    destruct (keptColumn _) as [k|] eqn:Hk; [eauto|].
    apply keptColumn_None in Hk.
    assert (In i (matchingColumns patterns (map normalizeHeader headers)))
      as Hi.
    { apply In_matchingColumns. exists (normalizeHeader h).
      rewrite lookup_map, Hh. auto. }
    rewrite Hk in Hi. destruct Hi.
Qed.

Lemma field_mapped_iff_some_header_matches_witness :
  In ("supplier"%string, [js "proveedor"; js "supplier"; js "vendor"])
     fieldPatterns
  /\ (is_Some (detectFieldMappings [js "Nombre"; js "Vendor ID"]
                 !! "supplier"%string)
      <-> exists i h, [js "Nombre"; js "Vendor ID"] !! i = Some h
                      /\ headerMatches
                           [js "proveedor"; js "supplier"; js "vendor"]
                           (normalizeHeader h) = true).
Proof.
  assert (Hin : In ("supplier"%string,
                    [js "proveedor"; js "supplier"; js "vendor"])
                   fieldPatterns)
    by (cbn; auto 12).
  split; [exact Hin|].
  exact (field_mapped_iff_some_header_matches _ _ _ Hin).
Defined.

(** X3: the mapping has entries for the nine target fields only, and for
    an empty headers list it has no entry. *)
Theorem mapping_holds_target_fields_only (headers : list jsstring) :
  (forall fld, is_Some (detectFieldMappings headers !! fld) ->
               In fld targetFields_declared)
  /\ (headers = [] -> detectFieldMappings headers = ∅).
Proof.
  split.
  - intros fld [i Hi].
    destruct (in_dec string_dec fld targetFields_declared) as [Hin|Hout];
      [exact Hin|].
    unfold detectFieldMappings in Hi.
    rewrite fold_mapField_lookup_ne in Hi by exact Hout.
    rewrite lookup_empty in Hi. discriminate.
  - intros ->. by_evaluation.
Qed.

(** X4: a field is mapped to the first column that matches it whenever
    that column is not column 0, and also when it is the only matching
    column. *)
Theorem field_keeps_first_match (headers : list jsstring) (fld : string)
    (patterns : list jsstring) (i : nat) (rest : list nat) :
  In (fld, patterns) fieldPatterns ->
  matchingColumns patterns (map normalizeHeader headers) = i :: rest ->
  i <> 0%nat \/ rest = [] ->
  detectFieldMappings headers !! fld = Some i.
Proof.
  intros Hin Hm Hcase. rewrite (detectFieldMappings_lookup _ _ _ Hin), Hm.
  destruct Hcase as [Hi | ->].
  - destruct i as [|i]; [congruence|]. reflexivity.
  - destruct i; reflexivity.
Qed.

Lemma field_keeps_first_match_witness :
  In ("brand"%string,
      [js "marca"; js "brand"; js "fabricante"; js "manufacturer"])
     fieldPatterns
  /\ matchingColumns
       [js "marca"; js "brand"; js "fabricante"; js "manufacturer"]
       (map normalizeHeader [js "Item"; js "Marca"; js "Brand"])
     = [1; 2]%nat
  /\ (1%nat <> 0%nat \/ [2%nat] = [])
  /\ detectFieldMappings [js "Item"; js "Marca"; js "Brand"] !! "brand"%string
     = Some 1%nat.
Proof.
  assert (Hin : In ("brand"%string,
                    [js "marca"; js "brand"; js "fabricante";
                     js "manufacturer"]) fieldPatterns)
    by (cbn; auto 10).
  assert (Hm : matchingColumns
                 [js "marca"; js "brand"; js "fabricante"; js "manufacturer"]
                 (map normalizeHeader [js "Item"; js "Marca"; js "Brand"])
               = [1; 2]%nat) by (vm_compute; reflexivity).
  assert (Hc : 1%nat <> 0%nat \/ [2%nat] = []) by (left; lia).
  split; [exact Hin|]. split; [exact Hm|]. split; [exact Hc|].
  exact (field_keeps_first_match _ _ _ _ _ Hin Hm Hc).
Defined.

(** ** Field Mapper: normalized headers *)

Lemma filter_Is_true_Forall (p : N -> bool) (s : jsstring) :
  Forall (fun c => p c = true) (filter (fun c => Is_true (p c)) s).
Proof.
  induction s as [|c s IH]; [constructor|].
  rewrite filter_cons. destruct (decide (Is_true (p c))) as [Hc|Hc];
    [|exact IH].
  constructor; [|exact IH]. apply Is_true_true. exact Hc.
Qed.

Lemma filter_Is_true_all (p : N -> bool) (s : jsstring) :
  Forall (fun c => p c = true) s -> filter (fun c => Is_true (p c)) s = s.
Proof.
  induction 1 as [|c s Hc _ IH]; [reflexivity|].
  rewrite filter_cons_True by (apply Is_true_true; exact Hc).
  rewrite IH. reflexivity.
Qed.

Lemma lower_alnum_not_space (c : N) :
  is_lower_alnum c = true -> negb (is_space c) = true.
Proof.
  unfold is_lower_alnum, is_digit, is_space. intros H.
  apply negb_true_iff, not_true_is_false. intros Hs.
  rewrite !orb_true_iff, !andb_true_iff, !N.leb_le in H.
  rewrite !orb_true_iff, !andb_true_iff, !N.leb_le, !N.eqb_eq in Hs.
  lia.
Qed.

Lemma lower_unit_alnum (c : N) : is_lower_alnum c = true -> lower_unit c = [c].
Proof.
  unfold is_lower_alnum, is_digit, lower_unit. intros H.
  rewrite !orb_true_iff, !andb_true_iff, !N.leb_le in H.
  assert ((65 <=? c) && (c <=? 90) = false) as ->.
  { apply not_true_is_false. rewrite andb_true_iff, !N.leb_le. lia. }
  assert ((192 <=? c) && (c <=? 222) && negb (c =? 215) = false) as ->.
  { apply not_true_is_false. rewrite !andb_true_iff, !N.leb_le. lia. }
  assert ((c =? 304) = false) as -> by (apply N.eqb_neq; lia).
  assert ((c =? 8490) = false) as -> by (apply N.eqb_neq; lia).
  reflexivity.
Qed.

Lemma toLowerCase_alnum (s : jsstring) :
  Forall (fun c => is_lower_alnum c = true) s -> toLowerCase s = s.
Proof.
  unfold toLowerCase. induction 1 as [|c s Hc _ IH]; [reflexivity|].
  cbn [flat_map]. rewrite lower_unit_alnum by exact Hc.
  cbn. rewrite IH. reflexivity.
Qed.

(** X6: a normalized header is made of the code units of [[a-z0-9]] only,
    the second [replace] (of white space) removes nothing, and
    normalizing twice is normalizing once. *)
Theorem normalizeHeader_alphanumeric (h : jsstring) :
  Forall (fun c => is_lower_alnum c = true) (normalizeHeader h)
  /\ normalizeHeader h
     = filter (fun c => Is_true (is_lower_alnum c)) (toLowerCase h)
  /\ normalizeHeader (normalizeHeader h) = normalizeHeader h.
Proof.
  assert (Hsecond : normalizeHeader h
            = filter (fun c => Is_true (is_lower_alnum c)) (toLowerCase h)).
  { unfold normalizeHeader.
    apply (filter_Is_true_all (fun c => negb (is_space c))).
    eapply Forall_impl; [apply filter_Is_true_Forall|].
    intros c. apply lower_alnum_not_space. }
  assert (Hall : Forall (fun c => is_lower_alnum c = true) (normalizeHeader h)).
  { rewrite Hsecond. apply filter_Is_true_Forall. }
  split; [exact Hall|]. split; [exact Hsecond|].
  unfold normalizeHeader at 1. rewrite (toLowerCase_alnum _ Hall).
  rewrite (filter_Is_true_all is_lower_alnum _ Hall).
  apply (filter_Is_true_all (fun c => negb (is_space c))).
  eapply Forall_impl; [exact Hall|]. intros c. apply lower_alnum_not_space.
Qed.

(** ** Category Classifier: keywords anywhere in the name *)

Lemma startsWith_app (s sub rest : jsstring) :
  startsWith s sub = true -> startsWith (s ++ rest) sub = true.
Proof.
  revert s. induction sub as [|y sub IH]; intros [|x s] H; cbn in *;
    try reflexivity; try discriminate.
  - destruct rest; reflexivity.
  - apply andb_true_iff in H as [Hx Hs]. rewrite Hx. cbn. apply IH, Hs.
Qed.

Lemma includes_app_r (s sub rest : jsstring) :
  includes s sub = true -> includes (s ++ rest) sub = true.
Proof.
  induction s as [|x s IH]; cbn [includes app]; intros H.
  - rewrite orb_false_r in H. destruct sub; [|discriminate].
    apply includes_nil.
  - apply orb_true_iff in H as [H|H]; apply orb_true_iff.
    + left. apply (startsWith_app (x :: s)). exact H.
    + right. apply IH, H.
Qed.

Lemma includes_app_l (before s sub : jsstring) :
  includes s sub = true -> includes (before ++ s) sub = true.
Proof.
  intros H. induction before as [|x before IH]; [exact H|].
  cbn [app includes]. rewrite IH. apply orb_true_r.
Qed.

Lemma toLowerCase_app (s t : jsstring) :
  toLowerCase (s ++ t) = toLowerCase s ++ toLowerCase t.
Proof. unfold toLowerCase. apply flat_map_app. Qed.

Lemma categorizeItem_Some (name : jsstring) :
  categorizeItem (Some name) = firstCategory (toLowerCase name) categories.
Proof. unfold categorizeItem. cbn. rewrite or_else_nil. reflexivity. Qed.

(** [firstCategory] is the default exactly when no keyword is found,
    provided no category is itself named like the default. *)
Lemma firstCategory_default_iff (name : jsstring)
    (cats : list (jsstring * list jsstring)) :
  Forall (fun ck => ck.1 <> defaultCategory) cats ->
  (firstCategory name cats = defaultCategory
   <-> Forall (fun ck => existsb (fun kw => includes name kw) ck.2 = false)
              cats).
Proof.
  induction 1 as [|[c kws] cats Hc _ IH]; cbn [firstCategory].
  - split; [constructor | reflexivity].
  - cbn [fst] in Hc. cbn [snd]. destruct (existsb _ kws) eqn:Hk.
    + split; [intros E; destruct (Hc E)|]. intros H.
      inversion H as [|? ? Hhd _]; subst. cbn [snd] in Hhd. congruence.
    + rewrite IH. split; [constructor; auto|]. intros H. inversion H; auto.
Qed.

Lemma categories_not_default :
  Forall (fun ck => ck.1 <> defaultCategory) categories.
Proof. repeat constructor; discriminate. Qed.

Lemma existsb_includes_mono (name name' : jsstring) (kws : list jsstring) :
  (forall kw, includes name kw = true -> includes name' kw = true) ->
  existsb (fun kw => includes name kw) kws = true ->
  existsb (fun kw => includes name' kw) kws = true.
Proof.
  intros Hmono H. apply existsb_exists in H as (kw & Hin & Hkw).
  apply existsb_exists. exists kw. auto.
Qed.

(** X7: keywords are looked for anywhere in the name: text put before and
    after a name never turns a category into the default, and a name in
    "Power Tools" stays there. *)
Theorem category_survives_surrounding_text (name before after : jsstring) :
  (categorizeItem (Some name) = js "Power Tools" ->
   categorizeItem (Some (before ++ name ++ after)) = js "Power Tools")
  /\ (categorizeItem (Some name) <> js "General Equipment" ->
      categorizeItem (Some (before ++ name ++ after))
      <> js "General Equipment").
Proof.
  rewrite !categorizeItem_Some, !toLowerCase_app.
  set (n := toLowerCase name).
  set (n' := toLowerCase before ++ n ++ toLowerCase after).
  assert (Hmono : forall kw, includes n kw = true -> includes n' kw = true).
  { intros kw H. apply includes_app_l, includes_app_r, H. }
  split.
  - unfold categories. cbn [firstCategory].
    destruct (existsb (fun kw => includes n kw) _) eqn:Hp.
    + rewrite (existsb_includes_mono n n' _ Hmono Hp). reflexivity.
    + intros H. exfalso. revert H.
      repeat match goal with
             | |- context [if ?b then _ else _] => destruct b
             end; discriminate.
  - change (js "General Equipment") with defaultCategory.
    rewrite !(firstCategory_default_iff _ _ categories_not_default).
    intros Hn Hn'. apply Hn. clear Hn.
    eapply Forall_impl; [exact Hn'|]. cbn. intros [c kws] Hk. cbn in *.
    destruct (existsb (fun kw => includes n kw) kws) eqn:E; [|reflexivity].
    rewrite (existsb_includes_mono n n' _ Hmono E) in Hk. discriminate.
Qed.

(** X8: a name that holds a keyword of "Power Tools" is in "Power Tools",
    whatever other keywords it holds; "martillo", which is also a keyword
    of "Hand Tools", is such a keyword. *)
Theorem power_tools_keyword_wins (name kw : jsstring) :
  In kw (keywordsOf (js "Power Tools")) ->
  includes (toLowerCase name) kw = true ->
  categorizeItem (Some name) = js "Power Tools".
Proof.
  intros Hin Hkw. rewrite categorizeItem_Some.
  unfold categories. cbn [firstCategory].
  assert (existsb (fun k => includes (toLowerCase name) k)
                  (keywordsOf (js "Power Tools")) = true) as Hex.
  { apply existsb_exists. eauto. }
  change (keywordsOf (js "Power Tools")) with
    [js "taladro"; js "martillo"; js "radial"; js "amoladora"; js "batidora";
     js "sierra"; js "drill"; js "hammer"; js "grinder"; js "mixer";
     js "saw"; js "cutter"] in Hex.
  rewrite Hex. reflexivity.
Qed.

Lemma power_tools_keyword_wins_witness :
  In (js "martillo") (keywordsOf (js "Power Tools"))
  /\ In (js "martillo") (keywordsOf (js "Hand Tools"))
  /\ includes (toLowerCase (js "Martillo de bola")) (js "martillo") = true
  /\ categorizeItem (Some (js "Martillo de bola")) = js "Power Tools".
Proof.
  assert (H1 : In (js "martillo") (keywordsOf (js "Power Tools")))
    by (vm_compute; auto).
  assert (H2 : includes (toLowerCase (js "Martillo de bola")) (js "martillo")
               = true) by (vm_compute; reflexivity).
  split; [exact H1|]. split; [vm_compute; auto 10|]. split; [exact H2|].
  exact (power_tools_keyword_wins _ _ H1 H2).
Defined.

(** ** [trim] *)

Lemma dropWhile_suffix (p : N -> bool) (s : jsstring) :
  exists dropped, s = dropped ++ dropWhile p s.
Proof.
  induction s as [|c s [dropped IH]]; [exists []; reflexivity|].
  cbn [dropWhile]. destruct (p c).
  - exists (c :: dropped). cbn. f_equal. exact IH.
  - exists []. reflexivity.
Qed.

Lemma dropWhile_head (p : N -> bool) (s : jsstring) (c : N) (t : jsstring) :
  dropWhile p s = c :: t -> p c = false.
Proof.
  induction s as [|x s IH]; cbn [dropWhile]; [discriminate|].
  destruct (p x) eqn:Hx; [exact IH|]. intros H. inversion H; subst. exact Hx.
Qed.

Lemma dropWhile_fixed (p : N -> bool) (s : jsstring) :
  match s with [] => True | c :: _ => p c = false end ->
  dropWhile p s = s.
Proof. destruct s as [|c s]; [reflexivity|]. cbn. intros ->. reflexivity. Qed.

Lemma dropWhile_idem (p : N -> bool) (s : jsstring) :
  dropWhile p (dropWhile p s) = dropWhile p s.
Proof.
  apply dropWhile_fixed. destruct (dropWhile p s) as [|c t] eqn:E; [exact I|].
  exact (dropWhile_head _ _ _ _ E).
Qed.

Lemma trim_trimmed (s : jsstring) : trimmed s -> trim s = s.
Proof.
  intros [H1 H2]. unfold trim, trimStart. rewrite H1, H2.
  apply reverse_involutive.
Qed.

Lemma trimmed_trim (s : jsstring) : trimmed (trim s).
Proof.
  unfold trimmed, trim, trimStart.
  set (t := dropWhile is_space s).
  set (u := dropWhile is_space (reverse t)).
  rewrite reverse_involutive. split; [|apply dropWhile_idem].
  destruct (dropWhile_suffix is_space (reverse t)) as [dropped Hd].
  fold u in Hd. apply (f_equal reverse) in Hd.
  rewrite reverse_involutive, reverse_app in Hd.
  apply dropWhile_fixed.
  destruct (reverse u) as [|c r] eqn:Hr; [exact I|].
  cbn in Hd. subst t. eapply dropWhile_head. exact Hd.
Qed.

Lemma trim_idempotent (s : jsstring) : trim (trim s) = trim s.
Proof. apply trim_trimmed, trimmed_trim. Qed.

(** A string that starts and ends with code units that are not white
    space is trimmed. *)
Lemma trimmed_ends (c : N) (s : jsstring) (d : N) :
  is_space c = false -> is_space d = false ->
  trimmed [c] /\ trimmed (c :: s ++ [d]).
Proof.
  intros Hc Hd. unfold trimmed. split; split.
  - cbn. rewrite Hc. reflexivity.
  - cbn. rewrite Hc. reflexivity.
  - cbn. rewrite Hc. reflexivity.
  - rewrite reverse_cons, reverse_app. cbn. rewrite Hd. reflexivity.
Qed.

Lemma tryPatterns_empty (currentYear : Z) :
  tryPatterns currentYear [] (imap pair datePatterns) = None.
Proof. reflexivity. Qed.

(** X9: white space around a date does not change the result of
    [formatPurchaseDate]. *)
Theorem date_ignores_surrounding_whitespace (currentYear : Z) (v : jsstring) :
  formatPurchaseDate currentYear (Some v)
  = formatPurchaseDate currentYear (Some (trim v)).
Proof.
  unfold formatPurchaseDate. destruct v as [|c v]; [reflexivity|].
  cbn [truthy]. rewrite trim_idempotent.
  destruct (trim (c :: v)) as [|c' t] eqn:Ht; [|reflexivity].
  apply tryPatterns_empty.
Qed.

(** ** Regular expressions: matches depend on the shape of the subject *)

Lemma first_some_option_map {A B C : Type} (f : A -> option B)
    (g : A -> option C) (h : B -> C) (l : list A) :
  (forall a, g a = option_map h (f a)) ->
  first_some g l = option_map h (first_some f l).
Proof.
  intros Hfg. unfold first_some. induction l as [|a l IH]; [reflexivity|].
  cbn [fold_right]. rewrite Hfg, IH. destruct (f a); reflexivity.
Qed.

Lemma first_some_Some {A B : Type} (f : A -> option B) (l : list A) (b : B) :
  first_some f l = Some b -> exists a, In a l /\ f a = Some b.
Proof.
  unfold first_some. induction l as [|a l IH]; cbn [fold_right];
    [discriminate|].
  destruct (f a) as [b'|] eqn:Hfa.
  - intros H. inversion H; subst. exists a. split; [left; reflexivity | exact Hfa].
  - intros H. destruct (IH H) as (a' & Hin & Ha'). exists a'. split;
      [right; exact Hin | exact Ha'].
Qed.

Section Renaming.

Variable tbl : list (N * N).
Hypothesis Htbl : digitTable tbl.

Lemma is_digit_rename (x : N) : is_digit (renameUnits tbl x) = is_digit x.
Proof.
  unfold renameUnits. destruct (List.find _ tbl) as [ka|] eqn:Hf; [|reflexivity].
  apply find_some in Hf as [Hin Hx]. apply N.eqb_eq in Hx. subst x.
  unfold digitTable in Htbl. rewrite List.Forall_forall in Htbl.
  destruct (Htbl _ Hin) as [-> ->]. reflexivity.
Qed.

Lemma eqb_rename (x c : N) :
  is_digit c = false -> (renameUnits tbl x =? c) = (x =? c).
Proof.
  intros Hc. unfold renameUnits.
  destruct (List.find _ tbl) as [ka|] eqn:Hf; [|reflexivity].
  apply find_some in Hf as [Hin Hx]. apply N.eqb_eq in Hx. subst x.
  unfold digitTable in Htbl. rewrite List.Forall_forall in Htbl.
  destruct (Htbl _ Hin) as [H1 H2].
  assert (ka.2 <> c) by congruence. assert (ka.1 <> c) by congruence.
  rewrite (proj2 (N.eqb_neq _ _)), (proj2 (N.eqb_neq _ _)) by assumption.
  reflexivity.
Qed.

Lemma digit_run_rename (k : nat) (s : jsstring) :
  digit_run k (map (renameUnits tbl) s) = digit_run k s.
Proof.
  unfold digit_run. rewrite firstn_map, length_map. f_equal.
  induction (take k s) as [|x l IH]; [reflexivity|].
  cbn [map forallb]. rewrite is_digit_rename, IH. reflexivity.
Qed.

Lemma match_here_rename (re : list ritem) (s : jsstring) :
  literalsNotDigits re ->
  match_here re (map (renameUnits tbl) s)
  = option_map (map (map (renameUnits tbl))) (match_here re s).
Proof.
  intros Hre. revert s. induction Hre as [|[lo hi|c] re Hit _ IH]; intros s;
    cbn [match_here].
  - reflexivity.
  - apply first_some_option_map. intros k. rewrite digit_run_rename.
    destruct (digit_run k s); [|reflexivity].
    rewrite firstn_map, skipn_map, IH.
    destruct (match_here re (drop k s)); reflexivity.
  - destruct s as [|x s]; [reflexivity|]. cbn [map].
    rewrite (eqb_rename _ _ Hit). destruct (x =? c); [apply IH | reflexivity].
Qed.

Lemma regex_match_rename (re : list ritem) (s : jsstring) :
  literalsNotDigits re ->
  regex_match re (map (renameUnits tbl) s)
  = option_map (map (map (renameUnits tbl))) (regex_match re s).
Proof.
  intros Hre. induction s as [|x s IH]; cbn [regex_match map].
  - pose proof (match_here_rename re [] Hre) as H. cbn [map] in H.
    destruct (match_here re []); [exact H | reflexivity].
  - pose proof (match_here_rename re (x :: s) Hre) as H. cbn [map] in H.
    rewrite H. destruct (match_here re (x :: s)); [reflexivity | exact IH].
Qed.

End Renaming.

Lemma datePatterns_literals :
  Forall literalsNotDigits datePatterns.
Proof. repeat constructor. Qed.

(** ** Regular expressions: what a group holds *)

Lemma digit_run_true (k : nat) (s : jsstring) :
  digit_run k s = true -> length (take k s) = k /\ digits (take k s).
Proof.
  unfold digit_run. rewrite andb_true_iff, Nat.eqb_eq, forallb_forall.
  intros [Hlen Hall]. split; [exact Hlen|].
  apply List.Forall_forall. exact Hall.
Qed.

Lemma match_here_groups (re : list ritem) (s : jsstring)
    (m : list jsstring) :
  match_here re s = Some m ->
  Forall2 (fun b g => digits g /\ (b.1 <= length g <= b.2)%nat)
          (groupBounds re) m.
Proof.
  revert s m. induction re as [|[lo hi|c] re IH]; intros s m;
    cbn [match_here groupBounds flat_map app].
  - intros H. inversion H. constructor.
  - intros H. apply first_some_Some in H as (k & Hk & H).
    destruct (digit_run k s) eqn:Hrun; [|discriminate].
    destruct (match_here re (drop k s)) as [m'|] eqn:Hm'; [|discriminate].
    cbn in H. inversion H; subst.
    apply digit_run_true in Hrun as [Hlen Hdig].
    constructor; [|eapply IH; exact Hm'].
    split; [exact Hdig|]. cbn [fst snd]. rewrite Hlen.
    apply list_elem_of_In, elem_of_reverse, elem_of_seq in Hk. lia.
  - destruct s as [|x s]; [discriminate|].
    destruct (x =? c); [apply IH | discriminate].
Qed.

Lemma regex_match_groups (re : list ritem) (s : jsstring)
    (m : list jsstring) :
  regex_match re s = Some m ->
  Forall2 (fun b g => digits g /\ (b.1 <= length g <= b.2)%nat)
          (groupBounds re) m.
Proof.
  induction s as [|x s IH]; cbn [regex_match].
  - destruct (match_here re []) eqn:H; [|discriminate].
    intros E. inversion E; subst. eapply match_here_groups. exact H.
  - destruct (match_here re (x :: s)) eqn:H; [|exact IH].
    intros E. inversion E; subst. eapply match_here_groups. exact H.
Qed.

(** ** Date Normalizer: dates of a given shape *)

Lemma digit_not_space (c : N) : is_digit c = true -> is_space c = false.
Proof.
  unfold is_digit, is_space. intros H. apply not_true_is_false. intros Hs.
  rewrite !andb_true_iff, !N.leb_le in H.
  rewrite !orb_true_iff, !andb_true_iff, !N.leb_le, !N.eqb_eq in Hs.
  lia.
Qed.

(** A string that starts and ends with a digit is trimmed. *)
Lemma trimmed_between_digits (s : jsstring) (c d : N) :
  head s = Some c -> last s = Some d ->
  is_digit c = true -> is_digit d = true -> trimmed s.
Proof.
  intros Hhead Hlast Hc Hd.
  apply digit_not_space in Hc. apply digit_not_space in Hd.
  apply last_Some in Hlast as [s' ->].
  destruct s' as [|x s']; cbn in Hhead; inversion Hhead; subst.
  - apply (trimmed_ends c [] c Hc Hc).
  - apply (trimmed_ends c s' d Hc Hd).
Qed.

Lemma indexed_datePatterns :
  imap pair datePatterns
  = [ (0%nat, [RDigits 1 2; RChar slash; RDigits 1 2; RChar slash; RDigits 4 4]);
      (1%nat, [RDigits 1 2; RChar dash; RDigits 1 2; RChar dash; RDigits 4 4]);
      (2%nat, [RDigits 4 4; RChar dash; RDigits 1 2; RChar dash; RDigits 1 2]);
      (3%nat, [RDigits 4 4; RChar slash; RDigits 1 2; RChar slash; RDigits 1 2]);
      (4%nat, [RDigits 4 4]) ].
Proof. reflexivity. Qed.

(** Splits the hypotheses that say a string of known length is made of
    digits into one fact for each of its code units. *)
Ltac digits_facts :=
  unfold digits in *;
  repeat match goal with
         | H : Forall _ (_ :: _) |- _ =>
             let Hc := fresh "Hdigit" in
             apply Forall_cons in H as [Hc H]; cbv beta in Hc
         | H : Forall _ [] |- _ => clear H
         end.

(** Settles a statement about [formatPurchaseDate] on a string whose shape
    is known: the string is the renaming by [tbl] of the concrete string
    [s0], on which every pattern is run. *)
Ltac date_of_shape tbl s0 :=
  unfold formatPurchaseDate; cbn [truthy];
  rewrite trim_trimmed
    by (eapply trimmed_between_digits;
        [reflexivity | reflexivity | eassumption | eassumption]);
  rewrite indexed_datePatterns; cbn [tryPatterns];
  match goal with
  | |- context [regex_match _ ?s] => change s with (map (renameUnits tbl) s0)
  end;
  assert (digitTable tbl) as Htbl
    by (repeat constructor; cbn [fst snd]; solve [reflexivity | assumption]);
  rewrite !(regex_match_rename tbl Htbl) by (repeat constructor);
  vm_compute; reflexivity.

(** X10: a month of one or two digits, a day of one or two digits and a
    year of four digits, separated by slashes or by dashes, become
    year-month-day with month and day padded to two digits; no value of
    the month or the day is refused. *)
Theorem us_date_is_rewritten (currentYear : Z) (sep : N) (m d y : jsstring) :
  sep = slash \/ sep = dash ->
  digits m -> digits d -> digits y ->
  (1 <= length m <= 2)%nat -> (1 <= length d <= 2)%nat ->
  length y = 4%nat ->
  formatPurchaseDate currentYear (Some (m ++ sep :: d ++ sep :: y))
  = Some (y ++ dash :: padStart0 2 m ++ dash :: padStart0 2 d).
Proof.
  intros Hsep Hm Hd Hy Hlm Hld Hly.
  destruct y as [|y1 [|y2 [|y3 [|y4 [|]]]]]; try discriminate Hly.
  destruct m as [|m1 [|m2 [|]]]; cbn in Hlm; try lia;
    destruct d as [|d1 [|d2 [|]]]; cbn in Hld; try lia;
    digits_facts; cbn [app];
    destruct Hsep as [-> | ->].
  - date_of_shape [(49, m1); (51, d1); (53, y1); (54, y2); (55, y3); (56, y4)]
                  (js "1/3/5678").
  - date_of_shape [(49, m1); (51, d1); (53, y1); (54, y2); (55, y3); (56, y4)]
                  (js "1-3-5678").
  - date_of_shape [(49, m1); (51, d1); (52, d2); (53, y1); (54, y2); (55, y3);
                   (56, y4)] (js "1/34/5678").
  - date_of_shape [(49, m1); (51, d1); (52, d2); (53, y1); (54, y2); (55, y3);
                   (56, y4)] (js "1-34-5678").
  - date_of_shape [(49, m1); (50, m2); (51, d1); (53, y1); (54, y2); (55, y3);
                   (56, y4)] (js "12/3/5678").
  - date_of_shape [(49, m1); (50, m2); (51, d1); (53, y1); (54, y2); (55, y3);
                   (56, y4)] (js "12-3-5678").
  - date_of_shape [(49, m1); (50, m2); (51, d1); (52, d2); (53, y1); (54, y2);
                   (55, y3); (56, y4)] (js "12/34/5678").
  - date_of_shape [(49, m1); (50, m2); (51, d1); (52, d2); (53, y1); (54, y2);
                   (55, y3); (56, y4)] (js "12-34-5678").
Qed.

Lemma us_date_is_rewritten_witness :
  (slash = slash \/ slash = dash)
  /\ digits (js "5") /\ digits (js "14") /\ digits (js "2023")
  /\ (1 <= length (js "5") <= 2)%nat /\ (1 <= length (js "14") <= 2)%nat
  /\ length (js "2023") = 4%nat
  /\ formatPurchaseDate 2026
       (Some (js "5" ++ slash :: js "14" ++ slash :: js "2023"))
     = Some (js "2023" ++ dash :: padStart0 2 (js "5")
             ++ dash :: padStart0 2 (js "14")).
Proof.
  assert (H0 : slash = slash \/ slash = dash) by (left; reflexivity).
  assert (H1 : digits (js "5")) by (repeat constructor).
  assert (H2 : digits (js "14")) by (repeat constructor).
  assert (H3 : digits (js "2023")) by (repeat constructor).
  assert (H4 : (1 <= length (js "5") <= 2)%nat) by (cbn; lia).
  assert (H5 : (1 <= length (js "14") <= 2)%nat) by (cbn; lia).
  assert (H6 : length (js "2023") = 4%nat) by reflexivity.
  repeat (split; [assumption|]).
  exact (us_date_is_rewritten 2026 slash _ _ _ H0 H1 H2 H3 H4 H5 H6).
Defined.

(** ** Decimal numerals *)

Lemma is_digit_cases (c : N) :
  is_digit c = true ->
  c = 48 \/ c = 49 \/ c = 50 \/ c = 51 \/ c = 52 \/ c = 53 \/ c = 54
  \/ c = 55 \/ c = 56 \/ c = 57.
Proof.
  unfold is_digit. rewrite andb_true_iff, !N.leb_le. lia.
Qed.

Ltac each_digit H :=
  apply is_digit_cases in H;
  destruct H as [->|[->|[->|[->|[->|[->|[->|[->|[->| ->]]]]]]]]].

Lemma js_uintOfDigits (ds : jsstring) :
  digits ds -> js (NilEmpty.string_of_uint (uintOfDigits ds)) = ds.
Proof.
  induction 1 as [|c ds Hc _ IH]; [reflexivity|].
  cbn [uintOfDigits]. unfold js in *.
  each_digit Hc; simpl; f_equal; exact IH.
Qed.

Lemma of_uint_acc_uintOfDigits (ds : jsstring) (acc : nat) :
  digits ds ->
  Nat.of_uint_acc (uintOfDigits ds) acc
  = fold_left (fun a c => (10 * a + N.to_nat (c - 48))%nat) ds acc.
Proof.
  intros H. revert acc. induction H as [|c ds Hc _ IH]; intros acc;
    [reflexivity|].
  cbn [uintOfDigits fold_left].
  each_digit Hc;
    match goal with
    | |- context [N.to_nat (?a - 48)] =>
        let v := eval vm_compute in (N.to_nat (a - 48)) in
        change (N.to_nat (a - 48)) with v
    end;
    cbv iota; cbn [Nat.of_uint_acc];
    rewrite IH, Nat.tail_mul_spec; f_equal; lia.
Qed.

Lemma unorm_uintOfDigits (c : N) (ds : jsstring) :
  is_digit c = true -> c <> 48 ->
  Decimal.unorm (uintOfDigits (c :: ds)) = uintOfDigits (c :: ds).
Proof.
  intros Hc Hnz. cbn [uintOfDigits].
  each_digit Hc; try congruence; reflexivity.
Qed.

(** Printing the value of a numeral without a leading zero gives the
    numeral back. *)
Lemma decimal_digitsValue (c : N) (ds : jsstring) :
  digits (c :: ds) -> c <> 48 -> decimal (digitsValue (c :: ds)) = c :: ds.
Proof.
  intros Hds Hnz. unfold decimal, digitsValue.
  rewrite <- (of_uint_acc_uintOfDigits _ _ Hds).
  change (Nat.of_uint_acc ?u 0) with (Nat.of_uint u).
  rewrite Unsigned.to_of, unorm_uintOfDigits;
    [apply js_uintOfDigits; exact Hds | | exact Hnz].
  apply Forall_cons in Hds as [Hc _]. exact Hc.
Qed.

Lemma takeWhile_digits (ds : jsstring) : digits ds -> takeWhile is_digit ds = ds.
Proof.
  induction 1 as [|c ds Hc _ IH]; [reflexivity|].
  cbn [takeWhile]. rewrite Hc, IH. reflexivity.
Qed.

Lemma fold_digits_Z (ds : jsstring) (acc : nat) :
  fold_left (fun a c => (10 * a + Z.of_N (c - 48))%Z) ds (Z.of_nat acc)
  = Z.of_nat (fold_left (fun a c => (10 * a + N.to_nat (c - 48))%nat) ds acc).
Proof.
  revert acc. induction ds as [|c ds IH]; intros acc; [reflexivity|].
  cbn [fold_left]. rewrite <- IH. f_equal. lia.
Qed.

(** [parseInt] of a numeral is its value. *)
Lemma parseInt_digits (c : N) (ds : jsstring) :
  digits (c :: ds) -> parseInt (c :: ds) = Some (Z.of_nat (digitsValue (c :: ds))).
Proof.
  intros Hds. unfold parseInt. rewrite (takeWhile_digits _ Hds).
  unfold digitsValue. rewrite <- fold_digits_Z. reflexivity.
Qed.

Lemma digitsValue_leading_zero (ds : jsstring) :
  digits ds -> (digitsValue (48%N :: ds) < 10 ^ length ds)%nat.
Proof.
  intros Hds. unfold digitsValue. cbn [fold_left].
  change (10 * 0 + N.to_nat (48 - 48))%nat with 0%nat.
  assert (forall acc,
             (fold_left (fun (a : nat) (c : N) =>
                           (10 * a + N.to_nat (c - 48))%nat) ds acc
              < (acc + 1) * 10 ^ length ds)%nat) as Hb.
  { induction Hds as [|c ds Hc _ IH]; intros acc; cbn [fold_left length].
    - cbn. lia.
    - specialize (IH (10 * acc + N.to_nat (c - 48))%nat).
      eapply Nat.lt_le_trans; [exact IH|].
      rewrite Nat.pow_succ_r'.
      assert (N.to_nat (c - 48) <= 9)%nat.
      { unfold is_digit in Hc. rewrite andb_true_iff, !N.leb_le in Hc. lia. }
      nia. }
  specialize (Hb 0%nat). lia.
Qed.

(** ** Date Normalizer: year first, and bare years *)

(** A date already written [YYYY-MM-DD] comes back as it is. *)
Lemma canonical_date_fixed (currentYear : Z) (y m d : jsstring) :
  digits y -> digits m -> digits d ->
  length y = 4%nat -> length m = 2%nat -> length d = 2%nat ->
  formatPurchaseDate currentYear (Some (y ++ dash :: m ++ dash :: d))
  = Some (y ++ dash :: m ++ dash :: d).
Proof.
  intros Hy Hm Hd Hly Hlm Hld.
  destruct y as [|y1 [|y2 [|y3 [|y4 [|]]]]]; try discriminate Hly.
  destruct m as [|m1 [|m2 [|]]]; try discriminate Hlm.
  destruct d as [|d1 [|d2 [|]]]; try discriminate Hld.
  digits_facts. cbn [app].
  date_of_shape [(49, y1); (50, y2); (51, y3); (52, y4); (53, m1); (54, m2);
                 (55, d1); (56, d2)] (js "1234-56-78").
Qed.

(** X11: a year of four digits, a month and a day of one or two digits,
    separated by dashes or by slashes, are returned as they are: neither
    padded nor given dashes. *)
Theorem year_first_date_is_returned_unchanged (currentYear : Z) (sep : N)
    (y m d : jsstring) :
  sep = slash \/ sep = dash ->
  digits y -> digits m -> digits d ->
  length y = 4%nat ->
  (1 <= length m <= 2)%nat -> (1 <= length d <= 2)%nat ->
  formatPurchaseDate currentYear (Some (y ++ sep :: m ++ sep :: d))
  = Some (y ++ sep :: m ++ sep :: d).
Proof.
  intros Hsep Hy Hm Hd Hly Hlm Hld.
  destruct y as [|y1 [|y2 [|y3 [|y4 [|]]]]]; try discriminate Hly.
  destruct m as [|m1 [|m2 [|]]]; cbn in Hlm; try lia;
    destruct d as [|d1 [|d2 [|]]]; cbn in Hld; try lia;
    digits_facts; cbn [app];
    destruct Hsep as [-> | ->].
  - date_of_shape [(49, y1); (50, y2); (51, y3); (52, y4); (53, m1); (55, d1)]
                  (js "1234/5/7").
  - date_of_shape [(49, y1); (50, y2); (51, y3); (52, y4); (53, m1); (55, d1)]
                  (js "1234-5-7").
  - date_of_shape [(49, y1); (50, y2); (51, y3); (52, y4); (53, m1); (55, d1);
                   (56, d2)] (js "1234/5/78").
  - date_of_shape [(49, y1); (50, y2); (51, y3); (52, y4); (53, m1); (55, d1);
                   (56, d2)] (js "1234-5-78").
  - date_of_shape [(49, y1); (50, y2); (51, y3); (52, y4); (53, m1); (54, m2);
                   (55, d1)] (js "1234/56/7").
  - date_of_shape [(49, y1); (50, y2); (51, y3); (52, y4); (53, m1); (54, m2);
                   (55, d1)] (js "1234-56-7").
  - date_of_shape [(49, y1); (50, y2); (51, y3); (52, y4); (53, m1); (54, m2);
                   (55, d1); (56, d2)] (js "1234/56/78").
  - date_of_shape [(49, y1); (50, y2); (51, y3); (52, y4); (53, m1); (54, m2);
                   (55, d1); (56, d2)] (js "1234-56-78").
Qed.

Lemma year_first_date_is_returned_unchanged_witness :
  (dash = slash \/ dash = dash)
  /\ digits (js "2023") /\ digits (js "5") /\ digits (js "4")
  /\ length (js "2023") = 4%nat
  /\ (1 <= length (js "5") <= 2)%nat /\ (1 <= length (js "4") <= 2)%nat
  /\ formatPurchaseDate 2026
       (Some (js "2023" ++ dash :: js "5" ++ dash :: js "4"))
     = Some (js "2023" ++ dash :: js "5" ++ dash :: js "4").
Proof.
  assert (H0 : dash = slash \/ dash = dash) by (right; reflexivity).
  assert (H1 : digits (js "2023")) by (repeat constructor).
  assert (H2 : digits (js "5")) by (repeat constructor).
  assert (H3 : digits (js "4")) by (repeat constructor).
  assert (H4 : length (js "2023") = 4%nat) by reflexivity.
  assert (H5 : (1 <= length (js "5") <= 2)%nat) by (cbn; lia).
  assert (H6 : (1 <= length (js "4") <= 2)%nat) by (cbn; lia).
  repeat (split; [assumption|]).
  exact (year_first_date_is_returned_unchanged 2026 dash _ _ _
           H0 H1 H2 H3 H4 H5 H6).
Defined.

(** The patterns on a string of four digits: only the last one matches,
    with the string as its group. *)
Lemma four_digits_matches (y : jsstring) :
  digits y -> length y = 4%nat ->
  map (fun ip => (ip.1, regex_match ip.2 y)) (imap pair datePatterns)
  = [ (0%nat, None); (1%nat, None); (2%nat, None); (3%nat, None);
      (4%nat, Some [y]) ].
Proof.
  intros Hy Hly.
  destruct y as [|y1 [|y2 [|y3 [|y4 [|]]]]]; try discriminate Hly.
  digits_facts. rewrite indexed_datePatterns. cbn [map fst snd].
  set (tbl := [(49, y1); (50, y2); (51, y3); (52, y4)]).
  change [y1; y2; y3; y4] with (map (renameUnits tbl) (js "1234")).
  assert (digitTable tbl) as Htbl
    by (repeat constructor; cbn [fst snd]; solve [reflexivity | assumption]).
  rewrite !(regex_match_rename tbl Htbl) by (repeat constructor).
  vm_compute. reflexivity.
Qed.

Lemma four_digits_year (y : jsstring) (year : Z) :
  digits y -> length y = 4%nat -> parseInt y = Some year ->
  (1000 <= year)%Z -> decimal (Z.to_nat year) = y.
Proof.
  intros Hy Hly Hparse Hyear.
  destruct y as [|c ds]; [discriminate Hly|].
  rewrite (parseInt_digits _ _ Hy) in Hparse. inversion Hparse; subst year.
  rewrite Nat2Z.id. apply decimal_digitsValue; [exact Hy|].
  intros ->. apply Forall_cons in Hy as [_ Hds].
  pose proof (digitsValue_leading_zero ds Hds) as Hlt.
  cbn in Hly. inversion Hly as [Hlen]. rewrite Hlen in Hlt.
  change (10 ^ 3)%nat with 1000%nat in Hlt. lia.
Qed.

(** X12: a string of four digits is a date exactly when its value is above
    1900 and at most the current year plus 5, and the date is then the
    first of January of that year. *)
Theorem bare_year_rule (currentYear : Z) (y : jsstring) (year : Z) :
  digits y -> length y = 4%nat -> parseInt y = Some year ->
  formatPurchaseDate currentYear (Some y)
  = if ((1900 <? year) && (year <=? currentYear + 5))%Z
    then Some (y ++ js "-01-01")
    else None.
Proof.
  intros Hy Hly Hparse.
  pose proof (four_digits_matches y Hy Hly) as Hmatches.
  assert (trimmed y) as Htrim.
  { destruct y as [|y1 [|y2 [|y3 [|y4 [|]]]]]; try discriminate Hly.
    digits_facts.
    eapply trimmed_between_digits;
      [reflexivity | reflexivity | eassumption | eassumption]. }
  unfold formatPurchaseDate.
  assert (truthy y = true) as -> by (destruct y; [discriminate Hly | reflexivity]).
  rewrite (trim_trimmed _ Htrim).
  rewrite indexed_datePatterns in *. cbn [map fst snd] in Hmatches.
  injection Hmatches as H0 H1 H2 H3 H4.
  cbn [tryPatterns]. rewrite H0, H1, H2, H3, H4.
  change (4 =? 4)%nat with true. cbv iota.
  change (group 1 [y]) with y. rewrite Hparse.
  change (yearAccepted currentYear year)
    with ((1900 <? year) && (year <=? currentYear + 5))%Z.
  destruct ((1900 <? year) && (year <=? currentYear + 5))%Z eqn:Hacc;
    [|reflexivity].
  rewrite (four_digits_year y year Hy Hly Hparse); [reflexivity|].
  apply andb_true_iff in Hacc as [Hlo _]. apply Z.ltb_lt in Hlo. lia.
Qed.

Lemma bare_year_rule_witness :
  digits (js "2031") /\ length (js "2031") = 4%nat
  /\ parseInt (js "2031") = Some 2031%Z
  /\ formatPurchaseDate 2026 (Some (js "2031"))
     = if ((1900 <? 2031) && (2031 <=? 2026 + 5))%Z
       then Some (js "2031" ++ js "-01-01")
       else None.
Proof.
  assert (H1 : digits (js "2031")) by (repeat constructor).
  assert (H2 : length (js "2031") = 4%nat) by reflexivity.
  assert (H3 : parseInt (js "2031") = Some 2031%Z) by (vm_compute; reflexivity).
  repeat (split; [assumption|]).
  exact (bare_year_rule 2026 _ _ H1 H2 H3).
Defined.

(** ** Date Normalizer: a result is a fixed point *)

Lemma padStart0_digits (g : jsstring) :
  digits g -> (1 <= length g <= 2)%nat ->
  digits (padStart0 2 g) /\ length (padStart0 2 g) = 2%nat.
Proof.
  intros Hg Hlen. unfold padStart0.
  destruct g as [|a [|b [|]]]; cbn in Hlen; try lia; cbn; split;
    try reflexivity; try exact Hg.
  constructor; [reflexivity | exact Hg].
Qed.

Lemma rewritten_date_fixed (currentYear : Z) (g1 g2 g3 : jsstring) :
  digits g1 -> digits g2 -> digits g3 ->
  (1 <= length g1 <= 2)%nat -> (1 <= length g2 <= 2)%nat ->
  length g3 = 4%nat ->
  let s := g3 ++ js "-" ++ padStart0 2 g1 ++ js "-" ++ padStart0 2 g2 in
  formatPurchaseDate currentYear (Some s) = Some s.
Proof.
  intros H1 H2 H3 Hl1 Hl2 Hl3 s. subst s.
  destruct (padStart0_digits g1 H1 Hl1) as [Hd1 Hp1].
  destruct (padStart0_digits g2 H2 Hl2) as [Hd2 Hp2].
  apply (canonical_date_fixed currentYear g3 _ _ H3 Hd1 Hd2 Hl3 Hp1 Hp2).
Qed.

Lemma group_of_three (m : list jsstring) (b1 b2 b3 : nat * nat) :
  Forall2 (fun b g => digits g /\ (b.1 <= length g <= b.2)%nat)
          [b1; b2; b3] m ->
  exists g1 g2 g3,
    m = [g1; g2; g3]
    /\ (digits g1 /\ (b1.1 <= length g1 <= b1.2)%nat)
    /\ (digits g2 /\ (b2.1 <= length g2 <= b2.2)%nat)
    /\ (digits g3 /\ (b3.1 <= length g3 <= b3.2)%nat).
Proof.
  intros H.
  inversion H as [|? g1 ? m1 Hg1 Hm1]; subst.
  inversion Hm1 as [|? g2 ? m2 Hg2 Hm2]; subst.
  inversion Hm2 as [|? g3 ? m3 Hg3 Hm3]; subst.
  inversion Hm3; subst. exists g1, g2, g3. auto.
Qed.

(** X13: a string [formatPurchaseDate] returns is returned unchanged when
    it is given back to it. *)
Theorem formatPurchaseDate_result_is_fixed_point (currentYear : Z)
    (v : option jsstring) (s : jsstring) :
  formatPurchaseDate currentYear v = Some s ->
  formatPurchaseDate currentYear (Some s) = Some s.
Proof.
  intros H. destruct v as [w|]; [|discriminate H].
  unfold formatPurchaseDate in H. destruct (truthy w); [|discriminate H].
  pose proof (trimmed_trim w) as Ht. remember (trim w) as t eqn:Et. clear Et w.
  rewrite indexed_datePatterns in H. cbn [tryPatterns] in H.
  change (0 =? 4)%nat with false in H. change (1 =? 4)%nat with false in H.
  change (2 =? 4)%nat with false in H. change (3 =? 4)%nat with false in H.
  change (4 =? 4)%nat with true in H.
  change ((0 =? 2) || (0 =? 3))%nat with false in H.
  change ((1 =? 2) || (1 =? 3))%nat with false in H.
  change ((2 =? 2) || (2 =? 3))%nat with true in H.
  change ((3 =? 2) || (3 =? 3))%nat with true in H.
  cbv iota in H.
  destruct (regex_match _ t) as [m0|] eqn:E0 in H.
  { apply regex_match_groups, group_of_three in E0
      as (g1 & g2 & g3 & -> & [H1 L1] & [H2 L2] & [H3 L3]).
    cbn [fst snd] in L1, L2, L3.
    change (group 1 [g1; g2; g3]) with g1 in H.
    change (group 2 [g1; g2; g3]) with g2 in H.
    change (group 3 [g1; g2; g3]) with g3 in H.
    cbv zeta in H. injection H as <-.
    apply rewritten_date_fixed; auto; lia. }
  destruct (regex_match _ t) as [m1|] eqn:E1 in H.
  { apply regex_match_groups, group_of_three in E1
      as (g1 & g2 & g3 & -> & [H1 L1] & [H2 L2] & [H3 L3]).
    cbn [fst snd] in L1, L2, L3.
    change (group 1 [g1; g2; g3]) with g1 in H.
    change (group 2 [g1; g2; g3]) with g2 in H.
    change (group 3 [g1; g2; g3]) with g3 in H.
    cbv zeta in H. injection H as <-.
    apply rewritten_date_fixed; auto; lia. }
  assert (Hpass :
    forall p2 p3,
      nth 2 datePatterns [] = p2 -> nth 3 datePatterns [] = p3 ->
      (exists m, regex_match p2 t = Some m)
      \/ (regex_match p2 t = None /\ exists m, regex_match p3 t = Some m) ->
      formatPurchaseDate currentYear (Some t) = Some t).
  { intros p2 p3 <- <- Hm. unfold formatPurchaseDate.
    assert (truthy t = true) as ->.
    { destruct t; [|reflexivity].
      destruct Hm as [[m Hm] | [_ [m Hm]]]; vm_compute in Hm; discriminate Hm. }
    rewrite (trim_trimmed _ Ht), indexed_datePatterns. cbn [tryPatterns].
    rewrite E0, E1.
    destruct Hm as [[m Hm] | [Hn [m Hm]]]; cbn [nth datePatterns] in *.
    - rewrite Hm. reflexivity.
    - rewrite Hn, Hm. reflexivity. }
  destruct (regex_match _ t) as [m2|] eqn:E2 in H.
  { injection H as <-. eapply Hpass; [reflexivity | reflexivity |].
    left. eexists. exact E2. }
  destruct (regex_match _ t) as [m3|] eqn:E3 in H.
  { injection H as <-. eapply Hpass; [reflexivity | reflexivity |].
    right. split; [exact E2 | eexists; exact E3]. }
  clear Hpass.
  destruct (regex_match _ t) as [m4|] eqn:E4 in H; [|discriminate H].
  apply regex_match_groups in E4. cbn [groupBounds flat_map app] in E4.
  inversion E4 as [|? g ? m' [Hg Lg] Hm']; subst. inversion Hm'; subst.
  cbn [fst snd] in Lg. change (group 1 [g]) with g in H.
  destruct (parseInt g) as [year|] eqn:Hparse; [|discriminate H].
  destruct (yearAccepted currentYear year) eqn:Hacc; [|discriminate H].
  injection H as <-.
  assert (length g = 4%nat) as Lg4 by lia.
  rewrite (four_digits_year g year Hg Lg4 Hparse).
  - change (g ++ js "-01-01") with (g ++ dash :: js "01" ++ dash :: js "01").
    apply canonical_date_fixed; auto; repeat constructor.
  - unfold yearAccepted in Hacc. apply andb_true_iff in Hacc as [Hlo _].
    apply Z.ltb_lt in Hlo. lia.
Qed.

Lemma formatPurchaseDate_result_is_fixed_point_witness :
  formatPurchaseDate 2026 (Some (js " Comprado el 3/7/2021 "))
    = Some (js "2021-03-07")
  /\ formatPurchaseDate 2026 (Some (js "2021-03-07")) = Some (js "2021-03-07").
Proof.
  assert (H : formatPurchaseDate 2026 (Some (js " Comprado el 3/7/2021 "))
              = Some (js "2021-03-07")) by (vm_compute; reflexivity).
  split; [exact H|].
  exact (formatPurchaseDate_result_is_fixed_point 2026 _ _ H).
Defined.

(** ** Date Normalizer: the form of a result *)

(** X28: a string [formatPurchaseDate] returns is either written
    YYYY-MM-DD (four, two and two digits between dashes) or is the input
    itself without the white space around it (the case of a date found
    with the year first). *)
Theorem date_result_is_canonical_or_the_input (currentYear : Z)
    (v : option jsstring) (s : jsstring) :
  formatPurchaseDate currentYear v = Some s ->
  canonicalDate s
  \/ (exists w, v = Some w /\ s = trim w /\ s <> []).
Proof.
  intros H. destruct v as [w|]; [|discriminate H].
  unfold formatPurchaseDate in H. destruct (truthy w); [|discriminate H].
  rewrite indexed_datePatterns in H. cbn [tryPatterns] in H.
  change (0 =? 4)%nat with false in H. change (1 =? 4)%nat with false in H.
  change (2 =? 4)%nat with false in H. change (3 =? 4)%nat with false in H.
  change (4 =? 4)%nat with true in H.
  change ((0 =? 2) || (0 =? 3))%nat with false in H.
  change ((1 =? 2) || (1 =? 3))%nat with false in H.
  change ((2 =? 2) || (2 =? 3))%nat with true in H.
  change ((3 =? 2) || (3 =? 3))%nat with true in H.
  cbv iota in H.
  assert (Hrewritten :
    forall g1 g2 g3,
      digits g1 -> digits g2 -> digits g3 ->
      (1 <= length g1 <= 2)%nat -> (1 <= length g2 <= 2)%nat ->
      (4 <= length g3 <= 4)%nat ->
      canonicalDate (g3 ++ js "-" ++ padStart0 2 g1 ++ js "-"
                     ++ padStart0 2 g2)).
  { intros g1 g2 g3 H1 H2 H3 L1 L2 L3.
    destruct (padStart0_digits g1 H1 L1) as [Hd1 Hp1].
    destruct (padStart0_digits g2 H2 L2) as [Hd2 Hp2].
    exists g3, (padStart0 2 g1), (padStart0 2 g2).
    repeat (split; [first [assumption | lia]|]). reflexivity. }
  destruct (regex_match _ (trim w)) as [m0|] eqn:E0 in H.
  { apply regex_match_groups, group_of_three in E0
      as (g1 & g2 & g3 & -> & [H1 L1] & [H2 L2] & [H3 L3]).
    cbn [fst snd] in L1, L2, L3.
    change (group 1 [g1; g2; g3]) with g1 in H.
    change (group 2 [g1; g2; g3]) with g2 in H.
    change (group 3 [g1; g2; g3]) with g3 in H.
    cbv zeta in H. injection H as <-. left. apply Hrewritten; assumption. }
  destruct (regex_match _ (trim w)) as [m1|] eqn:E1 in H.
  { apply regex_match_groups, group_of_three in E1
      as (g1 & g2 & g3 & -> & [H1 L1] & [H2 L2] & [H3 L3]).
    cbn [fst snd] in L1, L2, L3.
    change (group 1 [g1; g2; g3]) with g1 in H.
    change (group 2 [g1; g2; g3]) with g2 in H.
    change (group 3 [g1; g2; g3]) with g3 in H.
    cbv zeta in H. injection H as <-. left. apply Hrewritten; assumption. }
  destruct (regex_match _ (trim w)) as [m2|] eqn:E2 in H.
  { injection H as <-. right. exists w. split; [reflexivity|].
    split; [reflexivity|]. intros Hnil. rewrite Hnil in E2.
    vm_compute in E2. discriminate E2. }
  destruct (regex_match _ (trim w)) as [m3|] eqn:E3 in H.
  { injection H as <-. right. exists w. split; [reflexivity|].
    split; [reflexivity|]. intros Hnil. rewrite Hnil in E3.
    vm_compute in E3. discriminate E3. }
  destruct (regex_match _ (trim w)) as [m4|] eqn:E4 in H; [|discriminate H].
  apply regex_match_groups in E4. cbn [groupBounds flat_map app] in E4.
  inversion E4 as [|? g ? m' [Hg Lg] Hm']; subst. inversion Hm'; subst.
  cbn [fst snd] in Lg. change (group 1 [g]) with g in H.
  destruct (parseInt g) as [year|] eqn:Hparse; [|discriminate H].
  destruct (yearAccepted currentYear year) eqn:Hacc; [|discriminate H].
  injection H as <-. left.
  assert (length g = 4%nat) as Lg4 by lia.
  rewrite (four_digits_year g year Hg Lg4 Hparse).
  - exists g, (js "01"), (js "01").
    repeat (split; [first [assumption | reflexivity | repeat constructor]|]).
    reflexivity.
  - unfold yearAccepted in Hacc. apply andb_true_iff in Hacc as [Hlo _].
    apply Z.ltb_lt in Hlo. lia.
Qed.

Lemma date_result_is_canonical_or_the_input_witness :
  formatPurchaseDate 2026 (Some (js " 2021/3/7 ")) = Some (js "2021/3/7")
  /\ (canonicalDate (js "2021/3/7")
      \/ (exists w, Some (js " 2021/3/7 ") = Some w
                    /\ js "2021/3/7" = trim w /\ js "2021/3/7" <> [])).
Proof.
  assert (H : formatPurchaseDate 2026 (Some (js " 2021/3/7 "))
              = Some (js "2021/3/7")) by (vm_compute; reflexivity).
  split; [exact H|].
  exact (date_result_is_canonical_or_the_input 2026 _ _ H).
Defined.

(** ** Field values *)

Lemma trim_nil : trim [] = [].
Proof. reflexivity. Qed.

Lemma getFieldValue_trim (row : list jsstring) (index : option nat) :
  trim (getFieldValue row index) = getFieldValue row index.
Proof. destruct index as [i|]; [apply trim_idempotent | reflexivity]. Qed.

(** X14: [getFieldValue] has no white space at either end, and is the
    empty string for a column beyond the row and for a field that is not
    mapped. *)
Theorem getFieldValue_is_trimmed (row : list jsstring) (index : option nat) :
  trim (getFieldValue row index) = getFieldValue row index
  /\ (forall i, index = Some i -> (length row <= i)%nat ->
                getFieldValue row index = [])
  /\ (index = None -> getFieldValue row index = []).
Proof.
  split; [|split].
  - apply getFieldValue_trim.
  - intros i -> Hi. cbn [getFieldValue].
    rewrite (lookup_ge_None_2 row i Hi). reflexivity.
  - intros ->. reflexivity.
Qed.

(** ** Description Composer *)

Lemma describeField_present (row : list jsstring) (mappings : gmap string nat)
    (headers : list jsstring) (parts : list jsstring) (fld : string) :
  describeField row mappings headers parts fld
  = if fieldPresent row mappings fld
    then parts ++ [descriptionLabel mappings headers fld ++ js ": "
                   ++ getFieldValue row (mappings !! fld)]
    else parts.
Proof.
  unfold describeField.
  rewrite getFieldValue_trim, andb_diag, getFieldValue_truthy. reflexivity.
Qed.

Lemma fold_describeField (row : list jsstring) (mappings : gmap string nat)
    (headers : list jsstring) (flds : list string) (parts : list jsstring) :
  fold_left (describeField row mappings headers) flds parts
  = parts
    ++ map (fun fld => descriptionLabel mappings headers fld ++ js ": "
                       ++ getFieldValue row (mappings !! fld))
           (List.filter (fieldPresent row mappings) flds).
Proof.
  revert parts. induction flds as [|fld flds IH]; intros parts;
    cbn [fold_left List.filter map].
  - rewrite app_nil_r. reflexivity.
  - rewrite IH, describeField_present.
    destruct (fieldPresent row mappings fld); [|reflexivity].
    cbn [map]. rewrite <- app_assoc. reflexivity.
Qed.

Lemma join_truthy (sep p : jsstring) (ps : list jsstring) :
  truthy p = true -> truthy (join sep (p :: ps)) = true.
Proof.
  intros Hp. cbn [join]. destruct ps; [exact Hp|].
  destruct p; [discriminate Hp | reflexivity].
Qed.

(** X15: the description joins with " | " one part for each secondary
    field present in the row, in the order brand, model, serialNumber,
    specifications, supplier, quantity, each labelled by its header (by
    the field name under an empty header); it is the fallback sentence
    when no such field is present, and it is never empty. *)
Theorem buildDescription_lists_present_fields (row : list jsstring)
    (mappings : gmap string nat) (headers : list jsstring) :
  buildDescription row mappings headers
  = match descriptionParts row mappings headers with
    | [] => js "No additional details available"
    | parts => join (js " | ") parts
    end
  /\ buildDescription row mappings headers <> [].
Proof.
  unfold buildDescription. rewrite fold_describeField. cbn [app].
  fold (descriptionParts row mappings headers).
  assert (Hparts : Forall (fun p => truthy p = true)
                          (descriptionParts row mappings headers)).
  { unfold descriptionParts. apply List.Forall_map, List.Forall_forall.
    intros fld _. destruct (descriptionLabel mappings headers fld);
      reflexivity. }
  destruct (descriptionParts row mappings headers) as [|p ps].
  - split; [reflexivity | discriminate].
  - inversion Hparts as [|? ? Hp _]; subst.
    pose proof (join_truthy (js " | ") p ps Hp) as Hj.
    unfold or_else. rewrite Hj. split; [reflexivity|].
    intros E. rewrite E in Hj. discriminate Hj.
Qed.

(** ** Validation and confidence *)

(** X16: a row with an item name has no validation issue and a confidence
    of at least 50; a row without one has the single issue "Item name is
    required" and a confidence of at most 50. *)
Theorem validation_follows_item_name (row : list jsstring)
    (mappings : gmap string nat) :
  (fieldPresent row mappings "itemName" = true ->
   validateItem row mappings = []
   /\ (50 <= calculateItemConfidence row mappings)%Z)
  /\ (fieldPresent row mappings "itemName" = false ->
      validateItem row mappings = [missingNameIssue]
      /\ (calculateItemConfidence row mappings <= 50)%Z).
Proof.
  unfold validateItem, calculateItemConfidence.
  rewrite !getFieldValue_truthy.
  destruct (fieldPresent row mappings "itemName"),
           (fieldPresent row mappings "brand"),
           (fieldPresent row mappings "model"),
           (fieldPresent row mappings "purchaseDate"),
           (fieldPresent row mappings "specifications");
    split; intros H; try discriminate H; split; try reflexivity;
    vm_compute; discriminate.
Qed.

(** ** Rows without an item name *)

Lemma decimal_digits (n : nat) : digits (decimal n).
Proof. apply string_of_uint_digits. Qed.

Lemma decimal_not_nil (n : nat) : decimal n <> [].
Proof.
  unfold decimal. intros H.
  assert (Nat.to_uint n <> Decimal.Nil) as Hnn.
  { pose proof (Unsigned.to_of (Nat.to_uint n)) as H1.
    rewrite Unsigned.of_to in H1. rewrite H1. apply unorm_nonnil. }
  destruct (Nat.to_uint n); try (exfalso; apply Hnn; reflexivity);
    discriminate H.
Qed.

Lemma startsWith_chars (s sub : jsstring) :
  startsWith s sub = true -> forall c, In c sub -> In c s.
Proof.
  revert s. induction sub as [|y sub IH]; intros s H c Hc; [destruct Hc|].
  destruct s as [|x s]; [discriminate H|]. cbn in H.
  apply andb_true_iff in H as [Hxy Hs]. apply N.eqb_eq in Hxy. subst y.
  destruct Hc as [<- | Hc]; [left; reflexivity | right; eauto].
Qed.

(** Every code unit of a substring is a code unit of the string. *)
Lemma includes_chars (s sub : jsstring) :
  includes s sub = true -> forall c, In c sub -> In c s.
Proof.
  induction s as [|x s IH]; cbn [includes]; intros H c Hc.
  - rewrite orb_false_r in H. eapply startsWith_chars; eauto.
  - apply orb_true_iff in H as [H|H].
    + eapply startsWith_chars; eauto.
    + right. eauto.
Qed.

Lemma keyword_outside_fallback_names :
  forallb (fun ck => forallb (fun kw => existsb (fun c => negb (fallbackNameUnit c)) kw)
                             ck.2) categories = true.
Proof. by_evaluation. Qed.

Lemma fallback_name_lower (n : nat) :
  toLowerCase (js "Item " ++ decimal n) = js "item " ++ decimal n
  /\ Forall (fun c => fallbackNameUnit c = true) (js "item " ++ decimal n).
Proof.
  split.
  - rewrite toLowerCase_app. f_equal.
    pose proof (decimal_digits n) as Hd.
    induction Hd as [|c ds Hc _ IH]; [reflexivity|].
    unfold toLowerCase in *. cbn [flat_map]. rewrite IH.
    assert (is_lower_alnum c = true) as Hl
      by (unfold is_lower_alnum; rewrite Hc; apply orb_true_r).
    rewrite (lower_unit_alnum c Hl). reflexivity.
  - apply Forall_app. split; [repeat constructor|].
    eapply Forall_impl; [apply decimal_digits|].
    intros c Hc. unfold fallbackNameUnit. cbv beta in Hc. rewrite Hc.
    apply orb_true_r.
Qed.

Lemma fallback_name_category (n : nat) :
  categorizeItem (Some (js "Item " ++ decimal n)) = defaultCategory.
Proof.
  rewrite categorizeItem_Some.
  destruct (fallback_name_lower n) as [-> Hunits].
  apply (firstCategory_default_iff _ _ categories_not_default).
  pose proof keyword_outside_fallback_names as Hk.
  rewrite forallb_forall in Hk. apply List.Forall_forall. intros ck Hck.
  specialize (Hk ck Hck). rewrite forallb_forall in Hk.
  apply not_true_is_false. intros Hex.
  apply existsb_exists in Hex as (kw & Hkw & Hinc).
  specialize (Hk kw Hkw). apply existsb_exists in Hk as (c & Hc & Hout).
  pose proof (includes_chars _ _ Hinc c Hc) as Hin.
  rewrite List.Forall_forall in Hunits. rewrite (Hunits c Hin) in Hout.
  discriminate Hout.
Qed.

Lemma fallback_name_trimmed (n : nat) : trimmed (js "Item " ++ decimal n).
Proof.
  pose proof (decimal_digits n) as Hd. pose proof (decimal_not_nil n) as Hn.
  destruct (decimal n) as [|c ds] using rev_ind; [congruence|].
  clear IHds. apply Forall_app in Hd as [_ Hc].
  apply Forall_cons in Hc as [Hc _]. apply digit_not_space in Hc.
  change (js "Item " ++ ds ++ [c]) with (73 :: (js "tem " ++ ds) ++ [c]).
  rewrite <- app_assoc.
  change (73 :: js "tem " ++ ds ++ [c]) with (73 :: (js "tem " ++ ds) ++ [c]).
  apply (trimmed_ends 73 _ c); [reflexivity | exact Hc].
Qed.

(** X17: the item of a row without an item name is named "Item" and the
    row number counted from 1, is in the default category, carries the
    missing-name issue and has a confidence of at most 50. *)
Theorem nameless_row_gets_fallback_name (currentYear : Z) (proj : jsstring)
    (hs : list jsstring) (mappings : gmap string nat) (index : nat)
    (row : list jsstring) :
  fieldPresent row mappings "itemName" = false ->
  let item := makeItem currentYear proj hs mappings index row in
  itemName item = js "Item " ++ decimal (index + 1)
  /\ category item = js "General Equipment"
  /\ validationIssues item = [missingNameIssue]
  /\ (confidence item <= 50)%Z.
Proof.
  intros Hname item. subst item. cbn [itemName category validationIssues
                                      confidence makeItem].
  assert (getFieldValue row (mappings !! "itemName"%string) = []) as Hv.
  { rewrite <- getFieldValue_truthy in Hname.
    destruct (getFieldValue row _); [reflexivity | discriminate Hname]. }
  rewrite Hv. cbn [or_else truthy].
  split; [apply trim_trimmed, fallback_name_trimmed|].
  split; [apply fallback_name_category|].
  unfold validateItem, calculateItemConfidence. rewrite Hv. cbn [truthy negb].
  split; [reflexivity|].
  repeat match goal with
         | |- context [truthy ?v] => destruct (truthy v)
         end; vm_compute; discriminate.
Qed.

Lemma nameless_row_gets_fallback_name_witness :
  fieldPresent namelessRow nameAndBrand "itemName" = false
  /\ (let item := makeItem 2026 (js "OBRA") [js "Nombre"; js "Marca"]
                    nameAndBrand 4 namelessRow in
      itemName item = js "Item " ++ decimal (4 + 1)
      /\ category item = js "General Equipment"
      /\ validationIssues item = [missingNameIssue]
      /\ (confidence item <= 50)%Z).
Proof.
  assert (H : fieldPresent namelessRow nameAndBrand "itemName" = false)
    by (vm_compute; reflexivity).
  split; [exact H|].
  exact (nameless_row_gets_fallback_name 2026 (js "OBRA")
           [js "Nombre"; js "Marca"] nameAndBrand 4 namelessRow H).
Defined.

(** ** Produced items *)

Lemma firstCategory_range (name : jsstring)
    (cats : list (jsstring * list jsstring)) :
  In (firstCategory name cats) (map fst cats ++ [defaultCategory]).
Proof.
  induction cats as [|[c kws] cats IH]; cbn [firstCategory map app fst].
  - left. reflexivity.
  - destruct (existsb _ kws); [left; reflexivity | right; exact IH].
Qed.

Lemma calculateItemConfidence_range (row : list jsstring)
    (mappings : gmap string nat) :
  (0 <= calculateItemConfidence row mappings <= 100)%Z.
Proof.
  unfold calculateItemConfidence.
  repeat match goal with
         | |- context [truthy ?v] => destruct (truthy v)
         end; vm_compute; split; discriminate.
Qed.

Lemma processRows_items (currentYear : Z) (proj : jsstring)
    (tableData : RawTable) (item : InventoryItem) :
  In item (processRows currentYear proj tableData).1 ->
  exists index row,
    rows tableData !! index = Some row
    /\ rowHasContent row = true
    /\ item = makeItem currentYear proj (headers tableData)
                (detectFieldMappings (headers tableData)) index row.
Proof.
  unfold processRows.
  destruct ((0 <? length (headers tableData))%nat
            && (0 <? length (rows tableData))%nat); [|intros []].
  rewrite fold_processRow. cbn [fst app]. intros Hin.
  apply in_map_iff in Hin as ([index row] & <- & Hin).
  apply filter_In in Hin as [Hin Hc]. cbn [fst snd] in *.
  apply list_elem_of_In, elem_of_lookup_imap in Hin as (i & x & Heq & Hx).
  inversion Heq; subst. eauto.
Qed.

(** X18: every produced item has a non-empty name and a non-empty
    condition, both without white space at the ends, one of the seven
    categories, a confidence between 0 and 100, the project name of the
    document and the source tag "azure_ai". *)
Theorem produced_items_are_well_formed (currentYear : Z) (proj : jsstring)
    (tableData : RawTable) (item : InventoryItem) :
  In item (processRows currentYear proj tableData).1 ->
  itemName item <> []
  /\ trim (itemName item) = itemName item
  /\ condition item <> []
  /\ trim (condition item) = condition item
  /\ In (category item) categoryNames
  /\ (0 <= confidence item <= 100)%Z
  /\ project item = proj
  /\ source item = js "azure_ai".
Proof.
  intros Hin.
  apply processRows_items in Hin as (index & row & _ & _ & ->).
  cbn [itemName condition category confidence project source
       makeItem].
  set (m := detectFieldMappings (headers tableData)).
  assert (Hname : trimmed (or_else (getFieldValue row (m !! "itemName"%string))
                                   (js "Item " ++ decimal (index + 1)))
                  /\ or_else (getFieldValue row (m !! "itemName"%string))
                             (js "Item " ++ decimal (index + 1)) <> []).
  { unfold or_else.
    destruct (getFieldValue row (m !! "itemName"%string)) as [|c v] eqn:Hv;
      cbn [truthy].
    - split; [apply fallback_name_trimmed | discriminate].
    - split; [|discriminate]. rewrite <- Hv, <- getFieldValue_trim.
      apply trimmed_trim. }
  destruct Hname as [Htrim Hne].
  rewrite (trim_trimmed _ Htrim).
  split; [exact Hne|]. split; [apply trim_trimmed; exact Htrim|].
  assert (Hcond : trimmed (or_else (getFieldValue row (m !! "condition"%string))
                                   (js "Good"))
                  /\ or_else (getFieldValue row (m !! "condition"%string))
                             (js "Good") <> []).
  { unfold or_else.
    destruct (getFieldValue row (m !! "condition"%string)) as [|c v] eqn:Hv;
      cbn [truthy].
    - split; [|discriminate]. apply (trimmed_ends 71 (js "oo") 100);
        reflexivity.
    - split; [|discriminate]. rewrite <- Hv, <- getFieldValue_trim.
      apply trimmed_trim. }
  destruct Hcond as [Hctrim Hcne].
  split; [exact Hcne|]. split; [apply trim_trimmed; exact Hctrim|].
  split.
  { rewrite categorizeItem_Some. apply firstCategory_range. }
  split; [apply calculateItemConfidence_range|].
  split; reflexivity.
Qed.

Lemma produced_items_are_well_formed_witness :
  In (scenarioItem (js "OBRA"))
     (processRows 2026 (js "OBRA") scenarioRawTable).1
  /\ itemName (scenarioItem (js "OBRA")) <> []
  /\ trim (itemName (scenarioItem (js "OBRA")))
     = itemName (scenarioItem (js "OBRA"))
  /\ condition (scenarioItem (js "OBRA")) <> []
  /\ trim (condition (scenarioItem (js "OBRA")))
     = condition (scenarioItem (js "OBRA"))
  /\ In (category (scenarioItem (js "OBRA"))) categoryNames
  /\ (0 <= confidence (scenarioItem (js "OBRA")) <= 100)%Z
  /\ project (scenarioItem (js "OBRA")) = js "OBRA"
  /\ source (scenarioItem (js "OBRA")) = js "azure_ai".
Proof.
  assert (H : In (scenarioItem (js "OBRA"))
                 (processRows 2026 (js "OBRA") scenarioRawTable).1)
    by (left; vm_compute; reflexivity).
  split; [exact H|].
  exact (produced_items_are_well_formed 2026 (js "OBRA") scenarioRawTable
           (scenarioItem (js "OBRA")) H).
Defined.

(** ** Item identifiers *)

Lemma map_fst_indexed {A : Type} (l : list A) (k : nat) :
  map fst (imap (fun i x => ((k + i)%nat, x)) l) = seq k (length l).
Proof.
  revert k. induction l as [|x l IH]; intros k; [reflexivity|].
  cbn [imap map fst length seq]. rewrite Nat.add_0_r. f_equal.
  rewrite <- (IH (S k)). f_equal. apply imap_ext. intros i y _.
  cbn. f_equal. lia.
Qed.

Lemma NoDup_map_fst_filter {A : Type} (p : nat * A -> bool)
    (l : list (nat * A)) :
  List.NoDup (map fst l) -> List.NoDup (map fst (List.filter p l)).
Proof.
  induction l as [|a l IH]; cbn [map List.filter]; intros H; [constructor|].
  inversion H as [|? ? Hfresh Hnd]; subst.
  destruct (p a); [|apply IH; exact Hnd].
  cbn [map]. constructor; [|apply IH; exact Hnd].
  intros Hin. apply Hfresh. apply in_map_iff in Hin as (b & Hb & Hin).
  apply filter_In in Hin as [Hin _]. apply in_map_iff. eauto.
Qed.

Lemma producedRows_indices_NoDup (rows : list (list jsstring)) :
  List.NoDup (map fst (producedRows rows)).
Proof.
  unfold producedRows. apply NoDup_map_fst_filter.
  change (@pair nat (list jsstring))
    with (fun i (x : list jsstring) => ((0 + i)%nat, x)).
  rewrite map_fst_indexed. apply seq_NoDup.
Qed.

(** X19: the ids of the produced items are pairwise distinct, and each is
    "azure_" followed by the index of a row of the table. *)
Theorem item_ids_are_unique (currentYear : Z) (proj : jsstring)
    (tableData : RawTable) :
  List.NoDup (map id (processRows currentYear proj tableData).1)
  /\ (forall item,
        In item (processRows currentYear proj tableData).1 ->
        exists index row,
          rows tableData !! index = Some row
          /\ id item = js "azure_" ++ decimal index).
Proof.
  split.
  - unfold processRows.
    destruct ((0 <? length (headers tableData))%nat
              && (0 <? length (rows tableData))%nat); [|constructor].
    rewrite fold_processRow. cbn [fst app]. rewrite map_map. cbn [id makeItem].
    fold (producedRows (rows tableData)).
    pose proof (producedRows_indices_NoDup (rows tableData)) as Hnd.
    induction (producedRows (rows tableData)) as [|ir irs IH];
      [constructor|].
    cbn [map] in *. inversion Hnd as [|? ? Hfresh Hnd']; subst.
    constructor; [|apply IH; exact Hnd'].
    intros Hin. apply Hfresh. apply in_map_iff in Hin as (ir' & Heq & Hin).
    apply app_inv_head, decimal_inj in Heq. apply in_map_iff. eauto.
  - intros item Hin.
    apply processRows_items in Hin as (index & row & Hrow & _ & ->).
    exists index, row. split; [exact Hrow | reflexivity].
Qed.

(** ** The summary of a response *)

Lemma sumZ_confidence_bounds (mappings : gmap string nat)
    (irs : list (nat * list jsstring)) :
  (0 <= sumZ (map (fun ir => calculateItemConfidence ir.2 mappings) irs)
   <= 100 * Z.of_nat (length irs))%Z.
Proof.
  induction irs as [|ir irs IH]; cbn [map sumZ foldr length]; [lia|].
  pose proof (calculateItemConfidence_range ir.2 mappings).
  unfold sumZ in IH. lia.
Qed.

Lemma roundDiv_bounds (total : Z) (n : nat) :
  (0 < n)%nat -> (0 <= total <= 100 * Z.of_nat n)%Z ->
  (0 <= roundDiv total n <= 100)%Z.
Proof.
  intros Hn Ht. unfold roundDiv. split.
  - apply Z.div_pos; lia.
  - apply Z.lt_succ_r, Z.div_lt_upper_bound; lia.
Qed.

Lemma processRows_totals (currentYear : Z) (proj : jsstring)
    (tableData : RawTable) :
  let st := processRows currentYear proj tableData in
  (length st.1 <= length (rows tableData))%nat
  /\ (0 <= st.2 <= 100 * Z.of_nat (length st.1))%Z.
Proof.
  unfold processRows.
  destruct ((0 <? length (headers tableData))%nat
            && (0 <? length (rows tableData))%nat); cbn zeta;
    [|cbn; lia].
  rewrite fold_processRow. cbn [fst snd app]. rewrite length_map, Z.add_0_l.
  split.
  - etransitivity; [apply filter_length_le|]. rewrite length_imap. lia.
  - pose proof (sumZ_confidence_bounds
                  (detectFieldMappings (headers tableData))
                  (List.filter (fun ir => rowHasContent ir.2)
                               (imap pair (rows tableData)))) as Hs.
    exact Hs.
Qed.

(** X20: when the first table of the analysis result, if there is one, has
    no more cells than the arguments the engine accepts in one call, the
    handler's pipeline returns a success result whose [totalItems] is the
    number of items, whose [tablesDetected] is the number of tables, whose
    [confidenceScore] is between 0 and 100, whose [fieldMappingSuccess]
    says that there is an item, and which has no more items than the first
    table has rows. *)
Theorem response_summary_is_consistent (argumentLimit : nat)
    (currentYear : Z) (proj : jsstring)
    (result_tables : option (list AzureTable)) :
  firstTableTooLarge argumentLimit result_tables = false ->
  exists result,
    extractInventory argumentLimit currentYear proj result_tables
    = Returned result
    /\ success result = true
    /\ projectName result = proj
    /\ totalItems result = length (extractedItems result)
    /\ tablesDetected (processingInfo result)
       = length (default [] result_tables)
    /\ (0 <= confidenceScore (processingInfo result) <= 100)%Z
    /\ (fieldMappingSuccess (processingInfo result) = true
        <-> extractedItems result <> [])
    /\ (forall table others tableData,
          result_tables = Some (table :: others) ->
          processAzureTable argumentLimit table = Returned tableData ->
          (totalItems result <= length (rows tableData))%nat).
Proof.
  intros Hfits. unfold extractInventory.
  unfold firstTableTooLarge in Hfits.
  set (tables := default [] result_tables) in *.
  assert (Hst : exists st,
    match tables with
    | [] => Returned ([], 0%Z)
    | mainTable :: _ =>
        bind (processAzureTable argumentLimit mainTable)
             (fun tableData =>
                Returned (processRows currentYear proj tableData))
    end = Returned st
    /\ (0 <= st.2 <= 100 * Z.of_nat (length st.1))%Z
    /\ (forall table others tableData,
          tables = table :: others ->
          processAzureTable argumentLimit table = Returned tableData ->
          (length st.1 <= length (rows tableData))%nat)).
  { destruct tables as [|t others].
    - exists ([], 0%Z). split; [reflexivity|]. split; [cbn; lia|].
      intros ? ? ? E. discriminate E.
    - apply Nat.ltb_ge in Hfits.
      rewrite (processAzureTable_within_limit _ _ Hfits). cbn [bind].
      eexists. split; [reflexivity|].
      destruct (processRows_totals currentYear proj
                  (tableOfCells (cells t))) as [Hlen Hsum].
      split; [exact Hsum|].
      intros table others' tableData E Htd. injection E as <- <-.
      apply processAzureTable_Returned in Htd as [_ ->]. exact Hlen. }
  destruct Hst as (st & -> & Hsum & Hrows). cbn [bind].
  eexists. split; [reflexivity|].
  cbn [success projectName totalItems extractedItems processingInfo
       tablesDetected confidenceScore fieldMappingSuccess].
  split; [reflexivity|]. split; [reflexivity|]. split; [reflexivity|].
  split; [reflexivity|]. split; [|split].
  - unfold averageConfidence. destruct st.1 as [|item items] eqn:Hitems.
    + cbn. lia.
    + cbn [length Nat.ltb Nat.leb].
      apply roundDiv_bounds; [cbn; lia | exact Hsum].
  - destruct st.1; cbn; split; congruence.
  - intros table others tableData E Htd. apply (Hrows table others tableData).
    + subst tables. rewrite E. reflexivity.
    + exact Htd.
Qed.

Lemma response_summary_is_consistent_witness :
  firstTableTooLarge 1000 (Some [scenarioTable; headerOnlyTable]) = false
  /\ exists result,
       extractInventory 1000 2026 (js "OBRA NORTE")
         (Some [scenarioTable; headerOnlyTable])
       = Returned result
       /\ success result = true
       /\ projectName result = js "OBRA NORTE"
       /\ totalItems result = length (extractedItems result)
       /\ tablesDetected (processingInfo result)
          = length (default [] (Some [scenarioTable; headerOnlyTable]))
       /\ (0 <= confidenceScore (processingInfo result) <= 100)%Z
       /\ (fieldMappingSuccess (processingInfo result) = true
           <-> extractedItems result <> [])
       /\ (forall table others tableData,
             Some [scenarioTable; headerOnlyTable] = Some (table :: others) ->
             processAzureTable 1000 table = Returned tableData ->
             (totalItems result <= length (rows tableData))%nat).
Proof.
  assert (H : firstTableTooLarge 1000 (Some [scenarioTable; headerOnlyTable])
              = false) by (vm_compute; reflexivity).
  split; [exact H|].
  exact (response_summary_is_consistent 1000 2026 (js "OBRA NORTE")
           (Some [scenarioTable; headerOnlyTable]) H).
Defined.

(** ** Table Normalizer: the order of the cells *)

Lemma Math_max_Permutation (xs ys : list nat) :
  Permutation xs ys -> Math_max xs = Math_max ys.
Proof.
  intros Hp. destruct xs as [|x xs].
  - apply Permutation_nil in Hp. subst ys. reflexivity.
  - assert (ys <> []) as Hys.
    { intros ->. apply Permutation_sym, Permutation_nil in Hp.
      discriminate Hp. }
    destruct (Math_max_spec (x :: xs)) as (m & -> & Hm & Hall);
      [discriminate|].
    destruct (Math_max_spec ys Hys) as (m' & -> & Hm' & Hall').
    rewrite List.Forall_forall in Hall, Hall'.
    pose proof (Hall' m (Permutation_in _ Hp Hm)).
    pose proof (Hall m' (Permutation_in _ (Permutation_sym Hp) Hm')).
    f_equal. lia.
Qed.

Lemma atCoordinate_coordinate (r c : nat) (x : AzureCell) :
  atCoordinate r c x = true <-> coordinate x = (r, c).
Proof.
  rewrite atCoordinate_true. unfold coordinate. split.
  - intros [-> ->]. reflexivity.
  - intros H. inversion H. auto.
Qed.

(** With one cell for each coordinate, the content at a cell's coordinate
    is the content of that cell. *)
Lemma contentAt_In (cs : list AzureCell) (x : AzureCell) :
  List.NoDup (map coordinate cs) -> In x cs ->
  contentAt cs (rowIndex x) (columnIndex x) = default [] (content x).
Proof.
  intros Hnd Hin. apply in_split in Hin as (before & after & ->).
  apply contentAt_unique. intros y Hy.
  apply not_true_is_false. intros Hat.
  apply atCoordinate_coordinate in Hat.
  rewrite map_app in Hnd. cbn [map] in Hnd.
  apply NoDup_remove_2 in Hnd. apply Hnd.
  rewrite <- map_app. change (rowIndex x, columnIndex x) with (coordinate x) in Hat.
  rewrite <- Hat. apply in_map. exact Hy.
Qed.

Lemma contentAt_Permutation (cs cs' : list AzureCell) (r c : nat) :
  List.NoDup (map coordinate cs) -> Permutation cs cs' ->
  contentAt cs r c = contentAt cs' r c.
Proof.
  intros Hnd Hp.
  assert (List.NoDup (map coordinate cs')) as Hnd'.
  { eapply Permutation_NoDup; [|exact Hnd]. apply Permutation_map, Hp. }
  destruct (List.filter (atCoordinate r c) cs) as [|x l] eqn:Hf.
  - assert (forall y, In y cs -> ~ (rowIndex y = r /\ columnIndex y = c))
      as Hnone.
    { intros y Hy Hat. apply atCoordinate_true in Hat.
      assert (In y (List.filter (atCoordinate r c) cs)) as Hin
        by (apply filter_In; auto).
      rewrite Hf in Hin. destruct Hin. }
    rewrite (contentAt_missing cs r c Hnone).
    symmetry. apply contentAt_missing. intros y Hy.
    apply Hnone. eapply Permutation_in; [apply Permutation_sym, Hp | exact Hy].
  - assert (In x (List.filter (atCoordinate r c) cs)) as Hin
      by (rewrite Hf; left; reflexivity).
    apply filter_In in Hin as [Hin Hat].
    apply atCoordinate_true in Hat as [<- <-].
    rewrite (contentAt_In cs x Hnd Hin).
    symmetry. apply contentAt_In; [exact Hnd'|].
    eapply Permutation_in; [exact Hp | exact Hin].
Qed.

(** X21: when no two cells share a coordinate, the order in which the
    cells are listed does not change the normalized table. *)
Theorem processAzureTable_ignores_cell_order (argumentLimit : nat)
    (cs cs' : list AzureCell) :
  List.NoDup (map coordinate cs) -> Permutation cs cs' ->
  processAzureTable argumentLimit {| cells := cs |}
  = processAzureTable argumentLimit {| cells := cs' |}.
Proof.
  intros Hnd Hp. rewrite !processAzureTable_by_limit. cbn [cells].
  rewrite <- (Permutation_length Hp).
  destruct (length cs <=? argumentLimit)%nat; [|reflexivity].
  unfold tableOfCells.
  rewrite (Math_max_Permutation (map rowIndex cs) (map rowIndex cs'))
    by (apply Permutation_map, Hp).
  rewrite (Math_max_Permutation (map columnIndex cs) (map columnIndex cs'))
    by (apply Permutation_map, Hp).
  f_equal. f_equal.
  - apply map_ext. intros col.
    rewrite !readCell_contentAt. apply contentAt_Permutation; assumption.
  - apply map_ext. intros row. apply map_ext. intros col.
    rewrite !readCell_contentAt. apply contentAt_Permutation; assumption.
Qed.

Lemma processAzureTable_ignores_cell_order_witness :
  List.NoDup (map coordinate (cells scenarioTable))
  /\ Permutation (cells scenarioTable) (rev (cells scenarioTable))
  /\ processAzureTable 1000 {| cells := cells scenarioTable |}
     = processAzureTable 1000 {| cells := rev (cells scenarioTable) |}.
Proof.
  assert (H1 : List.NoDup (map coordinate (cells scenarioTable))).
  { cbn. repeat (constructor; [cbn; intuition discriminate|]). constructor. }
  assert (H2 : Permutation (cells scenarioTable) (rev (cells scenarioTable)))
    by apply Permutation_rev.
  split; [exact H1|]. split; [exact H2|].
  exact (processAzureTable_ignores_cell_order 1000 _ _ H1 H2).
Defined.

(** ** Table Normalizer: reading a cell back *)

Lemma contentAt_last (before after : list AzureCell) (x : AzureCell) :
  (forall y, In y after -> coordinate y <> coordinate x) ->
  contentAt (before ++ x :: after) (rowIndex x) (columnIndex x)
  = default [] (content x).
Proof.
  intros Hafter. unfold contentAt. rewrite List.filter_app. cbn [List.filter].
  assert (atCoordinate (rowIndex x) (columnIndex x) x = true) as ->
    by (apply atCoordinate_true; auto).
  assert (List.filter (atCoordinate (rowIndex x) (columnIndex x)) after = [])
    as ->.
  { induction after as [|a after IH]; [reflexivity|]. cbn [List.filter].
    destruct (atCoordinate _ _ a) eqn:Ha.
    - apply atCoordinate_coordinate in Ha. exfalso.
      apply (Hafter a); [left; reflexivity | exact Ha].
    - apply IH. intros y Hy. apply Hafter. right. exact Hy. }
  rewrite last_snoc. reflexivity.
Qed.

Lemma processAzureTable_entry (argumentLimit : nat) (cs : list AzureCell)
    (tableData : RawTable) (maxRow maxCol r c : nat) :
  Math_max (map rowIndex cs) = Finite maxRow ->
  Math_max (map columnIndex cs) = Finite maxCol ->
  processAzureTable argumentLimit {| cells := cs |} = Returned tableData ->
  entryAt tableData r c
  = if ((r <=? maxRow) && (c <=? maxCol))%nat
    then Some (contentAt cs r c) else None.
Proof.
  intros Hrow Hcol Htd.
  apply processAzureTable_Returned in Htd as [_ Htd]. cbn [cells] in Htd.
  unfold tableOfCells in Htd.
  rewrite Hrow, Hcol in Htd. cbn [loopTo] in Htd.
  rewrite !Nat.sub_0_r in Htd.
  replace (S maxRow - 1)%nat with maxRow in Htd by lia.
  subst tableData. unfold entryAt.
  cbn [headers rows].
  destruct r as [|r'].
  - cbn [Nat.leb andb]. rewrite lookup_map.
    destruct (Nat.leb_spec c maxCol) as [Hc|Hc].
    + rewrite lookup_seq_lt by lia. cbn. rewrite readCell_contentAt.
      reflexivity.
    + rewrite lookup_seq_ge by lia. reflexivity.
  - rewrite lookup_map.
    destruct (Nat.leb_spec (S r') maxRow) as [Hr|Hr].
    + rewrite lookup_seq_lt by lia. cbn [fmap option_fmap option_map mbind
                                         option_bind andb].
      rewrite lookup_map.
      destruct (Nat.leb_spec c maxCol) as [Hc|Hc].
      * rewrite lookup_seq_lt by lia. cbn. rewrite readCell_contentAt.
        reflexivity.
      * rewrite lookup_seq_ge by lia. reflexivity.
    + rewrite lookup_seq_ge by lia. reflexivity.
Qed.

(** X22: the text of a cell is found in the normalized table at the cell's
    coordinate, provided no later cell of the list has that coordinate
    (the last cell listed for a coordinate wins). *)
Theorem cell_is_read_back (argumentLimit : nat)
    (before after : list AzureCell) (x : AzureCell) (tableData : RawTable) :
  (forall y, In y after -> coordinate y <> coordinate x) ->
  processAzureTable argumentLimit {| cells := before ++ x :: after |}
  = Returned tableData ->
  entryAt tableData (rowIndex x) (columnIndex x)
  = Some (default [] (content x)).
Proof.
  intros Hafter Htd.
  destruct (Math_max_spec (map rowIndex (before ++ x :: after)))
    as (maxRow & Hrow & _ & HallRow);
    [destruct before; discriminate|].
  destruct (Math_max_spec (map columnIndex (before ++ x :: after)))
    as (maxCol & Hcol & _ & HallCol);
    [destruct before; discriminate|].
  rewrite (processAzureTable_entry _ _ _ _ _ _ _ Hrow Hcol Htd).
  rewrite List.Forall_forall in HallRow, HallCol.
  assert (In x (before ++ x :: after)) as Hx
    by (apply in_or_app; right; left; reflexivity).
  pose proof (HallRow _ (in_map rowIndex _ _ Hx)) as Hr.
  pose proof (HallCol _ (in_map columnIndex _ _ Hx)) as Hc.
  apply Nat.leb_le in Hr, Hc. rewrite Hr, Hc. cbn [andb].
  rewrite (contentAt_last _ _ _ Hafter). reflexivity.
Qed.

Lemma cell_is_read_back_witness :
  (forall y, In y [textCell 1 1 "Dewalt"] ->
             coordinate y <> coordinate (textCell 1 0 "Sierra"))
  /\ processAzureTable 1000
       {| cells := [textCell 0 0 "Nombre"; textCell 1 0 "Taladro"]
                   ++ textCell 1 0 "Sierra" :: [textCell 1 1 "Dewalt"] |}
     = Returned {| headers := [js "Nombre"; []];
                   rows := [[js "Sierra"; js "Dewalt"]] |}
  /\ entryAt {| headers := [js "Nombre"; []];
                rows := [[js "Sierra"; js "Dewalt"]] |}
             (rowIndex (textCell 1 0 "Sierra"))
             (columnIndex (textCell 1 0 "Sierra"))
     = Some (default [] (content (textCell 1 0 "Sierra"))).
Proof.
  assert (H1 : forall y, In y [textCell 1 1 "Dewalt"] ->
                         coordinate y <> coordinate (textCell 1 0 "Sierra")).
  { intros y [<- | []]. discriminate. }
  assert (H2 : processAzureTable 1000
                 {| cells := [textCell 0 0 "Nombre"; textCell 1 0 "Taladro"]
                             ++ textCell 1 0 "Sierra" :: [textCell 1 1 "Dewalt"] |}
               = Returned {| headers := [js "Nombre"; []];
                             rows := [[js "Sierra"; js "Dewalt"]] |})
    by (vm_compute; reflexivity).
  split; [exact H1|]. split; [exact H2|].
  exact (cell_is_read_back 1000 _ _ _ _ H1 H2).
Defined.

(** ** File names *)

Lemma lowerAscii_dot (c : N) : lowerAscii c = dot -> c = dot.
Proof.
  unfold lowerAscii, dot. destruct ((65 <=? c) && (c <=? 90)) eqn:H; [|auto].
  apply andb_true_iff in H as [H1 H2]. apply N.leb_le in H1, H2. lia.
Qed.

Lemma equalIgnoringCase_iff (s ext : jsstring) :
  equalIgnoringCase s ext = true <-> map lowerAscii s = ext.
Proof.
  revert ext. induction s as [|x s IH]; intros [|p ext];
    cbn [equalIgnoringCase map]; try (split; [discriminate | discriminate]).
  - split; reflexivity.
  - rewrite andb_true_iff, N.eqb_eq, IH. split.
    + intros [-> ->]. reflexivity.
    + intros H. inversion H. auto.
Qed.

Lemma isExtension_iff (exts : list jsstring) (s : jsstring) :
  isExtension exts s = true
  <-> exists ext, s = dot :: ext /\ In (map lowerAscii ext) exts.
Proof.
  unfold isExtension. destruct s as [|x rest].
  - split; [discriminate | intros (ext & H & _); discriminate H].
  - rewrite andb_true_iff, N.eqb_eq, existsb_exists. split.
    + intros [-> (e & He & Heq)]. apply equalIgnoringCase_iff in Heq.
      exists rest. subst e. auto.
    + intros (ext & H & Hin). inversion H; subst. split; [reflexivity|].
      exists (map lowerAscii ext). split; [exact Hin|].
      apply equalIgnoringCase_iff. reflexivity.
Qed.

(** With extensions that hold no dot, the match is the last dot and what
    follows it, and there is at most one. *)
Lemma beforeExtension_iff (exts : list jsstring) (name stem : jsstring) :
  Forall (fun e => ~ In dot e) exts ->
  (beforeExtension exts name = Some stem
   <-> exists ext, name = stem ++ dot :: ext /\ In (map lowerAscii ext) exts).
Proof.
  intros Hexts. split.
  - revert stem. induction name as [|c name IH]; intros stem;
      cbn [beforeExtension]; destruct (isExtension exts _) eqn:Hx.
    + discriminate Hx.
    + discriminate.
    + intros H. inversion H; subst. apply isExtension_iff in Hx. exact Hx.
    + destruct (beforeExtension exts name) as [stem'|]; [|discriminate].
      cbn. intros H. inversion H; subst.
      destruct (IH stem' eq_refl) as (ext & -> & Hin). eauto.
  - intros (ext & -> & Hin). induction stem as [|c stem IH].
    + cbn [app beforeExtension].
      assert (isExtension exts (dot :: ext) = true) as ->; [|reflexivity].
      apply isExtension_iff. eauto.
    + cbn [app beforeExtension].
      assert (isExtension exts (c :: stem ++ dot :: ext) = false) as ->.
      { apply not_true_is_false. intros Hx.
        apply isExtension_iff in Hx as (ext' & Heq & Hin').
        inversion Heq; subst. rewrite List.Forall_forall in Hexts.
        apply (Hexts _ Hin'). rewrite map_app. apply in_or_app. right.
        left. reflexivity. }
      rewrite IH. reflexivity.
Qed.

Lemma excelExtensions_no_dot : Forall (fun e => ~ In dot e) excelExtensions.
Proof. repeat constructor; cbn; intuition discriminate. Qed.

Lemma knownExtensions_no_dot : Forall (fun e => ~ In dot e) knownExtensions.
Proof. repeat constructor; cbn; intuition discriminate. Qed.

(** X23: a file name counts as Excel exactly when it ends with a dot and
    "xlsx" or "xls" in any mix of upper and lower case. *)
Theorem excel_names_by_extension (name : jsstring) :
  isExcelName name = true
  <-> exists stem ext,
        name = stem ++ dot :: ext
        /\ (map lowerAscii ext = js "xlsx" \/ map lowerAscii ext = js "xls").
Proof.
  unfold isExcelName. split.
  - destruct (beforeExtension excelExtensions name) as [stem|] eqn:H;
      [|discriminate]. intros _.
    apply (beforeExtension_iff _ _ _ excelExtensions_no_dot) in H
      as (ext & -> & Hin).
    exists stem, ext. split; [reflexivity|].
    destruct Hin as [<- | [<- | []]]; auto.
  - intros (stem & ext & -> & Hext).
    assert (beforeExtension excelExtensions (stem ++ dot :: ext) = Some stem)
      as ->; [|reflexivity].
    apply (beforeExtension_iff _ _ _ excelExtensions_no_dot).
    exists ext. split; [reflexivity|].
    destruct Hext as [-> | ->]; cbn; auto.
Qed.

(** X24: for a file name that ends with a dot and one of pdf, csv, png,
    jpg, jpeg in any case, the project name is derived from what is
    before that dot alone: its dashes and underscores become spaces, one
    for one, and the result is put in upper case. *)
Theorem project_name_drops_one_known_extension
    (toUpperCase : jsstring -> jsstring) (stem ext : jsstring) :
  In (map lowerAscii ext) knownExtensions ->
  deriveProjectName toUpperCase (stem ++ dot :: ext)
  = toUpperCase (dashesToSpaces stem)
  /\ length (dashesToSpaces stem) = length stem
  /\ ~ In 45 (dashesToSpaces stem) /\ ~ In 95 (dashesToSpaces stem).
Proof.
  intros Hin. unfold deriveProjectName, stripKnownExtension.
  assert (beforeExtension knownExtensions (stem ++ dot :: ext) = Some stem)
    as ->.
  { apply (beforeExtension_iff _ _ _ knownExtensions_no_dot). eauto. }
  split; [reflexivity|]. unfold dashesToSpaces.
  split; [apply length_map|].
  split; intros H; apply in_map_iff in H as (c & Hc & _);
    destruct ((c =? 45) || (c =? 95)) eqn:E; try discriminate Hc;
    subst c; discriminate E.
Qed.

Lemma project_name_drops_one_known_extension_witness :
  In (map lowerAscii (js "PDF")) knownExtensions
  /\ deriveProjectName (fun s => s) (js "obra-norte_2.pdf" ++ dot :: js "PDF")
     = dashesToSpaces (js "obra-norte_2.pdf")
  /\ length (dashesToSpaces (js "obra-norte_2.pdf"))
     = length (js "obra-norte_2.pdf")
  /\ ~ In 45 (dashesToSpaces (js "obra-norte_2.pdf"))
  /\ ~ In 95 (dashesToSpaces (js "obra-norte_2.pdf")).
Proof.
  assert (H : In (map lowerAscii (js "PDF")) knownExtensions)
    by (left; vm_compute; reflexivity).
  split; [exact H|].
  exact (project_name_drops_one_known_extension (fun s => s)
           (js "obra-norte_2.pdf") (js "PDF") H).
Defined.

(** ** The handler *)

Lemma extractInventory_returns (argumentLimit : nat) (currentYear : Z)
    (proj : jsstring) (result_tables : option (list AzureTable)) :
  firstTableTooLarge argumentLimit result_tables = false ->
  exists result,
    extractInventory argumentLimit currentYear proj result_tables
    = Returned result
    /\ success result = true /\ projectName result = proj.
Proof.
  unfold firstTableTooLarge, extractInventory.
  destruct (default [] result_tables) as [|t others]; intros Hfits.
  - cbn [bind]. eexists. split; [reflexivity|]. split; reflexivity.
  - apply Nat.ltb_ge in Hfits.
    rewrite (processAzureTable_within_limit _ _ Hfits). cbn [bind]. eexists.
    split; [reflexivity|]. split; reflexivity.
Qed.

Lemma extractInventory_throws (argumentLimit : nat) (currentYear : Z)
    (proj : jsstring) (result_tables : option (list AzureTable)) :
  firstTableTooLarge argumentLimit result_tables = true ->
  extractInventory argumentLimit currentYear proj result_tables
  = Thrown RangeError.
Proof.
  unfold firstTableTooLarge, extractInventory.
  destruct (default [] result_tables) as [|t others]; intros Hlarge;
    [discriminate Hlarge|].
  apply Nat.ltb_lt in Hlarge.
  rewrite (processAzureTable_over_limit _ _ Hlarge). reflexivity.
Qed.

(** X25: an upload whose name ends with .xlsx or .xls (any case) gets the
    400 "Excel format requires conversion" response, whatever the analysis
    service would answer. *)
Theorem excel_upload_is_refused_before_analysis
    (toUpperCase : jsstring -> jsstring)
    (analyze : list N -> analysis) (argumentLimit : nat) (currentYear : Z)
    (f : UploadedFile) (stem ext : jsstring) :
  originalname f = stem ++ dot :: ext ->
  map lowerAscii ext = js "xlsx" \/ map lowerAscii ext = js "xls" ->
  handleExtractInventory toUpperCase analyze argumentLimit currentYear
    (Some f)
  = excelRefusal.
Proof.
  intros Hname Hext. unfold handleExtractInventory.
  assert (isExcelName (originalname f) = true) as ->; [|reflexivity].
  unfold isExcelName.
  assert (beforeExtension excelExtensions (originalname f) = Some stem)
    as ->; [|reflexivity].
  apply (beforeExtension_iff _ _ _ excelExtensions_no_dot).
  exists ext. split; [exact Hname|].
  destruct Hext as [-> | ->]; cbn; auto.
Qed.

Lemma excel_upload_is_refused_before_analysis_witness :
  originalname {| originalname := js "Inventario.Obra.XLSX"; buffer := [] |}
    = js "Inventario.Obra" ++ dot :: js "XLSX"
  /\ (map lowerAscii (js "XLSX") = js "xlsx"
      \/ map lowerAscii (js "XLSX") = js "xls")
  /\ handleExtractInventory (fun s => s) (constantService [scenarioTable])
       1000 2026
       (Some {| originalname := js "Inventario.Obra.XLSX"; buffer := [] |})
     = excelRefusal.
Proof.
  assert (H1 : originalname
                 {| originalname := js "Inventario.Obra.XLSX"; buffer := [] |}
               = js "Inventario.Obra" ++ dot :: js "XLSX") by reflexivity.
  assert (H2 : map lowerAscii (js "XLSX") = js "xlsx"
               \/ map lowerAscii (js "XLSX") = js "xls")
    by (left; vm_compute; reflexivity).
  split; [exact H1|]. split; [exact H2|].
  exact (excel_upload_is_refused_before_analysis (fun s => s)
           (constantService [scenarioTable]) 1000 2026 _ _ _ H1 H2).
Defined.

(** X26: for an upload that is not Excel, the response is 500 "Processing
    failed" with the service's message when the analysis fails, 500
    "Processing failed" with the message of the [RangeError] when the
    first table of the result has more cells than the engine accepts as
    the arguments of one call, and otherwise 200 with the result of the
    pipeline for the derived project name. *)
Theorem analysis_outcome_decides_status
    (toUpperCase : jsstring -> jsstring)
    (analyze : list N -> analysis) (argumentLimit : nat) (currentYear : Z)
    (f : UploadedFile) :
  isExcelName (originalname f) = false ->
  let response :=
    handleExtractInventory toUpperCase analyze argumentLimit currentYear
      (Some f) in
  match analyze (buffer f) with
  | AnalysisFailed message =>
      response = processingFailed (MessageText message)
  | Analyzed result_tables =>
      if firstTableTooLarge argumentLimit result_tables
      then response = processingFailed (MessageOf RangeError)
      else
        exists result,
          response = {| status := 200; body := ResultJson result |}
          /\ extractInventory argumentLimit currentYear
               (deriveProjectName toUpperCase (originalname f)) result_tables
             = Returned result
          /\ success result = true
          /\ projectName result
             = deriveProjectName toUpperCase (originalname f)
  end.
Proof.
  intros Hname response. subst response. unfold handleExtractInventory.
  rewrite Hname. destruct (analyze (buffer f)) as [result_tables | message];
    [|reflexivity].
  destruct (firstTableTooLarge argumentLimit result_tables) eqn:Hsize.
  - rewrite (extractInventory_throws _ _ _ _ Hsize). reflexivity.
  - destruct (extractInventory_returns argumentLimit currentYear
                (deriveProjectName toUpperCase (originalname f)) result_tables
                Hsize)
      as (result & Hr & Hs & Hp).
    exists result. rewrite Hr. auto.
Qed.

Lemma analysis_outcome_decides_status_witness :
  isExcelName (js "obra.pdf") = false
  /\ handleExtractInventory (fun s => s) (failingService (js "quota"))
       1000 2026 (Some {| originalname := js "obra.pdf"; buffer := [] |})
     = processingFailed (MessageText (js "quota"))
  /\ handleExtractInventory (fun s => s) (constantService [scenarioTable])
       2 2026 (Some {| originalname := js "obra.pdf"; buffer := [] |})
     = processingFailed (MessageOf RangeError)
  /\ exists result,
       handleExtractInventory (fun s => s) (constantService [scenarioTable])
         1000 2026 (Some {| originalname := js "obra.pdf"; buffer := [] |})
       = {| status := 200; body := ResultJson result |}
       /\ extractInventory 1000 2026
            (deriveProjectName (fun s => s) (js "obra.pdf"))
            (Some [scenarioTable])
          = Returned result
       /\ success result = true
       /\ projectName result = deriveProjectName (fun s => s) (js "obra.pdf").
Proof.
  assert (H : isExcelName
                (originalname {| originalname := js "obra.pdf"; buffer := [] |})
              = false) by (vm_compute; reflexivity).
  split; [exact H|]. split; [|split].
  - exact (analysis_outcome_decides_status (fun s => s)
             (failingService (js "quota")) 1000 2026
             {| originalname := js "obra.pdf"; buffer := [] |} H).
  - exact (analysis_outcome_decides_status (fun s => s)
             (constantService [scenarioTable]) 2 2026
             {| originalname := js "obra.pdf"; buffer := [] |} H).
  - exact (analysis_outcome_decides_status (fun s => s)
             (constantService [scenarioTable]) 1000 2026
             {| originalname := js "obra.pdf"; buffer := [] |} H).
Defined.

(** ** The confidence class shown by the page *)

(** X27: the page shows an item as "high" exactly when item name, brand and
    model are present together with the purchase date or the
    specifications; an item without a name is "low", and a "medium" item
    has a name. *)
Theorem confidence_class_by_fields (row : list jsstring)
    (mappings : gmap string nat) :
  let class := confidenceClass (calculateItemConfidence row mappings) in
  let present := fieldPresent row mappings in
  (class = js "high"
   <-> present "itemName" && present "brand" && present "model"
       && (present "purchaseDate" || present "specifications") = true)
  /\ (present "itemName" = false -> class = js "low")
  /\ (class = js "medium" -> present "itemName" = true).
Proof.
  cbv zeta. unfold calculateItemConfidence.
  rewrite !getFieldValue_truthy.
  destruct (fieldPresent row mappings "itemName"),
           (fieldPresent row mappings "brand"),
           (fieldPresent row mappings "model"),
           (fieldPresent row mappings "purchaseDate"),
           (fieldPresent row mappings "specifications");
    vm_compute; (split; [split|split]); intros H;
    solve [reflexivity | discriminate H].
Qed.
